(** * LMS course service and client data layer: a shallow embedding

    The development follows [server/src/controllers/courseControllers.ts]
    (the Express handlers of the course service and of the upload-URL
    service) and the [updateUserCourseProgress] endpoint of the client
    data layer ([createApi] in the client state module).

    JavaScript values are embedded as a small tagged union, JavaScript
    objects as ordered property lists, the course table and the query cache
    as finite maps, and every handler as a function from the request and the
    world (table, identifiers already drawn, signing calls) to the response
    and the new world. *)

From Stdlib Require Import ZArith Ascii String List Lia.
From stdpp Require Import base option list gmap strings fin_maps pretty.

Local Open Scope Z_scope.
Local Open Scope string_scope.

(** ** JavaScript values *)

(** Numbers are the integer-valued doubles, written as [Z]; the model is
    exact inside the safe range of [Number.MAX_SAFE_INTEGER], which the
    theorems about arithmetic state as a hypothesis.  Strings are sequences
    of code units below 256. *)
Unset Elimination Schemes.
Inductive JsVal : Type :=
| JUndefined
| JNull
| JBool (b : bool)
| JNum (n : Z)
| JStr (s : string)
| JArr (items : list JsVal)
| JObj (props : list (string * JsVal)).
Set Elimination Schemes.

Abbreviation JsObj := (list (string * JsVal)).

Definition MAX_SAFE_INTEGER : Z := 2 ^ 53 - 1.

Definition safe_integer (n : Z) : Prop := Z.abs n <= MAX_SAFE_INTEGER.

(** Structural induction through the nested lists. *)
Definition JsVal_nested_ind (P : JsVal -> Prop)
    (Hundef : P JUndefined) (Hnull : P JNull)
    (Hbool : forall b, P (JBool b)) (Hnum : forall n, P (JNum n))
    (Hstr : forall s, P (JStr s))
    (Harr : forall items, Forall P items -> P (JArr items))
    (Hobj : forall props, Forall (fun kv => P (snd kv)) props -> P (JObj props)) :
  forall v, P v :=
  fix go (v : JsVal) : P v :=
    match v with
    | JUndefined => Hundef
    | JNull => Hnull
    | JBool b => Hbool b
    | JNum n => Hnum n
    | JStr s => Hstr s
    | JArr items =>
        Harr items
          ((fix all (l : list JsVal) : Forall P l :=
              match l with
              | [] => @List.Forall_nil _ P
              | x :: l' => @List.Forall_cons _ P x l' (go x) (all l')
              end) items)
    | JObj props =>
        Hobj props
          ((fix all (l : list (string * JsVal)) : Forall (fun kv => P (snd kv)) l :=
              match l with
              | [] => @List.Forall_nil _ _
              | kv :: l' => @List.Forall_cons _ _ kv l' (go (snd kv)) (all l')
              end) props)
    end.

(** Structural equality of values (what a deep comparison of two JSON
    documents decides). *)
Fixpoint jsval_eqb (v w : JsVal) {struct v} : bool :=
  match v, w with
  | JUndefined, JUndefined => true
  | JNull, JNull => true
  | JBool a, JBool b => Bool.eqb a b
  | JNum a, JNum b => Z.eqb a b
  | JStr a, JStr b => String.eqb a b
  | JArr xs, JArr ys =>
      (fix go (xs ys : list JsVal) {struct xs} : bool :=
         match xs, ys with
         | [], [] => true
         | x :: xs', y :: ys' => jsval_eqb x y && go xs' ys'
         | _, _ => false
         end) xs ys
  | JObj ps, JObj qs =>
      (fix go (ps qs : list (string * JsVal)) {struct ps} : bool :=
         match ps, qs with
         | [], [] => true
         | (k, x) :: ps', (k', y) :: qs' =>
             String.eqb k k' && jsval_eqb x y && go ps' qs'
         | _, _ => false
         end) ps qs
  | _, _ => false
  end.

(** ToBoolean: [undefined], [null], [false], [0] and the empty string are
    falsy; every array and object is truthy. *)
Definition truthy (v : JsVal) : bool :=
  match v with
  | JUndefined | JNull => false
  | JBool b => b
  | JNum n => negb (Z.eqb n 0)
  | JStr s => negb (String.eqb s "")
  | JArr _ | JObj _ => true
  end.

(** Strict equality [===] of two values that do not alias: primitives are
    compared by value, and two separately built arrays or objects are never
    the same reference. *)
Definition strict_eq (v w : JsVal) : bool :=
  match v, w with
  | JUndefined, JUndefined => true
  | JNull, JNull => true
  | JBool a, JBool b => Bool.eqb a b
  | JNum a, JNum b => Z.eqb a b
  | JStr a, JStr b => String.eqb a b
  | _, _ => false
  end.

(** ** Objects as ordered property lists *)

Fixpoint obj_get (k : string) (o : JsObj) : option JsVal :=
  match o with
  | [] => None
  | (k', v) :: o' => if String.eqb k k' then Some v else obj_get k o'
  end.

(** [o[k] = v]: an existing property keeps its place, a new one goes last. *)
Fixpoint obj_set (k : string) (v : JsVal) (o : JsObj) : JsObj :=
  match o with
  | [] => [(k, v)]
  | (k', v') :: o' =>
      if String.eqb k k' then (k, v) :: o' else (k', v') :: obj_set k v o'
  end.

(** [delete o[k]] *)
Fixpoint obj_remove (k : string) (o : JsObj) : JsObj :=
  match o with
  | [] => []
  | (k', v') :: o' =>
      if String.eqb k k' then o' else (k', v') :: obj_remove k o'
  end.

(** [Object.assign(target, source)]: every own property of the source is
    written to the target, in the source's order. *)
Definition Object_assign (target source : JsObj) : JsObj :=
  fold_left (fun acc kv => obj_set (fst kv) (snd kv) acc) source target.

(** Property read [o.k] on an object: a missing property is [undefined]. *)
Definition prop (o : JsObj) (k : string) : JsVal :=
  default JUndefined (obj_get k o).

Definition obj_keys (o : JsObj) : list string := map fst o.

(** Index keys ["0"], ["1"], ... of an array or string being spread. *)
Definition index_key (i : nat) : string := pretty (Z.of_nat i).

Fixpoint indexed {A : Type} (f : A -> JsVal) (i : nat) (l : list A) : JsObj :=
  match l with
  | [] => []
  | x :: l' => (index_key i, f x) :: indexed f (S i) l'
  end.

Definition chars (s : string) : list ascii := list_ascii_of_string s.

(** Object spread [{...v}]: the own enumerable properties of [v]; nothing
    for [undefined], [null], numbers and booleans; the indexed elements of
    an array and the indexed characters of a string. *)
Definition spread (v : JsVal) : JsObj :=
  match v with
  | JObj o => o
  | JArr l => indexed (fun x => x) 0 l
  | JStr s => indexed (fun c => JStr (String c EmptyString)) 0 (chars s)
  | _ => []
  end.

(** ** ToString and parseInt *)

Definition join_with (sep : string) (l : list string) : string :=
  match l with
  | [] => ""
  | x :: l' => fold_left (fun acc y => String.append acc (String.append sep y)) l' x
  end.

(** What the handlers can throw and catch. *)
Inductive Exn : Type :=
| TypeError                 (* property read on null/undefined, call of a
                               non-function, ToString of an object that
                               cannot be converted *)
| SyntaxError               (* JSON.parse *)
| SaveError                 (* the document model refuses the record *)
| Error (msg : string).     (* [new Error(msg)], and errors of the signer *)

(** ToString, which throws on some objects.  A number prints in decimal,
    which is its text when it is a safe integer (see [safe_numbers]); an
    array joins the texts of its elements with commas, [null] and
    [undefined] elements printing as nothing, and throws what an element
    throws.  An object decoded from JSON has no callable member of its own:
    with an own [toString] property neither that property nor the inherited
    [valueOf] gives a primitive and the conversion throws a TypeError;
    without one the inherited [toString] prints ["[object Object]"]. *)
Fixpoint to_string (v : JsVal) : Exn + string :=
  match v with
  | JUndefined => inr "undefined"
  | JNull => inr "null"
  | JBool true => inr "true"
  | JBool false => inr "false"
  | JNum n => inr (pretty n)
  | JStr s => inr s
  | JArr l =>
      match
        (fix go (l : list JsVal) : Exn + list string :=
           match l with
           | [] => inr []
           | x :: l' =>
               match
                 match x with
                 | JUndefined | JNull => inr ""
                 | _ => to_string x
                 end
               with
               | inl e => inl e
               | inr s =>
                   match go l' with
                   | inl e => inl e
                   | inr ss => inr (s :: ss)
                   end
               end
           end) l
      with
      | inl e => inl e
      | inr ss => inr (join_with "," ss)
      end
  | JObj o =>
      match obj_get "toString" o with
      | Some _ => inl TypeError
      | None => inr "[object Object]"
      end
  end.

(** The numbers that ToString reaches in [v] are safe integers, whose text
    is their decimal expansion; a larger double prints the shortest digits
    that identify it, padded with zeros, and with an exponent from 10^21
    on. *)
Fixpoint safe_numbers (v : JsVal) : bool :=
  match v with
  | JNum n => Z.leb (Z.abs n) MAX_SAFE_INTEGER
  | JArr l =>
      (fix go (l : list JsVal) : bool :=
         match l with
         | [] => true
         | x :: l' => safe_numbers x && go l'
         end) l
  | _ => true
  end.

Definition code (c : ascii) : nat := nat_of_ascii c.

(** StrWhiteSpaceChar among the code units below 256: TAB, LF, VT, FF, CR,
    SP and NBSP. *)
Definition is_white_space (c : ascii) : bool :=
  match code c with
  | 9 | 10 | 11 | 12 | 13 | 32 | 160 => true
  | _ => false
  end%nat.

Fixpoint trim_start (s : string) : string :=
  match s with
  | String c s' => if is_white_space c then trim_start s' else s
  | EmptyString => s
  end.

(** Value of a digit in radix up to 36. *)
Definition digit_value (c : ascii) : option Z :=
  let n := code c in
  if Nat.leb 48 n && Nat.leb n 57 then Some (Z.of_nat n - 48)
  else if Nat.leb 97 n && Nat.leb n 122 then Some (Z.of_nat n - 87)
  else if Nat.leb 65 n && Nat.leb n 90 then Some (Z.of_nat n - 55)
  else None.

(** The longest prefix of radix-[R] digits, read as a number; [acc] is
    [None] until the first digit has been seen. *)
Fixpoint parse_digits (R : Z) (s : string) (acc : option Z) : option Z :=
  match s with
  | String c s' =>
      match digit_value c with
      | Some d =>
          if Z.ltb d R then parse_digits R s' (Some (default 0 acc * R + d))
          else acc
      | None => acc
      end
  | EmptyString => acc
  end.

(** [parseInt(s)] without a radix: leading white space is skipped, one sign
    is read, a [0x] or [0X] prefix selects radix 16, and the longest prefix
    of digits is the result; [None] is [NaN]. *)
Definition parseInt_string (s : string) : option Z :=
  let s1 := trim_start s in
  let '(sign, s2) :=
    match s1 with
    | String "-" r => (-1, r)
    | String "+" r => (1, r)
    | _ => (1, s1)
    end in
  let '(R, s3) :=
    match s2 with
    | String "0" (String "x" r) => (16, r)
    | String "0" (String "X" r) => (16, r)
    | _ => (10, s2)
    end in
  match parse_digits R s3 None with
  | Some m => Some (sign * m)
  | None => None
  end.

(** [parseInt(v)]: the argument is converted with ToString first, which
    can throw. *)
Definition parseInt (v : JsVal) : Exn + option Z :=
  match to_string v with
  | inl e => inl e
  | inr s => inr (parseInt_string s)
  end.

(** ** The world of the server *)

(** [error.message], where this program reads it: in the upload handler
    and in the base query of the client.  Neither decodes JSON or saves a
    record, and a TypeError can only be that of ToString there, worded as
    V8 words it. *)
Definition exn_message (e : Exn) : string :=
  match e with
  | TypeError => "Cannot convert object to primitive value"
  | SyntaxError => "SyntaxError"
  | SaveError => "ValidationError"
  | Error msg => msg
  end.

(** Parameters of one [s3.getSignedUrl] call. *)
Record S3Params : Type := mkS3Params {
  Bucket : string;
  Key : string;
  Expires : Z;
  ContentType : JsVal
}.

(** The course table (keyed by [courseId]), how many identifiers the
    generator has handed out, and the signing calls made so far. *)
Record World : Type := mkWorld {
  courses : gmap string JsObj;
  drawn : nat;
  s3_calls : list (string * S3Params)
}.

Definition with_courses (t : gmap string JsObj) (w : World) : World :=
  mkWorld t (drawn w) (s3_calls w).

Definition with_drawn (n : nat) (w : World) : World :=
  mkWorld (courses w) n (s3_calls w).

Definition with_s3_call (c : string * S3Params) (w : World) : World :=
  mkWorld (courses w) (drawn w) (s3_calls w ++ [c])%list.

(** A computation either returns or throws, and leaves a world behind. *)
Inductive Outcome (A : Type) : Type :=
| Return (a : A)
| Throw (e : Exn).
Arguments Return {A} a.
Arguments Throw {A} e.

Definition M (A : Type) : Type := World -> Outcome A * World.

Definition ret {A : Type} (a : A) : M A := fun w => (Return a, w).

Definition throw {A : Type} (e : Exn) : M A := fun w => (Throw e, w).

(** A conversion that returns or throws and leaves the world alone. *)
Definition lift {A : Type} (r : Exn + A) : M A :=
  match r with
  | inl e => throw e
  | inr a => ret a
  end.

Definition bind {A B : Type} (m : M A) (k : A -> M B) : M B :=
  fun w =>
    match m w with
    | (Return a, w') => k a w'
    | (Throw e, w') => (Throw e, w')
    end.

Notation "'let*' x ':=' m 'in' k" := (bind m (fun x => k))
  (at level 10, x name, m at level 100, k at level 200).

(** [try { body } catch (error) { handler }] *)
Definition try_catch {A : Type} (body : M A) (handler : Exn -> A) : World -> A * World :=
  fun w =>
    match body w with
    | (Return a, w') => (a, w')
    | (Throw e, w') => (handler e, w')
    end.

Fixpoint mapM {A B : Type} (f : A -> M B) (l : list A) : M (list B) :=
  match l with
  | [] => ret []
  | x :: l' =>
      let* y := f x in
      let* ys := mapM f l' in
      ret (y :: ys)
  end.

(** Member read [v.k] for the property names this program reads
    ([sectionId], [chapters], [chapterId]): a TypeError on [undefined] and
    [null], the own property of an object, and [undefined] on an array, a
    string, a number or a boolean, none of which has such a member. *)
Definition member (v : JsVal) (k : string) : M JsVal :=
  match v with
  | JUndefined | JNull => throw TypeError
  | JObj o => ret (prop o k)
  | _ => ret JUndefined
  end.

(** [v.map(f)]: only an array has a [map] function; on [undefined] and
    [null] the member read throws, on anything else the call does. *)
Definition call_map (v : JsVal) (f : JsVal -> M JsVal) : M JsVal :=
  match v with
  | JArr l => let* l' := mapM f l in ret (JArr l')
  | _ => throw TypeError
  end.

(** HTTP response: status and the JSON envelope [{message, data?, error?}]. *)
Inductive ErrorField : Type :=
| ErrText (s : string)
| ErrCaught (e : Exn).

Record Response : Type := mkResponse {
  status : Z;
  message : string;
  data : option JsVal;
  error : option ErrorField
}.

Record Request : Type := mkRequest {
  params_courseId : string;
  body : JsObj;
  auth_userId : option string
}.

(** [getAuth(req).userId]: a string, or [null] without a session. *)
Definition userId_of (req : Request) : JsVal :=
  match auth_userId req with
  | Some u => JStr u
  | None => JNull
  end.

(** ** The course service *)

Section CourseService.

(** The identifier generator: [uuidv4 n] is the string handed out by the
    [n]-th call of [uuidv4()]. *)
Variable uuidv4 : nat -> string.

(** [JSON.parse]; [None] is a SyntaxError. *)
Variable JSON_parse : string -> option JsVal.

(** The schema of the document model [Course] is declared in
    [models/courseModel], which is not among the sources at hand; it is
    taken as a parameter: does [save] accept the record? *)
Variable schema_ok : JsObj -> bool.

(** [process.env] and the signer of the storage client. *)
Variable S3_BUCKET_NAME : option string.
Variable CLOUDFRONT_DOMAIN : option string.
Variable getSignedUrl : string -> S3Params -> Exn + string.

Definition uuid : M JsVal :=
  fun w => (Return (JStr (uuidv4 (drawn w))), with_drawn (S (drawn w)) w).

(** [v || uuidv4()] *)
Definition or_uuid (v : JsVal) : M JsVal :=
  if truthy v then ret v else uuid.

(** Modelled from the spec: the document store accessor behind [Course]
    ([models/courseModel] is missing) is a key/value table addressed by its
    primary key [courseId], offering get, put and delete.
    [Course.get(courseId)] reads the table; a missing key gives
    [undefined]. *)
Definition Course_get (courseId : string) : M (option JsObj) :=
  fun w => (Return (courses w !! courseId), w).

(** Modelled from the spec: the put of the document store accessor
    ([models/courseModel] is missing).  [course.save()] puts the record
    under its own [courseId], which has to be a string, when the schema
    accepts it, and throws otherwise. *)
Definition Course_save (course : JsObj) : M unit :=
  fun w =>
    match prop course "courseId" with
    | JStr k =>
        if schema_ok course
        then (Return tt, with_courses (<[k := course]> (courses w)) w)
        else (Throw SaveError, w)
    | _ => (Throw SaveError, w)
    end.

(** Modelled from the spec: the delete of the document store accessor
    ([models/courseModel] is missing).  [Course.delete(courseId)] removes
    the key. *)
Definition Course_delete (courseId : string) : M unit :=
  fun w => (Return tt, with_courses (delete courseId (courses w)) w).

Definition reply (st : Z) (msg : string) : Response :=
  mkResponse st msg None None.

Definition reply_data (msg : string) (d : JsVal) : Response :=
  mkResponse 200 msg (Some d) None.

Definition reply_error (st : Z) (msg : string) (e : ErrorField) : Response :=
  mkResponse st msg None (Some e).

Definition getCourse (req : Request) : World -> Response * World :=
  let courseId := params_courseId req in
  try_catch
    (let* course := Course_get courseId in
     match course with
     | None => ret (reply 404 "Course not found")
     | Some course =>
         ret (reply_data "Course retrieved successfully" (JObj course))
     end)
    (fun error => reply_error 500 "Error retrieving course" (ErrCaught error)).

Definition createCourse (req : Request) : World -> Response * World :=
  try_catch
    (let teacherId := prop (body req) "teacherId" in
     let teacherName := prop (body req) "teacherName" in
     if negb (truthy teacherId) || negb (truthy teacherName) then
       ret (reply 400 "Teacher Id and name are required")
     else
       let* courseId := uuid in
       let newCourse : JsObj :=
         [ ("courseId", courseId);
           ("teacherId", teacherId);
           ("teacherName", teacherName);
           ("title", JStr "Untitled Course");
           ("description", JStr "");
           ("category", JStr "Uncategorized");
           ("image", JStr "");
           ("price", JNum 0);
           ("level", JStr "Beginner");
           ("status", JStr "Draft");
           ("sections", JArr []);
           ("enrollments", JArr []) ] in
       let* _ := Course_save newCourse in
       ret (reply_data "Course created successfully" (JObj newCourse)))
    (fun error => reply_error 500 "Error creating course" (ErrCaught error)).

(** Lines 96-106: the price of the patch.  [parseInt] can throw; otherwise
    the handler answers 400 or goes on with the patch. *)
Definition normalize_price (updateData : JsObj) : Exn + (Response + JsObj) :=
  if truthy (prop updateData "price") then
    match parseInt (prop updateData "price") with
    | inl e => inl e
    | inr None =>
        inr (inl (reply_error 400 "Invalid price format"
                    (ErrText "Price must be a valid number")))
    | inr (Some price) =>
        inr (inr (obj_set "price" (JNum (price * 100)) updateData))
    end
  else inr (inr updateData).

(** Lines 117-120: one chapter gets [chapterId || uuidv4()]. *)
Definition normalize_chapter (chapter : JsVal) : M JsVal :=
  let copy := spread chapter in
  let* chapterId0 := member chapter "chapterId" in
  let* chapterId := or_uuid chapterId0 in
  ret (JObj (obj_set "chapterId" chapterId copy)).

(** Lines 114-121: one section gets [sectionId || uuidv4()] and its
    chapters mapped. *)
Definition normalize_section (section : JsVal) : M JsVal :=
  let copy := spread section in
  let* sectionId0 := member section "sectionId" in
  let* sectionId := or_uuid sectionId0 in
  let* chapters0 := member section "chapters" in
  let* chapters := call_map chapters0 normalize_chapter in
  ret (JObj (obj_set "chapters" chapters (obj_set "sectionId" sectionId copy))).

(** Lines 109-112: a string is decoded, anything else is taken as it is. *)
Definition sections_data (sections : JsVal) : M JsVal :=
  match sections with
  | JStr s =>
      match JSON_parse s with
      | Some v => ret v
      | None => throw SyntaxError
      end
  | v => ret v
  end.

(** Lines 108-122: the sections of the patch. *)
Definition normalize_sections (updateData : JsObj) : M JsObj :=
  if truthy (prop updateData "sections") then
    let* sectionsData := sections_data (prop updateData "sections") in
    let* sections := call_map sectionsData normalize_section in
    ret (obj_set "sections" sections updateData)
  else ret updateData.

Definition updateCourse (req : Request) : World -> Response * World :=
  let courseId := params_courseId req in
  let updateData := spread (JObj (body req)) in
  let userId := userId_of req in
  try_catch
    (let* course := Course_get courseId in
     match course with
     | None => ret (reply 404 "Course not found")
     | Some course =>
         if negb (strict_eq (prop course "teacherId") userId) then
           ret (reply 403 "Not authorized to update this course ")
         else
           match normalize_price updateData with
           | inl e => throw e
           | inr (inl res) => ret res
           | inr (inr updateData) =>
               let* updateData := normalize_sections updateData in
               let course := Object_assign course updateData in
               let* _ := Course_save course in
               ret (reply_data "Course updated successfully" (JObj course))
           end
     end)
    (fun error => reply_error 500 "Error updating course" (ErrCaught error)).

Definition deleteCourse (req : Request) : World -> Response * World :=
  let courseId := params_courseId req in
  let userId := userId_of req in
  try_catch
    (let* course := Course_get courseId in
     match course with
     | None => ret (reply 404 "Course not found")
     | Some course =>
         if negb (strict_eq (prop course "teacherId") userId) then
           ret (reply 403 "Not authorized to delete this course ")
         else
           let* _ := Course_delete courseId in
           ret (reply_data "Course deleted successfully" (JObj course))
     end)
    (fun error => reply_error 500 "Error deleting course" (ErrCaught error)).

(** ** The upload-URL service *)

(** [process.env.X] inside a template literal. *)
Definition env_text (x : option string) : string :=
  match x with
  | Some s => s
  | None => "undefined"
  end.

Definition env_set (x : option string) : bool :=
  match x with
  | Some s => negb (String.eqb s "")
  | None => false
  end.

Definition s3_sign (op : string) (params : S3Params) : M string :=
  fun w =>
    match getSignedUrl op params with
    | inr url => (Return url, with_s3_call (op, params) w)
    | inl e => (Throw e, with_s3_call (op, params) w)
    end.

Definition getUploadVideoUrl (req : Request) : World -> Response * World :=
  try_catch
    (let fileName := prop (body req) "fileName" in
     let fileType := prop (body req) "fileType" in
     if negb (truthy fileName) || negb (truthy fileType) then
       ret (reply 400 "File name and type are required")
     else
       let* uniqueId := uuid in
       let* uniqueId_text := lift (to_string uniqueId) in
       let* fileName_text := lift (to_string fileName) in
       let s3Key :=
         String.append "videos/"
           (String.append uniqueId_text (String.append "/" fileName_text)) in
       if negb (env_set S3_BUCKET_NAME) then
         throw (Error "S3_BUCKET_NAME is not configured")
       else
         let s3Params :=
           mkS3Params (env_text S3_BUCKET_NAME) s3Key 60 fileType in
         let* uploadUrl := s3_sign "putObject" s3Params in
         let* uniqueId_text := lift (to_string uniqueId) in
         let* fileName_text := lift (to_string fileName) in
         let videoUrl :=
           String.append (env_text CLOUDFRONT_DOMAIN)
             (String.append "/videos/"
                (String.append uniqueId_text
                   (String.append "/" fileName_text))) in
         ret (reply_data "Upload URL generated successfully"
                (JObj [("uploadUrl", JStr uploadUrl);
                       ("videoUrl", JStr videoUrl)])))
    (fun error =>
       reply_error 500 "Error generating upload URL"
         (ErrText (exn_message error))).

End CourseService.

(** ** The client data layer: the optimistic progress patch *)

(** The query cache holds, per [getUserCourseProgress] argument
    [(userId, courseId)], the progress record last fetched.  The cache
    utilities of the query library are modelled by their contract:
    [updateQueryData] runs a recipe on the cached record and journals the
    top-level properties it changed together with the inverse changes, and
    [undo] plays the inverse changes back. *)
Inductive Patch : Type :=
| PatchAdd (k : string) (v : JsVal)
| PatchReplace (k : string) (v : JsVal)
| PatchRemove (k : string).

Definition apply_patch (o : JsObj) (p : Patch) : JsObj :=
  match p with
  | PatchAdd k v => obj_set k v o
  | PatchReplace k v => obj_set k v o
  | PatchRemove k => obj_remove k o
  end.

Definition apply_patches (ps : list Patch) (o : JsObj) : JsObj :=
  fold_left apply_patch ps o.

(** The change of one property between two versions of a record, with its
    inverse. *)
Definition diff_key (base result : JsObj) (k : string) : list (Patch * Patch) :=
  match obj_get k base, obj_get k result with
  | Some old, Some new =>
      if jsval_eqb old new then [] else [(PatchReplace k new, PatchReplace k old)]
  | None, Some new => [(PatchAdd k new, PatchRemove k)]
  | Some old, None => [(PatchRemove k, PatchAdd k old)]
  | None, None => []
  end.

Definition has_key (k : string) (o : JsObj) : bool :=
  match obj_get k o with
  | Some _ => true
  | None => false
  end.

Definition diff (base result : JsObj) : list (Patch * Patch) :=
  (flat_map (diff_key base result) (obj_keys result)
   ++ flat_map (diff_key base result)
        (filter (fun k => negb (has_key k result)) (obj_keys base)))%list.

Record PatchResult : Type := mkPatchResult {
  patches : list Patch;
  inversePatches : list Patch
}.

Inductive QueryOutcome : Type :=
| Fulfilled (result : JsVal)
| Rejected.

Record ProgressUpdate : Type := mkProgressUpdate {
  userId : string;
  courseId : string;
  progressData : JsObj
}.

Abbreviation Cache := (gmap (string * string) JsObj).

(** [api.util.patchQueryData]: the patches are applied to the cached
    record of the query, if there is one. *)
Definition patchQueryData (key : string * string) (ps : list Patch)
    (cache : Cache) : Cache :=
  match cache !! key with
  | Some cur => <[key := apply_patches ps cur]> cache
  | None => cache
  end.

(** [api.util.updateQueryData]: without a cached record nothing happens
    and the journal is empty. *)
Definition updateQueryData (key : string * string) (recipe : JsObj -> JsObj)
    (cache : Cache) : PatchResult * Cache :=
  match cache !! key with
  | Some base =>
      let d := diff base (recipe base) in
      let ret := mkPatchResult (map fst d) (map snd d) in
      (ret, patchQueryData key (patches ret) cache)
  | None => (mkPatchResult [] [], cache)
  end.

(** [patchResult.undo()] *)
Definition undo (key : string * string) (ret : PatchResult) (cache : Cache) : Cache :=
  patchQueryData key (inversePatches ret) cache.

(** The recipe of [onQueryStarted]:
    [Object.assign(draft, {...draft, sections: progressData.sections})]. *)
Definition progress_recipe (progressData : JsObj) (draft : JsObj) : JsObj :=
  Object_assign draft
    (obj_set "sections" (prop progressData "sections") (spread (JObj draft))).

(** The cache right after the optimistic patch, before the call resolves. *)
Definition optimistic_patch (u : ProgressUpdate) (cache : Cache) : PatchResult * Cache :=
  updateQueryData (userId u, courseId u) (progress_recipe (progressData u)) cache.

(** [onQueryStarted]: patch, await [queryFulfilled], undo on rejection. *)
Definition onQueryStarted (u : ProgressUpdate) (queryFulfilled : QueryOutcome)
    (cache : Cache) : Cache :=
  let '(patchResult, cache1) := optimistic_patch u cache in
  match queryFulfilled with
  | Fulfilled _ => cache1
  | Rejected => undo (userId u, courseId u) patchResult cache1
  end.


(** ** Vocabulary of the statements *)

(** The member [v.k] of a value that is neither [undefined] nor [null]. *)
Definition field (v : JsVal) (k : string) : JsVal :=
  match v with
  | JObj o => prop o k
  | _ => JUndefined
  end.

(** A chapter the normalization can read: anything but [undefined] and
    [null]. *)
Definition chapter_ok (chapter : JsVal) : bool :=
  match chapter with
  | JUndefined | JNull => false
  | _ => true
  end.

Definition has_chapters_array (section : JsVal) : bool :=
  match section with
  | JObj o =>
      match prop o "chapters" with
      | JArr _ => true
      | _ => false
      end
  | _ => false
  end.

(** A section the normalization can read: an object whose [chapters] is an
    array of readable chapters. *)
Definition section_ok (section : JsVal) : bool :=
  match section with
  | JObj o =>
      match prop o "chapters" with
      | JArr chapters => forallb chapter_ok chapters
      | _ => false
      end
  | _ => false
  end.

Section Identifiers.

Variable uuidv4 : nat -> string.

(** The identifier an entry ends up with when [lo] identifiers have been
    drawn before it and [hi] after it: the submitted one when it is truthy,
    and nothing is drawn; otherwise the string of the call numbered [lo],
    the next call of the generator, which is the one call made for the
    entry, and that string is not empty. *)
Definition id_assigned (lo hi : nat) (submitted stored : JsVal) : Prop :=
  if truthy submitted then stored = submitted /\ hi = lo
  else stored = JStr (uuidv4 lo) /\ hi = S lo /\ uuidv4 lo <> "".

(** Entries stored one after the other, each with the calls of its own: the
    calls of an entry start where those of the entry before it stop. *)
Inductive stored_in_turn (R : nat -> nat -> JsVal -> JsVal -> Prop) :
    nat -> nat -> list JsVal -> list JsVal -> Prop :=
| stored_none n : stored_in_turn R n n [] []
| stored_next lo mid hi x y l l' :
    R lo mid x y -> stored_in_turn R mid hi l l' ->
    stored_in_turn R lo hi (x :: l) (y :: l').

(** A submitted chapter and the chapter stored for it. *)
Definition chapter_stored (lo hi : nat) (chapter stored : JsVal) : Prop :=
  exists o,
    stored = JObj o
    /\ id_assigned lo hi (field chapter "chapterId") (prop o "chapterId")
    /\ forall k, k <> "chapterId" -> obj_get k o = obj_get k (spread chapter).

(** A submitted section and the section stored for it: the identifier of
    the section comes first, then those of its chapters in their order. *)
Definition section_stored (lo hi : nat) (section stored : JsVal) : Prop :=
  exists o chapters chapters' mid,
    stored = JObj o
    /\ id_assigned lo mid (field section "sectionId") (prop o "sectionId")
    /\ field section "chapters" = JArr chapters
    /\ prop o "chapters" = JArr chapters'
    /\ stored_in_turn chapter_stored mid hi chapters chapters'
    /\ forall k, k <> "sectionId" -> k <> "chapters" ->
                 obj_get k o = obj_get k (spread section).

End Identifiers.

(** Entries that already carry their identifiers. *)
Definition chapter_normal (chapter : JsVal) : Prop :=
  exists o, chapter = JObj o /\ truthy (prop o "chapterId") = true.

Definition section_normal (section : JsVal) : Prop :=
  exists o chapters,
    section = JObj o
    /\ truthy (prop o "sectionId") = true
    /\ prop o "chapters" = JArr chapters
    /\ Forall chapter_normal chapters.

(** The price check of the update lets the patch through: its price is
    falsy (taken as absent) or [parseInt] reads a number from it. *)
Definition price_accepted (patch : JsObj) : Prop :=
  truthy (prop patch "price") = true ->
  exists n, parseInt (prop patch "price") = inr (Some n).

(** The patch carries the sections list [sections], as a structured value
    or as a JSON text that decodes to it. *)
Definition submitted_sections (JSON_parse : string -> option JsVal)
    (patch : JsObj) (sections : list JsVal) : Prop :=
  prop patch "sections" = JArr sections
  \/ exists s, s <> "" /\ prop patch "sections" = JStr s
               /\ JSON_parse s = Some (JArr sections).

(** The record [r] is in the table under its own [courseId]. *)
Definition stored_in (w : World) (r : JsObj) : Prop :=
  exists k, prop r "courseId" = JStr k /\ courses w !! k = Some r.

(** ** Sample data *)

(** A generator that hands out [id-0], [id-1], ... *)
Definition sample_uuid (n : nat) : string :=
  String.append "id-" (pretty (Z.of_nat n)).

(** A stand-in for [JSON.parse] that decodes the text of the empty array
    and refuses every other text. *)
Definition sample_parse (s : string) : option JsVal :=
  if String.eqb s "[]" then Some (JArr []) else None.

(** A table that accepts every record. *)
Definition accept_all (course : JsObj) : bool := true.

(** A table with a typed model: identity fields are strings and the price,
    when present, is a number. *)
Definition is_string (v : JsVal) : bool :=
  match v with
  | JStr _ => true
  | _ => false
  end.

Definition typed_model (course : JsObj) : bool :=
  is_string (prop course "courseId")
  && is_string (prop course "teacherId")
  && is_string (prop course "teacherName")
  && match obj_get "price" course with
     | Some (JNum _) | None => true
     | Some _ => false
     end.

Definition alice_course : JsObj :=
  [ ("courseId", JStr "c1");
    ("teacherId", JStr "T1");
    ("teacherName", JStr "Alice");
    ("title", JStr "Untitled Course");
    ("description", JStr "");
    ("category", JStr "Uncategorized");
    ("image", JStr "");
    ("price", JNum 0);
    ("level", JStr "Beginner");
    ("status", JStr "Draft");
    ("sections", JArr []);
    ("enrollments", JArr []) ].

Definition one_course : World :=
  mkWorld {[ "c1" := alice_course ]} 0 [].

Definition no_course : World := mkWorld ∅ 0 [].

(** A [PUT /courses/c1] by [caller] with the given patch. *)
Definition put_c1 (caller : string) (patch : JsObj) : Request :=
  mkRequest "c1" patch (Some caller).

(** Two sections: the first without identifiers, the second with its own. *)
Definition draft_sections : list JsVal :=
  [ JObj [ ("sectionTitle", JStr "Intro");
           ("chapters", JArr [ JObj [("title", JStr "Welcome")];
                               JObj [("chapterId", JStr "ch-9");
                                     ("title", JStr "Setup")] ]) ];
    JObj [ ("sectionId", JStr "sec-7");
           ("chapters", JArr []) ] ].

(** A section without a [chapters] array. *)
Definition broken_sections : list JsVal :=
  [ JObj [ ("sectionId", JStr "sec-7"); ("chapters", JArr []) ];
    JObj [ ("sectionTitle", JStr "No chapters here") ] ].

Definition upload_request : Request :=
  mkRequest "c1"
    [("fileName", JStr "intro.mp4"); ("fileType", JStr "video/mp4")]
    (Some "T1").

Definition sample_signer (op : string) (params : S3Params) : Exn + string :=
  inr (String.append "https://bucket.example/" (Key params)).

(** A cached progress record with two per-section records. *)
Definition section_progress (sectionId : string) (completed : bool) : JsVal :=
  JObj [ ("sectionId", JStr sectionId);
         ("chapters", JArr [ JObj [ ("chapterId", JStr "ch-1");
                                    ("completed", JBool completed) ] ]) ].

Definition cached_progress : JsObj :=
  [ ("userId", JStr "u1");
    ("courseId", JStr "c1");
    ("overallProgress", JNum 0);
    ("sections", JArr [ section_progress "s1" false;
                        section_progress "s2" true ]) ].

Definition sample_cache : Cache := {[ ("u1", "c1") := cached_progress ]}.

Definition sample_update : ProgressUpdate :=
  mkProgressUpdate "u1" "c1"
    [ ("sections", JArr [ section_progress "s1" true ]) ].

(** ** The rest of the course service *)

(** Modelled from the spec: the scan of the document store accessor behind
    [Course] ([models/courseModel] is missing) returns every record of the
    table, or the records whose attribute equals the value of the filter,
    in the table's own order. *)
Definition Course_scan (filter : option (string * JsVal)) : M (list JsObj) :=
  fun w =>
    let all := map snd (map_to_list (courses w)) in
    (Return
       match filter with
       | Some (attribute, value) =>
           List.filter (fun c => strict_eq (prop c attribute) value) all
       | None => all
       end, w).

(** [req.query.category] for an absent or string-valued parameter. *)
Definition query_value (q : option string) : JsVal :=
  match q with
  | Some s => JStr s
  | None => JUndefined
  end.

Definition listCourses (query_category : option string) : World -> Response * World :=
  let category := query_value query_category in
  try_catch
    (let* courses :=
       (if truthy category && negb (strict_eq category (JStr "all"))
        then Course_scan (Some ("category", category))
        else Course_scan None) in
     ret (reply_data "Courses retrieved successfully" (JArr (map JObj courses))))
    (fun error => reply_error 500 "Error retrieving courses" (ErrCaught error)).

(** The record [createCourse] builds. *)
Definition new_course (courseId teacherId teacherName : JsVal) : JsObj :=
  [ ("courseId", courseId);
    ("teacherId", teacherId);
    ("teacherName", teacherName);
    ("title", JStr "Untitled Course");
    ("description", JStr "");
    ("category", JStr "Uncategorized");
    ("image", JStr "");
    ("price", JNum 0);
    ("level", JStr "Beginner");
    ("status", JStr "Draft");
    ("sections", JArr []);
    ("enrollments", JArr []) ].

(** Every record of the table is stored under its own [courseId]. *)
Definition table_wf (w : World) : Prop :=
  forall k c, courses w !! k = Some c -> prop c "courseId" = JStr k.

(** ** The client data layer: the base query *)

(** The argument of a query: a URL, or a request with an optional method. *)
Inductive QueryArgs : Type :=
| ArgsUrl (url : string)
| ArgsFetch (url : string) (method : option string).

(** The error of a query result: its [status] is an HTTP status or a tag
    such as ["FETCH_ERROR"]. *)
Record QueryError : Type := mkQueryError {
  err_status : Z + string;
  err_data : JsVal;
  err_error : option string
}.

(** [{ data?, error?, meta? }], with [meta.response.status]. *)
Record QueryResult : Type := mkQueryResult {
  res_data : JsVal;
  res_error : option QueryError;
  res_meta_status : option Z
}.

Inductive Toast : Type :=
| ToastError (text : string)
| ToastSuccess (message : JsVal).

(** What [await baseQuery(args, api, extraOptions)] comes back with: a
    result, a thrown [Error] with its message, or another thrown value. *)
Inductive Awaited : Type :=
| Resolved (result : QueryResult)
| ThrownError (message : string)
| ThrownOther.

(** [v?.k], and [v.k] on a truthy value: the own property of an object,
    [undefined] otherwise. *)
Definition optional_member (v : JsVal) (k : string) : JsVal :=
  match v with
  | JObj o => prop o k
  | _ => JUndefined
  end.

(** [a || b] *)
Definition or_value (a b : JsVal) : JsVal := if truthy a then a else b.

(** [status.toString()] *)
Definition status_text (st : Z + string) : string :=
  match st with
  | inl n => pretty n
  | inr s => s
  end.

Definition is_204 (result : QueryResult) : bool :=
  match res_error result with
  | Some e => match err_status e with inl n => Z.eqb n 204 | inr _ => false end
  | None => false
  end
  || match res_meta_status result with
     | Some n => Z.eqb n 204
     | None => false
     end.

(** The [catch] of [customBaseQuery]: nothing is shown and the result is a
    [FETCH_ERROR] with the message of the error. *)
Definition fetch_error (errorMessage : string) : QueryResult * list Toast :=
  (mkQueryResult JUndefined
     (Some (mkQueryError (inr "FETCH_ERROR") JUndefined (Some errorMessage)))
     None, []).

(** The text of the error toast, [`Error: ${errorMessage}`], for the error
    of a result; the template converts the message with ToString. *)
Definition error_toast_text (e : QueryError) : Exn + string :=
  let errorData := err_data e in
  let errorMessage :=
    or_value
      (or_value (optional_member errorData "message")
         (JStr (status_text (err_status e))))
      (JStr "An error occurred") in
  match to_string errorMessage with
  | inl thrown => inl thrown
  | inr text => inr (String.append "Error: " text)
  end.

(** [customBaseQuery], after the inner [baseQuery] has been awaited: the
    result handed to the query library and the notifications shown.  The
    inner [fetchBaseQuery] turns a failed [fetch] into a result with an
    error, so [ThrownError] and [ThrownOther] stand for a throw of
    [baseQuery] itself; a throw of the toast template is caught by the same
    [catch]. *)
Definition customBaseQuery (args : QueryArgs) (awaited : Awaited) :
    QueryResult * list Toast :=
  match awaited with
  | Resolved result =>
      match
        match res_error result with
        | Some e =>
            match error_toast_text e with
            | inl thrown => inl thrown
            | inr text => inr [ToastError text]
            end
        | None => inr []
        end
      with
      | inl thrown => fetch_error (exn_message thrown)
      | inr toasts1 =>
          let isMutationRequest :=
            match args with
            | ArgsFetch _ (Some method) =>
                negb (String.eqb method "") && negb (String.eqb method "GET")
            | _ => false
            end in
          let toasts2 :=
            if isMutationRequest then
              let successMessage := optional_member (res_data result) "message" in
              if truthy successMessage then [ToastSuccess successMessage] else []
            else [] in
          let toasts := (toasts1 ++ toasts2)%list in
          if truthy (res_data result) then
            (mkQueryResult (optional_member (res_data result) "data")
               (res_error result) (res_meta_status result), toasts)
          else if is_204 result then (mkQueryResult JNull None None, toasts)
          else (result, toasts)
      end
  | ThrownError errorMessage => fetch_error errorMessage
  | ThrownOther => fetch_error "Unknown error"
  end.

Section Fetched.

(** How a caught error appears in a JSON body depends on the enumerable
    properties of the error object, which the thrower decides. *)
Variable caught_json : Exn -> JsVal.

(** The JSON body [res.json] sends for a response of the course service:
    [{ message, data?, error? }]. *)
Definition envelope (r : Response) : JsVal :=
  JObj ([("message", JStr (message r))]
        ++ match data r with
           | Some d => [("data", d)]
           | None => []
           end
        ++ match error r with
           | Some (ErrText s) => [("error", JStr s)]
           | Some (ErrCaught e) => [("error", caught_json e)]
           | None => []
           end)%list.

(** The contract of the inner [fetchBaseQuery] for a JSON response: a 2xx
    status gives [{ data: body, meta }], any other status gives
    [{ error: { status, data: body }, meta }]. *)
Definition fetched (r : Response) : QueryResult :=
  if Z.leb 200 (status r) && Z.leb (status r) 299 then
    mkQueryResult (envelope r) None (Some (status r))
  else
    mkQueryResult JUndefined
      (Some (mkQueryError (inl (status r)) (envelope r) None))
      (Some (status r)).

End Fetched.

(** ** The checkout navigation hook *)

(** [parseInt(s, 10)]: as [parseInt(s)], but a [0x] prefix is not read. *)
Definition parseInt10 (s : string) : option Z :=
  let s1 := trim_start s in
  let '(sign, s2) :=
    match s1 with
    | String "-" r => (-1, r)
    | String "+" r => (1, r)
    | _ => (1, s1)
    end in
  match parse_digits 10 s2 None with
  | Some m => Some (sign * m)
  | None => None
  end.

(** What the hook reads: the search parameters of the URL in order, and the
    session state of [useUser()], where [isSignedIn] is [undefined] until
    the session is loaded. *)
Record CheckoutState : Type := mkCheckoutState {
  searchParams : list (string * string);
  isLoaded : bool;
  isSignedIn : option bool
}.

(** [searchParams.get(name)]: the first value of the name, or [null]. *)
Fixpoint searchParams_get (params : list (string * string)) (name : string) :
    option string :=
  match params with
  | [] => None
  | (k, v) :: params' =>
      if String.eqb name k then Some v else searchParams_get params' name
  end.

Definition signed_in (st : CheckoutState) : bool :=
  match isSignedIn st with
  | Some b => b
  | None => false
  end.

Definition checkout_courseId (st : CheckoutState) : string :=
  default "" (searchParams_get (searchParams st) "id").

(** [checkoutStep]; [None] is [NaN]. *)
Definition checkoutStep (st : CheckoutState) : option Z :=
  parseInt10 (default "1" (searchParams_get (searchParams st) "step")).

(** [Math.max] and [Math.min] on integers and [NaN] ([None]): [NaN] as soon
    as an argument is [NaN]. *)
Definition Math_max (a b : option Z) : option Z :=
  match a, b with
  | Some x, Some y => Some (Z.max x y)
  | _, _ => None
  end.

Definition Math_min (a b : option Z) : option Z :=
  match a, b with
  | Some x, Some y => Some (Z.min x y)
  | _, _ => None
  end.

(** ToString of an integer or [NaN]. *)
Definition number_text (n : option Z) : string :=
  match n with
  | Some x => pretty x
  | None => "NaN"
  end.

(** [navigateToStep(step)]: the URL given to [router.push].  The step is an
    integer or [NaN], as [checkoutStep] is. *)
Definition navigateToStep (st : CheckoutState) (step : option Z) : string :=
  let newStep := Math_min (Math_max (Some 1) step) (Some 3) in
  let showSignup := if signed_in st then "true" else "false" in
  String.append "/checkout?step="
    (String.append (number_text newStep)
       (String.append "&id="
          (String.append (checkout_courseId st)
             (String.append "&showSignup=" showSignup)))).

(** The effect of the hook: the URLs it pushes when it runs. *)
Definition checkout_effect (st : CheckoutState) : list string :=
  if isLoaded st && negb (signed_in st)
     && match checkoutStep st with
        | Some n => Z.ltb 1 n
        | None => false
        end
  then [navigateToStep st (Some 1)]
  else [].

(** ** The dashboard layout and the footer *)

(** The rest of [s] after the prefix [p]. *)
Fixpoint strip_prefix (p s : string) : option string :=
  match p, s with
  | EmptyString, _ => Some s
  | String a p', String b s' =>
      if Ascii.eqb a b then strip_prefix p' s' else None
  | String _ _, EmptyString => None
  end.

(** The longest prefix without a slash, [[^\/]*], and what follows it. *)
Fixpoint take_segment (s : string) : string * string :=
  match s with
  | String c s' =>
      if Ascii.eqb c "/" then (EmptyString, s)
      else let '(seg, rest) := take_segment s' in (String c seg, rest)
  | EmptyString => (EmptyString, EmptyString)
  end.

(** [/^\/user\/courses\/[^\/]+(?:\/chapters\/[^\/]+)?$/.test(pathname)] *)
Definition isCoursePage (pathname : string) : bool :=
  match strip_prefix "/user/courses/" pathname with
  | Some rest =>
      let '(course, rest1) := take_segment rest in
      negb (String.eqb course "")
      && match rest1 with
         | EmptyString => true
         | _ =>
             match strip_prefix "/chapters/" rest1 with
             | Some rest2 =>
                 let '(chapter, rest3) := take_segment rest2 in
                 negb (String.eqb chapter "") && String.eqb rest3 ""
             | None => false
             end
         end
  | None => false
  end.

(** [pathname.match(/\/user\/courses\/([^\/]+)/)]: the first group of the
    leftmost match, or [None] when nothing matches. *)
Fixpoint match_course (pathname : string) : option string :=
  match
    match strip_prefix "/user/courses/" pathname with
    | Some rest =>
        let '(course, _) := take_segment rest in
        if String.eqb course "" then None else Some course
    | None => None
    end
  with
  | Some course => Some course
  | None =>
      match pathname with
      | String _ pathname' => match_course pathname'
      | EmptyString => None
      end
  end.

(** The [courseId] the layout's effect sets. *)
Definition layout_courseId (pathname : string) : option string :=
  if isCoursePage pathname then match_course pathname else None.

(** [toLowerCase] on one code unit below 256. *)
Definition lower_char (c : ascii) : ascii :=
  let n := code c in
  if (Nat.leb 65 n && Nat.leb n 90)
     || (Nat.leb 192 n && Nat.leb n 222 && negb (Nat.eqb n 215))
  then ascii_of_nat (n + 32)
  else c.

Fixpoint toLowerCase (s : string) : string :=
  match s with
  | String c s' => String (lower_char c) (toLowerCase s')
  | EmptyString => EmptyString
  end.

(** [s.replace(" ", "-")]: a string pattern replaces its first occurrence
    only. *)
Fixpoint replace_first_space (s : string) : string :=
  match s with
  | String c s' =>
      if Ascii.eqb c " " then String "-" s' else String c (replace_first_space s')
  | EmptyString => EmptyString
  end.

(** The [href] of a footer link. *)
Definition footer_href (item : string) : string :=
  String.append "/" (replace_first_space (toLowerCase item)).

Definition footer_items : list string :=
  ["About"; "Privacy Policy"; "Licensing"; "Contact"].

Fixpoint count_spaces (s : string) : nat :=
  match s with
  | String c s' => ((if Ascii.eqb c " " then 1 else 0) + count_spaces s')%nat
  | EmptyString => 0%nat
  end.

(** The step [navigateToStep] ends up with, [Math.min(Math.max(1, step), 3)]. *)
Definition clamp_step (step : Z) : Z := Z.min (Z.max 1 step) 3.

Fixpoint has_slash (s : string) : bool :=
  match s with
  | String c s' => Ascii.eqb c "/" || has_slash s'
  | EmptyString => false
  end.

(** A path segment, [[^\/]+]: not empty, no slash. *)
Definition segment (s : string) : Prop :=
  s <> "" /\ has_slash s = false.

Section UpdateRuns.

Variable schema_ok : JsObj -> bool.

(** The five ways an update can end. *)
Inductive UpdateRun (req : Request) (w : World) : Response -> World -> Prop :=
| run_not_found :
    courses w !! params_courseId req = None ->
    UpdateRun req w (reply 404 "Course not found") w
| run_forbidden c :
    courses w !! params_courseId req = Some c ->
    strict_eq (prop c "teacherId") (userId_of req) = false ->
    UpdateRun req w (reply 403 "Not authorized to update this course ") w
| run_invalid_price c :
    courses w !! params_courseId req = Some c ->
    strict_eq (prop c "teacherId") (userId_of req) = true ->
    truthy (prop (body req) "price") = true ->
    parseInt (prop (body req) "price") = inr None ->
    UpdateRun req w
      (reply_error 400 "Invalid price format" (ErrText "Price must be a valid number")) w
| run_thrown c e n' :
    courses w !! params_courseId req = Some c ->
    strict_eq (prop c "teacherId") (userId_of req) = true ->
    (truthy (prop (body req) "price") = true ->
     parseInt (prop (body req) "price") <> inr None) ->
    UpdateRun req w
      (reply_error 500 "Error updating course" (ErrCaught e)) (with_drawn n' w)
| run_saved c updateData n' k :
    courses w !! params_courseId req = Some c ->
    strict_eq (prop c "teacherId") (userId_of req) = true ->
    (truthy (prop (body req) "price") = true ->
     parseInt (prop (body req) "price") <> inr None) ->
    (forall f, obj_get f (body req) = None -> f <> "sections" ->
               obj_get f updateData = None) ->
    prop (Object_assign c updateData) "courseId" = JStr k ->
    schema_ok (Object_assign c updateData) = true ->
    UpdateRun req w
      (reply_data "Course updated successfully" (JObj (Object_assign c updateData)))
      (with_courses (<[k := Object_assign c updateData]> (courses w))
         (with_drawn n' w)).

End UpdateRuns.

(** ** More sample data *)

Definition create_request : Request :=
  mkRequest "" [("teacherId", JStr "T1"); ("teacherName", JStr "Alice")] (Some "T1").

(** A second course in the table, of another teacher and category. *)
Definition bob_course : JsObj :=
  [ ("courseId", JStr "c2");
    ("teacherId", JStr "T2");
    ("teacherName", JStr "Bob");
    ("title", JStr "Proofs");
    ("category", JStr "Science");
    ("price", JNum 1000);
    ("sections", JArr []) ].

Definition two_courses : World :=
  mkWorld (<["c2" := bob_course]> {[ "c1" := alice_course ]}) 0 [].

Definition failing_signer (op : string) (params : S3Params) : Exn + string :=
  inl (Error "Missing credentials in config").

(** An upload request whose file name is an object with a [toString]
    property of its own. *)
Definition unconvertible_upload : Request :=
  mkRequest "c1"
    [("fileName", JObj [("toString", JNum 1)]); ("fileType", JStr "video/mp4")]
    (Some "T1").

(** A signed-out visitor on step 3 of the checkout of [c1]. *)
Definition signed_out_step3 : CheckoutState :=
  mkCheckoutState [("step", "3"); ("id", "c1")] true (Some false).

Definition after_redirect : CheckoutState :=
  mkCheckoutState [("step", "1"); ("id", "c1"); ("showSignup", "false")]
    true (Some false).

(** ** Counting the identifiers an update needs *)

(** One when the member [k] of [v] is falsy, as one identifier is drawn
    for it. *)
Definition missing_id (v : JsVal) (k : string) : nat :=
  if truthy (field v k) then 0%nat else 1%nat.

Definition section_missing_ids (section : JsVal) : nat :=
  (missing_id section "sectionId"
   + match field section "chapters" with
     | JArr chapters =>
         list_sum (map (fun chapter => missing_id chapter "chapterId") chapters)
     | _ => 0
     end)%nat.

Definition sections_missing_ids (sections : list JsVal) : nat :=
  list_sum (map section_missing_ids sections).

(** * Properties *)

(** ** Objects *)

Lemma obj_get_set k k' v o :
  obj_get k' (obj_set k v o) = if String.eqb k' k then Some v else obj_get k' o.
Proof.
  induction o as [|[k0 v0] o IH]; simpl.
  - destruct (String.eqb k' k); reflexivity.
  - destruct (String.eqb k k0) eqn:E; simpl.
    + apply String.eqb_eq in E. subst k0.
      destruct (String.eqb k' k); reflexivity.
    + destruct (String.eqb k' k0) eqn:E'.
      * apply String.eqb_eq in E'. subst k0.
        rewrite String.eqb_sym, E. reflexivity.
      * exact IH.
Qed.

Lemma obj_get_set_eq k v o : obj_get k (obj_set k v o) = Some v.
Proof. rewrite obj_get_set, String.eqb_refl. reflexivity. Qed.

Lemma obj_get_set_ne k k' v o :
  k' <> k -> obj_get k' (obj_set k v o) = obj_get k' o.
Proof.
  intros Hne. rewrite obj_get_set.
  destruct (String.eqb k' k) eqn:E; [|reflexivity].
  apply String.eqb_eq in E. contradiction.
Qed.

Lemma obj_set_same k v o : obj_get k o = Some v -> obj_set k v o = o.
Proof.
  induction o as [|[k0 v0] o IH]; simpl; [discriminate|].
  destruct (String.eqb k k0) eqn:E.
  - apply String.eqb_eq in E. subst k0. intros [= ->]. reflexivity.
  - intros H. rewrite (IH H). reflexivity.
Qed.

Lemma obj_keys_set k v o :
  obj_keys (obj_set k v o) =
  if has_key k o then obj_keys o else (obj_keys o ++ [k])%list.
Proof.
  unfold has_key, obj_keys.
  induction o as [|[k0 v0] o IH]; simpl; [reflexivity|].
  destruct (String.eqb k k0) eqn:E; simpl.
  - apply String.eqb_eq in E. subst k0. reflexivity.
  - rewrite IH. destruct (obj_get k o); reflexivity.
Qed.

Lemma obj_get_None_keys k o : obj_get k o = None <-> k ∉ obj_keys o.
Proof.
  unfold obj_keys. induction o as [|[k0 v0] o IH]; simpl.
  - split; [intros _; apply not_elem_of_nil | reflexivity].
  - rewrite not_elem_of_cons. destruct (String.eqb k k0) eqn:E.
    + apply String.eqb_eq in E. subst k0. split; [discriminate|intros [? _]; contradiction].
    + apply String.eqb_neq in E. rewrite IH. tauto.
Qed.

Lemma obj_set_wf k v o : NoDup (obj_keys o) -> NoDup (obj_keys (obj_set k v o)).
Proof.
  intros Hwf. rewrite obj_keys_set. unfold has_key.
  destruct (obj_get k o) eqn:E; [exact Hwf|].
  apply NoDup_app. split; [exact Hwf|]. split.
  - intros x Hx Hk. apply list_elem_of_singleton in Hk. subst x.
    apply obj_get_None_keys in E. contradiction.
  - apply NoDup_singleton.
Qed.

(** In a record without repeated keys every binding is the one read. *)
Lemma obj_get_elem k v o :
  NoDup (obj_keys o) -> (k, v) ∈ o -> obj_get k o = Some v.
Proof.
  unfold obj_keys. induction o as [|[k0 v0] o IH]; simpl; intros Hwf Hin.
  - apply elem_of_nil in Hin. contradiction.
  - apply NoDup_cons in Hwf as [Hk0 Hwf].
    apply elem_of_cons in Hin as [[= -> ->]|Hin].
    + rewrite String.eqb_refl. reflexivity.
    + destruct (String.eqb k k0) eqn:E.
      * apply String.eqb_eq in E. subst k0. exfalso. apply Hk0.
        apply list_elem_of_fmap. exists (k, v). split; [reflexivity|exact Hin].
      * apply IH; assumption.
Qed.

Lemma Object_assign_app o s1 s2 :
  Object_assign o (s1 ++ s2)%list = Object_assign (Object_assign o s1) s2.
Proof. unfold Object_assign. apply fold_left_app. Qed.

(** A key the source does not mention keeps the target's value. *)
Lemma obj_get_assign_other k o src :
  obj_get k src = None -> obj_get k (Object_assign o src) = obj_get k o.
Proof.
  unfold Object_assign. revert o.
  induction src as [|[k0 v0] src IH]; simpl; intros o H; [reflexivity|].
  destruct (String.eqb k k0) eqn:E; [discriminate|].
  rewrite (IH _ H). apply obj_get_set_ne. apply String.eqb_neq. exact E.
Qed.

(** A key of the source is overwritten with the source's value. *)
Lemma obj_get_assign k v o src :
  NoDup (obj_keys src) -> obj_get k src = Some v ->
  obj_get k (Object_assign o src) = Some v.
Proof.
  unfold Object_assign, obj_keys. revert o.
  induction src as [|[k0 v0] src IH]; simpl; intros o Hwf H; [discriminate|].
  apply NoDup_cons in Hwf as [Hk0 Hwf].
  destruct (String.eqb k k0) eqn:E.
  - apply String.eqb_eq in E. subst k0. injection H as ->.
    fold (Object_assign (obj_set k v o) src).
    rewrite obj_get_assign_other; [apply obj_get_set_eq|].
    apply obj_get_None_keys. exact Hk0.
  - apply IH; assumption.
Qed.

(** Writing to a record the values it already holds changes nothing. *)
Lemma Object_assign_noop o src :
  (forall k v, (k, v) ∈ src -> obj_get k o = Some v) -> Object_assign o src = o.
Proof.
  unfold Object_assign.
  induction src as [|[k0 v0] src IH]; simpl; intros H; [reflexivity|].
  rewrite obj_set_same by (apply H; left).
  apply IH. intros k v Hin. apply H. right. exact Hin.
Qed.

(** A property read that is not [undefined] comes from a binding. *)
Lemma obj_get_prop k o : prop o k <> JUndefined -> obj_get k o = Some (prop o k).
Proof.
  unfold prop. destruct (obj_get k o); simpl; [reflexivity|contradiction].
Qed.

Lemma obj_get_prop_truthy k o :
  truthy (prop o k) = true -> obj_get k o = Some (prop o k).
Proof.
  intros H. apply obj_get_prop. intros E. rewrite E in H. discriminate.
Qed.

Lemma strict_eq_true v w : strict_eq v w = true -> v = w.
Proof.
  destruct v, w; simpl; try discriminate; try reflexivity; intros H.
  - apply Bool.eqb_prop in H. congruence.
  - apply Z.eqb_eq in H. congruence.
  - apply String.eqb_eq in H. congruence.
Qed.

Lemma strict_eq_differs v w : v <> w -> strict_eq v w = false.
Proof.
  intros Hne. destruct (strict_eq v w) eqn:E; [|reflexivity].
  apply strict_eq_true in E. contradiction.
Qed.

(** ** Ownership and deletion *)

Section CourseServiceFacts.

Variable uuidv4 : nat -> string.
Variable JSON_parse : string -> option JsVal.
Variable schema_ok : JsObj -> bool.

Local Abbreviation updateCourse' := (updateCourse uuidv4 JSON_parse schema_ok).
Local Abbreviation createCourse' := (createCourse uuidv4 schema_ok).
Local Abbreviation normalize_sections' := (normalize_sections uuidv4 JSON_parse).
Local Abbreviation normalize_section' := (normalize_section uuidv4).
Local Abbreviation normalize_chapter' := (normalize_chapter uuidv4).

(** C2: an update or a delete by a caller whose verified identity differs
    from the stored [teacherId] of an existing course is answered with
    403 and leaves the world, hence the stored course, as it was. *)
Theorem update_delete_forbidden (req : Request) (w : World) (c : JsObj) :
  courses w !! params_courseId req = Some c ->
  prop c "teacherId" <> userId_of req ->
  updateCourse' req w = (reply 403 "Not authorized to update this course ", w)
  /\ deleteCourse req w = (reply 403 "Not authorized to delete this course ", w).
Proof.
  intros Hc Hne. apply strict_eq_differs in Hne.
  unfold updateCourse, deleteCourse, try_catch, bind, Course_get.
  rewrite Hc, Hne. simpl. split; reflexivity.
Qed.

(** C8: deleting a course that does not exist is answered with 404;
    deleting an existing course as its owner removes the record, answers
    with the record as it was, and a later get of the same id is answered
    with 404. *)
Theorem delete_course_removes (req : Request) (w : World) :
  (courses w !! params_courseId req = None ->
   deleteCourse req w = (reply 404 "Course not found", w))
  /\ (forall c,
        courses w !! params_courseId req = Some c ->
        strict_eq (prop c "teacherId") (userId_of req) = true ->
        let w' := with_courses (delete (params_courseId req) (courses w)) w in
        deleteCourse req w = (reply_data "Course deleted successfully" (JObj c), w')
        /\ courses w' !! params_courseId req = None
        /\ forall req',
             params_courseId req' = params_courseId req ->
             getCourse req' w' = (reply 404 "Course not found", w')).
Proof.
  split.
  - intros Hc. unfold deleteCourse, try_catch, bind, Course_get.
    rewrite Hc. reflexivity.
  - intros c Hc Hown w'. split; [|split].
    + unfold deleteCourse, try_catch, bind, Course_get, Course_delete.
      rewrite Hc, Hown. reflexivity.
    + apply lookup_delete_eq.
    + intros req' Hid. unfold getCourse, try_catch, bind, Course_get.
      rewrite Hid. subst w'. simpl. rewrite lookup_delete_eq. reflexivity.
Qed.


(** ** Running the normalization *)

Lemma with_drawn_same w : with_drawn (drawn w) w = w.
Proof. destruct w. reflexivity. Qed.

Lemma member_ok v k : chapter_ok v = true -> member v k = ret (field v k).
Proof. destruct v; simpl; intros H; try discriminate; reflexivity. Qed.

(** If every element is mapped by drawing identifiers only, so is the list,
    element by element and each with the draws of its own. *)
Lemma mapM_run (f : JsVal -> M JsVal) (R : nat -> nat -> JsVal -> JsVal -> Prop)
    (Q : JsVal -> Prop) (ok : JsVal -> bool) :
  (forall x w, ok x = true ->
      exists y n', f x w = (Return y, with_drawn n' w)
                   /\ (drawn w <= n')%nat /\ R (drawn w) n' x y /\ Q y) ->
  forall l w, forallb ok l = true ->
    exists ys n', mapM f l w = (Return ys, with_drawn n' w)
                  /\ (drawn w <= n')%nat
                  /\ stored_in_turn R (drawn w) n' l ys /\ Forall Q ys.
Proof.
  intros Hf. induction l as [|x l IH]; intros w Hok.
  - exists [], (drawn w). rewrite with_drawn_same.
    repeat split; [lia|constructor|constructor].
  - simpl in Hok. apply andb_prop in Hok as [Hx Hl].
    destruct (Hf x w Hx) as (y & n1 & Hrun & Hle & HR & HQ).
    destruct (IH (with_drawn n1 w) Hl) as (ys & n2 & Hrun2 & Hle2 & HR2 & HQ2).
    simpl in Hle2, HR2.
    exists (y :: ys), n2. simpl. unfold bind. rewrite Hrun, Hrun2. simpl.
    repeat split.
    + lia.
    + exact (stored_next R _ _ _ _ _ _ _ HR HR2).
    + constructor; assumption.
Qed.

Section MapM.

Context {A B : Type} (f : A -> M B).

(** A list of fixed points is a fixed point, and nothing is drawn. *)
Lemma mapM_fix (l : list A) (g : A -> B) :
  Forall (fun x => forall w, f x w = (Return (g x), w)) l ->
  forall w, mapM f l w = (Return (map g l), w).
Proof.
  induction 1 as [|x l Hx _ IH]; intros w; simpl; [reflexivity|].
  unfold bind. rewrite Hx, IH. reflexivity.
Qed.

(** One element that throws makes the whole map throw, whatever the
    elements before it do, provided they can only throw the same error. *)
Lemma mapM_throws (e : Exn) (l : list A) :
  (forall x w, exists out n', f x w = (out, with_drawn n' w)
                              /\ forall e', out = Throw e' -> e' = e) ->
  Exists (fun x => forall w, exists n', f x w = (Throw e, with_drawn n' w)) l ->
  forall w, exists n', mapM f l w = (Throw e, with_drawn n' w).
Proof.
  intros Hframe. induction 1 as [x l Hx|x l _ IH]; intros w; simpl; unfold bind.
  - destruct (Hx w) as (n' & ->). exists n'. reflexivity.
  - destruct (Hframe x w) as (out & n1 & -> & He). destruct out as [y|e'].
    + destruct (IH (with_drawn n1 w)) as (n2 & ->). exists n2. reflexivity.
    + rewrite (He e' eq_refl). exists n1. reflexivity.
Qed.

(** Mapping only draws identifiers, and throws what an element throws. *)
Lemma mapM_frame (e : Exn) (l : list A) :
  (forall x w, exists out n', f x w = (out, with_drawn n' w)
                              /\ forall e', out = Throw e' -> e' = e) ->
  forall w, exists out n', mapM f l w = (out, with_drawn n' w)
                           /\ forall e', out = Throw e' -> e' = e.
Proof.
  intros Hframe. induction l as [|x l IH]; intros w; simpl.
  - exists (Return []), (drawn w). rewrite with_drawn_same.
    split; [reflexivity|discriminate].
  - unfold bind. destruct (Hframe x w) as (out & n1 & -> & He).
    destruct out as [y|e'].
    + destruct (IH (with_drawn n1 w)) as (out2 & n2 & -> & He2).
      destruct out2 as [ys|e2].
      * exists (Return (y :: ys)), n2. split; [reflexivity|discriminate].
      * exists (Throw e2), n2. split; [reflexivity|exact He2].
    + exists (Throw e'), n1. split; [reflexivity|].
      intros e2 [= <-]. apply He. reflexivity.
Qed.

End MapM.

Lemma or_uuid_returns v w :
  exists id n', or_uuid uuidv4 v w = (Return id, with_drawn n' w).
Proof.
  unfold or_uuid. destruct (truthy v).
  - exists v, (drawn w). rewrite with_drawn_same. reflexivity.
  - exists (JStr (uuidv4 (drawn w))), (S (drawn w)). reflexivity.
Qed.

(** The normalization of a chapter only draws identifiers, and a TypeError
    is all it can throw. *)
Lemma normalize_chapter_frame chapter w :
  exists out n', normalize_chapter' chapter w = (out, with_drawn n' w)
                 /\ forall e, out = Throw e -> e = TypeError.
Proof.
  unfold normalize_chapter, bind.
  destruct (chapter_ok chapter) eqn:Hok.
  - rewrite (member_ok _ _ Hok). unfold ret at 1.
    destruct (or_uuid_returns (field chapter "chapterId") w) as (id & n' & ->).
    eexists _, n'. split; [reflexivity|discriminate].
  - exists (Throw TypeError), (drawn w). rewrite with_drawn_same.
    split; [|intros e [= <-]; reflexivity].
    destruct chapter; try discriminate; reflexivity.
Qed.

Lemma normalize_section_frame section w :
  exists out n', normalize_section' section w = (out, with_drawn n' w)
                 /\ forall e, out = Throw e -> e = TypeError.
Proof.
  unfold normalize_section, bind.
  destruct (chapter_ok section) eqn:Hok.
  - rewrite !(member_ok _ _ Hok). unfold ret at 1.
    destruct (or_uuid_returns (field section "sectionId") w) as (id & n1 & ->).
    unfold ret at 1. unfold call_map.
    destruct (field section "chapters") as [| | | | |chapters|] eqn:Hch;
      try (exists (Throw TypeError), n1;
           split; [reflexivity|intros e [= <-]; reflexivity]).
    unfold bind.
    destruct (mapM_frame normalize_chapter' TypeError chapters
                normalize_chapter_frame (with_drawn n1 w))
      as (out & n2 & -> & He).
    destruct out as [chs|e].
    + eexists _, n2. split; [reflexivity|discriminate].
    + exists (Throw e), n2. split; [reflexivity|].
      intros e' [= <-]. apply He. reflexivity.
  - exists (Throw TypeError), (drawn w). rewrite with_drawn_same.
    split; [|intros e [= <-]; reflexivity].
    destruct section; try discriminate; reflexivity.
Qed.

(** A section without a [chapters] array makes its normalization throw. *)
Lemma normalize_section_throws section w :
  has_chapters_array section = false ->
  exists n', normalize_section' section w = (Throw TypeError, with_drawn n' w).
Proof.
  intros Hbad.
  destruct (normalize_section_frame section w) as (out & n' & Hrun & He).
  destruct out as [v|e].
  - exfalso. revert Hrun. unfold normalize_section, bind.
    destruct (chapter_ok section) eqn:Hok.
    + rewrite !(member_ok _ _ Hok). unfold ret at 1.
      destruct (or_uuid_returns (field section "sectionId") w) as (id & n1 & ->).
      unfold ret at 1. unfold call_map.
      destruct section as [| | | | | |o]; simpl in *; try discriminate.
      destruct (prop o "chapters"); try discriminate.
    + destruct section; try discriminate; simpl; discriminate.
  - rewrite (He e eq_refl) in Hrun. exists n'. exact Hrun.
Qed.

Section NonEmptyIdentifiers.

(** A version-4 UUID is a string of 36 characters. *)
Hypothesis uuidv4_nonempty : forall n, uuidv4 n <> "".

Lemma or_uuid_run v w :
  exists id n', or_uuid uuidv4 v w = (Return id, with_drawn n' w)
                /\ (drawn w <= n')%nat
                /\ id_assigned uuidv4 (drawn w) n' v id
                /\ truthy id = true.
Proof.
  unfold or_uuid, id_assigned. destruct (truthy v) eqn:E.
  - exists v, (drawn w). rewrite with_drawn_same.
    split; [reflexivity|]. split; [lia|]. split; [split; reflexivity|exact E].
  - exists (JStr (uuidv4 (drawn w))), (S (drawn w)).
    split; [reflexivity|]. split; [lia|]. split.
    + split; [reflexivity|]. split; [reflexivity|apply uuidv4_nonempty].
    + simpl. destruct (String.eqb (uuidv4 (drawn w)) "") eqn:E'; [|reflexivity].
      apply String.eqb_eq in E'. destruct (uuidv4_nonempty _ E').
Qed.

Lemma normalize_chapter_run chapter w :
  chapter_ok chapter = true ->
  exists stored n',
    normalize_chapter' chapter w = (Return stored, with_drawn n' w)
    /\ (drawn w <= n')%nat
    /\ chapter_stored uuidv4 (drawn w) n' chapter stored
    /\ chapter_normal stored.
Proof.
  intros Hok. unfold normalize_chapter, bind.
  rewrite (member_ok _ _ Hok). unfold ret at 1.
  destruct (or_uuid_run (field chapter "chapterId") w) as (id & n' & -> & Hle & Hid & Ht).
  eexists _, n'. split; [reflexivity|]. split; [exact Hle|]. split.
  - eexists. split; [reflexivity|]. split.
    + unfold prop at 1. rewrite obj_get_set_eq. exact Hid.
    + intros k Hk. apply obj_get_set_ne. exact Hk.
  - eexists. split; [reflexivity|].
    unfold prop. rewrite obj_get_set_eq. exact Ht.
Qed.

Lemma normalize_section_run section w :
  section_ok section = true ->
  exists stored n',
    normalize_section' section w = (Return stored, with_drawn n' w)
    /\ (drawn w <= n')%nat
    /\ section_stored uuidv4 (drawn w) n' section stored
    /\ section_normal stored.
Proof.
  intros Hok. destruct section as [| | | | | |o]; try discriminate.
  simpl in Hok. destruct (prop o "chapters") as [| | | | |chapters|] eqn:Hch;
    try discriminate.
  unfold normalize_section, bind. simpl. unfold ret at 1.
  destruct (or_uuid_run (prop o "sectionId") w) as (id & n1 & -> & Hle1 & Hid & Ht).
  rewrite Hch. unfold call_map, bind.
  destruct (mapM_run normalize_chapter' (chapter_stored uuidv4) chapter_normal
              chapter_ok normalize_chapter_run
              chapters (with_drawn n1 w) Hok)
    as (chapters' & n2 & -> & Hle2 & Hall & Hnormal).
  simpl in Hle2, Hall.
  eexists _, n2. split; [reflexivity|]. split; [lia|].
  assert (Hsid : prop (obj_set "chapters" (JArr chapters')
                         (obj_set "sectionId" id o)) "sectionId" = id).
  { unfold prop. rewrite obj_get_set_ne by discriminate.
    rewrite obj_get_set_eq. reflexivity. }
  assert (Hchs : prop (obj_set "chapters" (JArr chapters')
                         (obj_set "sectionId" id o)) "chapters" = JArr chapters').
  { unfold prop. rewrite obj_get_set_eq. reflexivity. }
  split.
  - eexists _, chapters, chapters', n1. split; [reflexivity|].
    rewrite Hsid, Hchs. simpl. split; [|split; [exact Hch|split; [reflexivity|split]]].
    + exact Hid.
    + exact Hall.
    + intros k Hk1 Hk2. rewrite !obj_get_set_ne by assumption. reflexivity.
  - eexists _, chapters'. split; [reflexivity|].
    rewrite Hsid, Hchs. split; [exact Ht|]. split; [reflexivity|exact Hnormal].
Qed.

End NonEmptyIdentifiers.

(** Entries that carry their identifiers are left as they are, and no
    identifier is drawn for them. *)
Lemma normalize_chapter_fix chapter w :
  chapter_normal chapter -> normalize_chapter' chapter w = (Return chapter, w).
Proof.
  intros (o & -> & Ht). unfold normalize_chapter, bind. simpl.
  unfold ret at 1. unfold or_uuid. rewrite Ht. unfold ret at 1.
  rewrite obj_set_same; [reflexivity|].
  apply obj_get_prop_truthy. exact Ht.
Qed.

Lemma normalize_section_fix section w :
  section_normal section -> normalize_section' section w = (Return section, w).
Proof.
  intros (o & chapters & -> & Ht & Hch & Hall).
  unfold normalize_section, bind. simpl.
  unfold ret at 1. unfold or_uuid. rewrite Ht. unfold ret at 1.
  rewrite Hch. unfold call_map, bind.
  rewrite (mapM_fix normalize_chapter' chapters (fun x => x)).
  2:{ eapply Forall_impl; [exact Hall|].
      intros x Hx w'. apply normalize_chapter_fix. exact Hx. }
  rewrite map_id. unfold ret.
  rewrite (obj_set_same "sectionId") by (apply obj_get_prop_truthy; exact Ht).
  rewrite obj_set_same; [reflexivity|].
  rewrite <- Hch. apply obj_get_prop. rewrite Hch. discriminate.
Qed.

(** ** Running the update handler *)

(** ToString throws nothing but a TypeError. *)
Lemma to_string_throws v e : to_string v = inl e -> e = TypeError.
Proof.
  revert e. induction v as [| | b | n | s | items IH | props _] using JsVal_nested_ind;
    intros e; try discriminate.
  - destruct b; discriminate.
  - simpl.
    match goal with
    | |- match ?go items with _ => _ end = _ -> _ =>
        assert (Hgo : forall e', go items = inl e' -> e' = TypeError)
    end.
    { induction IH as [|x l Hx _ IHl]; intros e'; [discriminate|].
      destruct (match x with
                | JUndefined | JNull => inr ""
                | _ => to_string x
                end) as [e0|s0] eqn:Ex.
      - intros [= <-]. apply Hx. destruct x; try discriminate; exact Ex.
      - match goal with
        | |- match ?g with _ => _ end = _ -> _ => destruct g as [e1|ss] eqn:El
        end; [|discriminate].
        intros [= <-]. apply IHl. reflexivity. }
    match goal with
    | |- match ?g with _ => _ end = _ -> _ => destruct g as [e1|ss] eqn:El
    end; [|discriminate].
    intros [= <-]. apply Hgo. reflexivity.
  - simpl. destruct (obj_get "toString" props); [|discriminate].
    intros [= <-]. reflexivity.
Qed.

Lemma parseInt_throws v e : parseInt v = inl e -> e = TypeError.
Proof.
  unfold parseInt. destruct (to_string v) as [e0|s] eqn:E; [|discriminate].
  intros [= <-]. exact (to_string_throws _ _ E).
Qed.

Lemma normalize_price_frame patch updateData :
  normalize_price patch = inr (inr updateData) ->
  (forall k, k <> "price" -> obj_get k updateData = obj_get k patch)
  /\ (NoDup (obj_keys patch) -> NoDup (obj_keys updateData)).
Proof.
  unfold normalize_price. destruct (truthy (prop patch "price")).
  - destruct (parseInt (prop patch "price")) as [e|[n|]]; try discriminate.
    intros [= <-]. split.
    + intros k Hk. apply obj_get_set_ne. exact Hk.
    + apply obj_set_wf.
  - intros [= <-]. split; [reflexivity|exact (fun H => H)].
Qed.

Lemma normalize_price_absent patch updateData f :
  normalize_price patch = inr (inr updateData) ->
  obj_get f patch = None -> obj_get f updateData = None.
Proof.
  intros Hprice Hf. destruct (normalize_price_frame _ _ Hprice) as [Hother _].
  destruct (String.eqb f "price") eqn:E.
  - apply String.eqb_eq in E. subst f.
    unfold normalize_price, prop in Hprice. rewrite Hf in Hprice.
    simpl in Hprice. injection Hprice as <-. exact Hf.
  - apply String.eqb_neq in E. rewrite (Hother f E). exact Hf.
Qed.

Lemma normalize_price_accepted patch :
  price_accepted patch ->
  exists updateData, normalize_price patch = inr (inr updateData).
Proof.
  unfold price_accepted, normalize_price.
  destruct (truthy (prop patch "price")); [|eauto].
  intros H. destruct (H eq_refl) as (n & ->). eauto.
Qed.

Lemma normalize_price_string patch s :
  obj_get "price" patch = Some (JStr s) -> s <> "" ->
  normalize_price patch =
  match parseInt_string s with
  | Some n => inr (inr (obj_set "price" (JNum (n * 100)) patch))
  | None => inr (inl (reply_error 400 "Invalid price format"
                        (ErrText "Price must be a valid number")))
  end.
Proof.
  intros Hp Hs. unfold normalize_price, prop. rewrite Hp. simpl.
  destruct (String.eqb s "") eqn:E; [apply String.eqb_eq in E; contradiction|].
  reflexivity.
Qed.

(** The sections step only draws identifiers, touches no other field of the
    patch and keeps its keys apart. *)
Lemma normalize_sections_frame updateData w :
  exists out n',
    normalize_sections' updateData w = (out, with_drawn n' w)
    /\ forall updateData', out = Return updateData' ->
         (forall k, k <> "sections" -> obj_get k updateData' = obj_get k updateData)
         /\ (NoDup (obj_keys updateData) -> NoDup (obj_keys updateData')).
Proof.
  unfold normalize_sections.
  destruct (truthy (prop updateData "sections")).
  - unfold bind.
    assert (Hdata : exists out,
               sections_data JSON_parse (prop updateData "sections") w = (out, w)).
    { unfold sections_data. destruct (prop updateData "sections"); eauto.
      destruct (JSON_parse s); eauto. }
    destruct Hdata as (out & ->). destruct out as [sectionsData|e].
    2:{ exists (Throw e), (drawn w). rewrite with_drawn_same.
        split; [reflexivity|discriminate]. }
    unfold call_map.
    destruct sectionsData as [| | | | |secs|];
      try (exists (Throw TypeError), (drawn w); rewrite with_drawn_same;
           split; [reflexivity|discriminate]).
    unfold bind.
    destruct (mapM_frame normalize_section' TypeError secs
                normalize_section_frame w) as (out & n' & -> & _).
    destruct out as [secs'|e].
    + eexists _, n'. split; [reflexivity|]. intros ud' [= <-]. split.
      * intros k Hk. apply obj_get_set_ne. exact Hk.
      * apply obj_set_wf.
    + exists (Throw e), n'. split; [reflexivity|discriminate].
  - exists (Return updateData), (drawn w). rewrite with_drawn_same.
    split; [reflexivity|]. intros ud' [= <-].
    split; [reflexivity|exact (fun H => H)].
Qed.

(** What the handler does once the course is found, the caller owns it and
    the price check has passed. *)
Lemma updateCourse_owner req w c updateData :
  courses w !! params_courseId req = Some c ->
  strict_eq (prop c "teacherId") (userId_of req) = true ->
  normalize_price (body req) = inr (inr updateData) ->
  updateCourse' req w =
  match normalize_sections' updateData w with
  | (Return updateData', w1) =>
      match Course_save schema_ok (Object_assign c updateData') w1 with
      | (Return _, w2) =>
          (reply_data "Course updated successfully"
             (JObj (Object_assign c updateData')), w2)
      | (Throw e, w2) =>
          (reply_error 500 "Error updating course" (ErrCaught e), w2)
      end
  | (Throw e, w1) => (reply_error 500 "Error updating course" (ErrCaught e), w1)
  end.
Proof.
  intros Hc Hown Hprice.
  unfold updateCourse, try_catch, bind, Course_get. simpl.
  rewrite Hc, Hown, Hprice. simpl.
  destruct (normalize_sections' updateData w) as [[ud'|e] w1]; [|reflexivity].
  destruct (Course_save schema_ok (Object_assign c ud') w1) as [[[]|e] w2];
    reflexivity.
Qed.

(** A price that cannot be converted ends the update in the catch branch,
    before anything is drawn or written. *)
Lemma updateCourse_price_throws req w c e :
  courses w !! params_courseId req = Some c ->
  strict_eq (prop c "teacherId") (userId_of req) = true ->
  normalize_price (body req) = inl e ->
  updateCourse' req w = (reply_error 500 "Error updating course" (ErrCaught e), w).
Proof.
  intros Hc Hown Hprice.
  unfold updateCourse, try_catch, bind, Course_get. simpl.
  rewrite Hc, Hown, Hprice. reflexivity.
Qed.

(** A successful update, taken apart. *)
Lemma updateCourse_success req w c r w' :
  courses w !! params_courseId req = Some c ->
  strict_eq (prop c "teacherId") (userId_of req) = true ->
  updateCourse' req w = (r, w') ->
  status r = 200 ->
  exists updateData updateData' n' k,
    normalize_price (body req) = inr (inr updateData)
    /\ normalize_sections' updateData w = (Return updateData', with_drawn n' w)
    /\ prop (Object_assign c updateData') "courseId" = JStr k
    /\ schema_ok (Object_assign c updateData') = true
    /\ r = reply_data "Course updated successfully" (JObj (Object_assign c updateData'))
    /\ w' = with_courses (<[k := Object_assign c updateData']> (courses w))
              (with_drawn n' w).
Proof.
  intros Hc Hown Hrun Hst.
  destruct (normalize_price (body req)) as [e|[res|ud]] eqn:Hprice.
  { exfalso. rewrite (updateCourse_price_throws req w c e Hc Hown Hprice) in Hrun.
    injection Hrun as <- <-. discriminate. }
  { exfalso. revert Hrun.
    unfold updateCourse, try_catch, bind, Course_get. simpl.
    rewrite Hc, Hown, Hprice. simpl. intros [= <- <-].
    unfold normalize_price in Hprice.
    destruct (truthy (prop (body req) "price")); [|discriminate].
    destruct (parseInt (prop (body req) "price")) as [e|[n|]]; try discriminate.
    injection Hprice as <-. discriminate. }
  rewrite (updateCourse_owner req w c ud Hc Hown Hprice) in Hrun.
  destruct (normalize_sections_frame ud w) as (out & n' & Hsec & _).
  rewrite Hsec in Hrun. destruct out as [ud'|e].
  2:{ injection Hrun as <- <-. discriminate. }
  unfold Course_save in Hrun.
  destruct (prop (Object_assign c ud') "courseId") as [| | | |k| |] eqn:Hk;
    try (injection Hrun as <- <-; discriminate).
  destruct (schema_ok (Object_assign c ud')) eqn:Hok;
    [|injection Hrun as <- <-; discriminate].
  injection Hrun as <- <-.
  exists ud, ud', n', k. repeat split; try assumption.
Qed.

Lemma stored_in_insert k r w n :
  prop r "courseId" = JStr k ->
  stored_in (with_courses (<[k := r]> (courses w)) (with_drawn n w)) r.
Proof.
  intros Hk. exists k. split; [exact Hk|]. simpl. apply lookup_insert_eq.
Qed.

(** ** Price *)

Lemma parseInt_string_nonempty s n : parseInt_string s = Some n -> s <> "".
Proof. intros H ->. discriminate. Qed.

(** A falsy price, the empty string included, never reaches the price check:
    whatever the table and the rest of the patch, the answer is not a 400. *)
Lemma falsy_price_is_not_checked req w :
  truthy (prop (body req) "price") = false ->
  status (updateCourse' req w).1 <> 400.
Proof.
  intros Hfalsy.
  unfold updateCourse, try_catch, bind, Course_get. simpl.
  destruct (courses w !! params_courseId req) as [c|]; [|simpl; discriminate].
  destruct (strict_eq (prop c "teacherId") (userId_of req)); [|simpl; discriminate].
  unfold normalize_price. rewrite Hfalsy. simpl.
  destruct (normalize_sections' (body req) w) as [[ud'|e] w1]; [|simpl; discriminate].
  destruct (Course_save schema_ok (Object_assign c ud') w1) as [[[]|e] w2];
    simpl; discriminate.
Qed.

(** C3, as amended: for an update of an existing course by its owner whose
    patch carries a non-empty price string, a string that [parseInt] cannot
    read is answered with 400 "Invalid price format" and nothing changes;
    a string read as [n] is stored as [100 * n] by every successful update,
    and the update is successful when the patch has no sections and the
    table accepts the merged record. *)
Theorem update_price_string (req : Request) (w : World) (c : JsObj) (s : string) :
  courses w !! params_courseId req = Some c ->
  strict_eq (prop c "teacherId") (userId_of req) = true ->
  NoDup (obj_keys (body req)) ->
  obj_get "price" (body req) = Some (JStr s) ->
  s <> "" ->
  (parseInt_string s = None ->
   updateCourse' req w =
   (reply_error 400 "Invalid price format" (ErrText "Price must be a valid number"), w))
  /\ (forall n r w',
        parseInt_string s = Some n ->
        safe_integer (n * 100) ->
        updateCourse' req w = (r, w') ->
        status r = 200 ->
        exists c', data r = Some (JObj c') /\ stored_in w' c'
                   /\ prop c' "price" = JNum (100 * n))
  /\ (forall n k,
        parseInt_string s = Some n ->
        safe_integer (n * 100) ->
        obj_get "sections" (body req) = None ->
        let merged := Object_assign c (obj_set "price" (JNum (n * 100)) (body req)) in
        prop merged "courseId" = JStr k ->
        schema_ok merged = true ->
        updateCourse' req w =
        (reply_data "Course updated successfully" (JObj merged),
         with_courses (<[k := merged]> (courses w)) w)).
Proof.
  intros Hc Hown Hwf Hp Hs.
  pose proof (normalize_price_string _ _ Hp Hs) as Hprice.
  split; [|split].
  - intros Hnan. rewrite Hnan in Hprice.
    unfold updateCourse, try_catch, bind, Course_get. simpl.
    rewrite Hc, Hown, Hprice. reflexivity.
  - intros n r w' Hn _ Hrun Hst. rewrite Hn in Hprice.
    destruct (updateCourse_success req w c r w' Hc Hown Hrun Hst)
      as (ud & ud' & n' & k & Hprice' & Hsec & Hk & _ & -> & ->).
    rewrite Hprice in Hprice'. injection Hprice' as <-.
    destruct (normalize_sections_frame
                (obj_set "price" (JNum (n * 100)) (body req)) w)
      as (out & n2 & Hsec' & Hframe).
    rewrite Hsec in Hsec'. injection Hsec' as <- _.
    destruct (Hframe ud' eq_refl) as [Hother Hwf'].
    eexists. split; [reflexivity|]. split; [apply stored_in_insert; exact Hk|].
    assert (Hget : obj_get "price" ud' = Some (JNum (n * 100))).
    { rewrite Hother by discriminate. apply obj_get_set_eq. }
    unfold prop.
    rewrite (obj_get_assign _ _ c _ (Hwf' (obj_set_wf _ _ _ Hwf)) Hget).
    simpl. f_equal. lia.
  - intros n k Hn _ Hnosec merged Hk Hok. rewrite Hn in Hprice.
    rewrite (updateCourse_owner req w c _ Hc Hown Hprice).
    unfold normalize_sections, prop.
    rewrite obj_get_set_ne by discriminate. rewrite Hnosec. simpl.
    unfold ret, Course_save. fold merged. rewrite Hk, Hok. reflexivity.
Qed.

(** What [parseInt] reads from a falsy value: 0 from the number 0, and
    nothing from any other one. *)
Lemma parseInt_falsy v n :
  truthy v = false -> parseInt v = inr (Some n) -> v = JNum 0 /\ n = 0.
Proof.
  destruct v as [| |[]|m|s| |]; try discriminate.
  - simpl. intros Hm. destruct (Z.eqb_spec m 0) as [->|]; [|discriminate].
    intros [= <-]. split; reflexivity.
  - simpl. intros Hs. destruct (String.eqb_spec s "") as [->|]; [|discriminate].
    discriminate.
Qed.

(** C4, as amended: creation stores price 0; a successful update leaves
    the price as it was when the patch has no price field, and when
    [parseInt] reads the price of the patch, a string, a number or any other
    value, as a non-negative [n] with [100 * n] in the safe range, the
    price stored is [100 * n], a non-negative integer. *)
Theorem stored_price_nonnegative (req : Request) (w : World) (r : Response) (w' : World) :
  (createCourse' req w = (r, w') ->
   status r = 200 ->
   exists c', data r = Some (JObj c') /\ stored_in w' c'
              /\ prop c' "price" = JNum 0)
  /\ (forall c,
        courses w !! params_courseId req = Some c ->
        strict_eq (prop c "teacherId") (userId_of req) = true ->
        NoDup (obj_keys (body req)) ->
        updateCourse' req w = (r, w') ->
        status r = 200 ->
        exists c', data r = Some (JObj c') /\ stored_in w' c'
          /\ (obj_get "price" (body req) = None ->
               prop c' "price" = prop c "price")
          /\ (forall n,
                 parseInt (prop (body req) "price") = inr (Some n) ->
                 0 <= n -> safe_integer (n * 100) ->
                 prop c' "price" = JNum (100 * n) /\ 0 <= 100 * n)).
Proof.
  split.
  - unfold createCourse, try_catch, bind.
    destruct (negb (truthy (prop (body req) "teacherId"))
              || negb (truthy (prop (body req) "teacherName"))).
    { intros [= <- <-]. discriminate. }
    unfold uuid at 1. unfold Course_save. simpl.
    destruct (schema_ok _); [|intros [= <- <-]; discriminate].
    intros [= <- <-] _. eexists. split; [reflexivity|]. split; [|reflexivity].
    eexists. split; [reflexivity|]. simpl. apply lookup_insert_eq.
  - intros c Hc Hown Hwf Hrun Hst.
    destruct (updateCourse_success req w c r w' Hc Hown Hrun Hst)
      as (ud & ud' & n' & k & Hprice & Hsec & Hk & _ & -> & ->).
    destruct (normalize_sections_frame ud w) as (out & n2 & Hsec' & Hframe).
    rewrite Hsec in Hsec'. injection Hsec' as <- _.
    destruct (Hframe ud' eq_refl) as [Hother Hwf'].
    destruct (normalize_price_frame _ _ Hprice) as [_ Hwf1].
    eexists. split; [reflexivity|]. split; [apply stored_in_insert; exact Hk|].
    split.
    + intros Hnone. unfold prop. f_equal. apply obj_get_assign_other.
      rewrite Hother by discriminate.
      exact (normalize_price_absent _ _ _ Hprice Hnone).
    + intros n Hn Hpos _. split; [|lia].
      assert (Hget : obj_get "price" ud' = Some (JNum (n * 100))).
      { rewrite Hother by discriminate.
        unfold normalize_price in Hprice.
        destruct (truthy (prop (body req) "price")) eqn:Ht.
        - rewrite Hn in Hprice. injection Hprice as <-. apply obj_get_set_eq.
        - injection Hprice as <-.
          destruct (parseInt_falsy _ _ Ht Hn) as [Hv ->].
          unfold prop in Hv.
          destruct (obj_get "price" (body req)) as [v|]; [|discriminate].
          simpl in Hv. rewrite Hv. reflexivity. }
      unfold prop.
      rewrite (obj_get_assign _ _ c _ (Hwf' (Hwf1 Hwf)) Hget).
      simpl. f_equal. lia.
Qed.

(** C5, as amended: a successful update whose patch names none of
    [courseId], [teacherId] and [teacherName] stores the record with these
    three fields as they were, under the same key. *)
Theorem update_keeps_identity (req : Request) (w : World) (c : JsObj)
    (r : Response) (w' : World) :
  courses w !! params_courseId req = Some c ->
  strict_eq (prop c "teacherId") (userId_of req) = true ->
  updateCourse' req w = (r, w') ->
  status r = 200 ->
  obj_get "courseId" (body req) = None ->
  obj_get "teacherId" (body req) = None ->
  obj_get "teacherName" (body req) = None ->
  exists c', data r = Some (JObj c') /\ stored_in w' c'
    /\ prop c' "courseId" = prop c "courseId"
    /\ prop c' "teacherId" = prop c "teacherId"
    /\ prop c' "teacherName" = prop c "teacherName"
    /\ (prop c "courseId" = JStr (params_courseId req) ->
        courses w' !! params_courseId req = Some c').
Proof.
  intros Hc Hown Hrun Hst Hid Htid Htname.
  destruct (updateCourse_success req w c r w' Hc Hown Hrun Hst)
    as (ud & ud' & n' & k & Hprice & Hsec & Hk & _ & -> & ->).
  destruct (normalize_sections_frame ud w) as (out & n2 & Hsec' & Hframe).
  rewrite Hsec in Hsec'. injection Hsec' as <- _.
  destruct (Hframe ud' eq_refl) as [Hother _].
  destruct (normalize_price_frame _ _ Hprice) as [Hother0 _].
  assert (Hkeep : forall f, f <> "sections" -> f <> "price" ->
            obj_get f (body req) = None ->
            prop (Object_assign c ud') f = prop c f).
  { intros f Hf1 Hf2 Hnone. unfold prop. f_equal.
    apply obj_get_assign_other. rewrite Hother, Hother0; assumption. }
  pose proof (Hkeep "courseId" ltac:(discriminate) ltac:(discriminate) Hid) as H1.
  pose proof (Hkeep "teacherId" ltac:(discriminate) ltac:(discriminate) Htid) as H2.
  pose proof (Hkeep "teacherName" ltac:(discriminate) ltac:(discriminate) Htname) as H3.
  eexists. split; [reflexivity|]. split; [apply stored_in_insert; exact Hk|].
  repeat split; try assumption.
  intros Hkey. rewrite H1, Hkey in Hk. injection Hk as <-.
  simpl. apply lookup_insert_eq.
Qed.

(** ** Sections *)

(** The sections step on a patch that carries the list [sections]. *)
Lemma normalize_sections_submitted updateData sections w :
  submitted_sections JSON_parse updateData sections ->
  normalize_sections' updateData w =
  match mapM normalize_section' sections w with
  | (Return sections', w1) =>
      (Return (obj_set "sections" (JArr sections') updateData), w1)
  | (Throw e, w1) => (Throw e, w1)
  end.
Proof.
  intros Hsub. unfold normalize_sections.
  assert (Hdata : truthy (prop updateData "sections") = true
                  /\ sections_data JSON_parse (prop updateData "sections") w
                     = (Return (JArr sections), w)).
  { destruct Hsub as [->|(s & Hs & -> & Hparse)].
    - split; reflexivity.
    - simpl. rewrite Hparse. split; [|reflexivity].
      destruct (String.eqb s "") eqn:E; [|reflexivity].
      apply String.eqb_eq in E. contradiction. }
  destruct Hdata as [-> Hdata]. unfold bind at 1. rewrite Hdata.
  unfold call_map, bind.
  destruct (mapM normalize_section' sections w) as [[secs'|e] w1]; reflexivity.
Qed.

Lemma submitted_sections_price patch updateData sections :
  normalize_price patch = inr (inr updateData) ->
  submitted_sections JSON_parse patch sections ->
  submitted_sections JSON_parse updateData sections.
Proof.
  intros Hprice. destruct (normalize_price_frame _ _ Hprice) as [Hother _].
  unfold submitted_sections, prop. rewrite Hother by discriminate.
  exact (fun H => H).
Qed.

(** C1: for an update of an existing course by its owner whose patch
    carries a sections list, as a structured value or as a JSON text, in
    which every section is an object with an array of chapters, and whose
    price, if any, [parseInt] can read: the sections are stored one after
    the other, each section before its chapters; every section and chapter
    without a truthy identifier gets the non-empty identifier of a call of
    the generator made for it alone, the next call each time, every other
    one keeps the identifier submitted and no call is made for it; all
    other fields pass through, the merged record holds the normalized list,
    keeps every field the patch does not name and is what the table
    receives when it accepts the record, and normalizing the normalized
    list again returns it unchanged and draws no identifier. *)
Theorem update_sections_identifiers (req : Request) (w : World) (c : JsObj)
    (sections : list JsVal) :
  (forall n, uuidv4 n <> "") ->
  courses w !! params_courseId req = Some c ->
  strict_eq (prop c "teacherId") (userId_of req) = true ->
  NoDup (obj_keys (body req)) ->
  price_accepted (body req) ->
  submitted_sections JSON_parse (body req) sections ->
  forallb section_ok sections = true ->
  exists sections' n' merged,
    (drawn w <= n')%nat
    /\ stored_in_turn (section_stored uuidv4) (drawn w) n' sections sections'
    /\ prop merged "sections" = JArr sections'
    /\ (forall f, obj_get f (body req) = None -> prop merged f = prop c f)
    /\ (forall k,
          prop merged "courseId" = JStr k ->
          schema_ok merged = true ->
          updateCourse' req w =
          (reply_data "Course updated successfully" (JObj merged),
           with_courses (<[k := merged]> (courses w)) (with_drawn n' w)))
    /\ (forall w2,
          call_map (JArr sections') normalize_section' w2
          = (Return (JArr sections'), w2)).
Proof.
  intros Hne Hc Hown Hwf Hacc Hsub Hok.
  destruct (normalize_price_accepted _ Hacc) as (ud & Hprice).
  destruct (normalize_price_frame _ _ Hprice) as [_ Hwf1].
  pose proof (submitted_sections_price _ _ _ Hprice Hsub) as Hsub1.
  destruct (mapM_run normalize_section' (section_stored uuidv4) section_normal
              section_ok (normalize_section_run Hne)
              sections w Hok)
    as (sections' & n' & Hrun & Hle & Hall & Hnormal).
  pose proof (normalize_sections_submitted ud sections w Hsub1) as Hsec.
  rewrite Hrun in Hsec.
  exists sections', n', (Object_assign c (obj_set "sections" (JArr sections') ud)).
  split; [exact Hle|]. split; [exact Hall|]. split; [|split; [|split]].
  - unfold prop.
    rewrite (obj_get_assign "sections" (JArr sections'));
      [reflexivity|apply obj_set_wf, Hwf1, Hwf|apply obj_get_set_eq].
  - intros f Hf. unfold prop. f_equal. apply obj_get_assign_other.
    rewrite obj_get_set_ne.
    + exact (normalize_price_absent _ _ _ Hprice Hf).
    + intros ->. destruct Hsub as [Hs|(s0 & _ & Hs & _)];
        unfold prop in Hs; rewrite Hf in Hs; discriminate.
  - intros k Hk Hsave.
    rewrite (updateCourse_owner req w c ud Hc Hown Hprice), Hsec.
    unfold Course_save. rewrite Hk, Hsave. reflexivity.
  - intros w2. unfold call_map, bind.
    rewrite (mapM_fix normalize_section' sections' (fun x => x)).
    + rewrite map_id. reflexivity.
    + eapply Forall_impl; [exact Hnormal|].
      intros x Hx w3. apply normalize_section_fix. exact Hx.
Qed.

(** C10: for an update of an existing course by its owner that passes the
    price check and whose patch carries a sections list in which some
    section has no array of chapters, the handler answers from its catch
    branch with 500 and the caught TypeError, not with a 400, and the table
    is as it was. *)
Theorem update_sections_without_chapters (req : Request) (w : World) (c : JsObj)
    (sections : list JsVal) :
  courses w !! params_courseId req = Some c ->
  strict_eq (prop c "teacherId") (userId_of req) = true ->
  price_accepted (body req) ->
  submitted_sections JSON_parse (body req) sections ->
  Exists (fun section => has_chapters_array section = false) sections ->
  exists r w',
    updateCourse' req w = (r, w')
    /\ r = reply_error 500 "Error updating course" (ErrCaught TypeError)
    /\ status r <> 400
    /\ courses w' = courses w.
Proof.
  intros Hc Hown Hacc Hsub Hbad.
  destruct (normalize_price_accepted _ Hacc) as (ud & Hprice).
  pose proof (submitted_sections_price _ _ _ Hprice Hsub) as Hsub1.
  destruct (mapM_throws normalize_section' TypeError sections
              normalize_section_frame) with (w := w) as (n' & Hrun).
  { eapply Exists_impl; [exact Hbad|].
    intros x Hx w0. apply normalize_section_throws. exact Hx. }
  pose proof (normalize_sections_submitted ud sections w Hsub1) as Hsec.
  rewrite Hrun in Hsec.
  eexists _, (with_drawn n' w). split; [|split; [reflexivity|split]].
  - rewrite (updateCourse_owner req w c ud Hc Hown Hprice), Hsec. reflexivity.
  - discriminate.
  - reflexivity.
Qed.

End CourseServiceFacts.

(** ** The upload-URL service *)

Section UploadFacts.

Variable uuidv4 : nat -> string.
Variable S3_BUCKET_NAME : option string.
Variable CLOUDFRONT_DOMAIN : option string.
Variable getSignedUrl : string -> S3Params -> Exn + string.

Local Abbreviation getUploadVideoUrl' :=
  (getUploadVideoUrl uuidv4 S3_BUCKET_NAME CLOUDFRONT_DOMAIN getSignedUrl).

(** C9: without a file name or a file type the handler answers 400;
    with both, a file name that ToString converts to the text [name] (as
    it does every string) and whose numbers, if any, are safe integers, a
    configured bucket and a signer that answers, it asks the signer once
    for a [putObject] URL that expires after 60 seconds, for the key
    [videos/{uniqueId}/{name}] and the declared content type, and the
    [videoUrl] it returns is the content-delivery domain, a slash and that
    same key. *)
Theorem upload_url_key (req : Request) (w : World) :
  let fileName := prop (body req) "fileName" in
  let fileType := prop (body req) "fileType" in
  (truthy fileName = false \/ truthy fileType = false ->
   getUploadVideoUrl' req w = (reply 400 "File name and type are required", w))
  /\ (forall name bucket domain url,
        truthy fileName = true ->
        truthy fileType = true ->
        to_string fileName = inr name ->
        safe_numbers fileName = true ->
        S3_BUCKET_NAME = Some bucket ->
        bucket <> "" ->
        CLOUDFRONT_DOMAIN = Some domain ->
        let key :=
          String.append "videos/"
            (String.append (uuidv4 (drawn w)) (String.append "/" name)) in
        let params := mkS3Params bucket key 60 fileType in
        getSignedUrl "putObject" params = inr url ->
        getUploadVideoUrl' req w =
        (reply_data "Upload URL generated successfully"
           (JObj [("uploadUrl", JStr url);
                  ("videoUrl",
                   JStr (String.append domain (String.append "/" key)))]),
         with_s3_call ("putObject", params) (with_drawn (S (drawn w)) w))).
Proof.
  intros fileName fileType. split.
  - intros Hmissing. unfold getUploadVideoUrl, try_catch.
    fold fileName fileType.
    destruct Hmissing as [-> | ->]; simpl.
    + reflexivity.
    + rewrite orb_true_r. reflexivity.
  - intros name bucket domain url Hname Htype Htext _ Hbucket Hne Hdomain
      key params Hsign.
    unfold getUploadVideoUrl, try_catch, bind, uuid, s3_sign, lift.
    fold fileName fileType. rewrite Hname, Htype, Htext, Hbucket, Hdomain. simpl.
    destruct (String.eqb bucket "") eqn:E;
      [apply String.eqb_eq in E; contradiction|].
    simpl. fold key. fold params. rewrite Hsign. reflexivity.
Qed.

End UploadFacts.

(** ** The optimistic progress patch *)

Lemma jsval_eqb_eq v w : jsval_eqb v w = true <-> v = w.
Proof.
  revert w. induction v as [| |b|n|s|items IH|props IH] using JsVal_nested_ind;
    intros w; destruct w; simpl; try (split; [discriminate|congruence]);
    try (split; reflexivity).
  - rewrite Bool.eqb_true_iff. split; congruence.
  - rewrite Z.eqb_eq. split; congruence.
  - rewrite String.eqb_eq. split; congruence.
  - revert items0. induction IH as [|x l Hx _ IHl]; intros [|y l'];
      try (split; [discriminate|congruence]); [split; reflexivity|].
    rewrite andb_true_iff, Hx, IHl. split.
    + intros [-> [= ->]]. reflexivity.
    + intros [= -> ->]. split; reflexivity.
  - revert props0. induction IH as [|[k x] l Hx _ IHl]; intros [|[k' y] l'];
      try (split; [discriminate|congruence]); [split; reflexivity|].
    simpl in Hx. rewrite !andb_true_iff, String.eqb_eq, Hx, IHl. split.
    + intros [[-> ->] [= ->]]. reflexivity.
    + intros [= -> -> ->]. repeat split.
Qed.

Lemma jsval_eqb_refl v : jsval_eqb v v = true.
Proof. apply jsval_eqb_eq. reflexivity. Qed.

Lemma obj_keys_app (o1 o2 : JsObj) :
  obj_keys (o1 ++ o2) = (obj_keys o1 ++ obj_keys o2)%list.
Proof. apply map_app. Qed.

Lemma obj_set_app_notin k v (pre o : JsObj) :
  k ∉ obj_keys pre -> obj_set k v (pre ++ o) = (pre ++ obj_set k v o)%list.
Proof.
  induction pre as [|[k0 v0] pre IH]; simpl; intros Hk; [reflexivity|].
  apply not_elem_of_cons in Hk as [Hne Hk].
  destruct (String.eqb k k0) eqn:E.
  - apply String.eqb_eq in E. contradiction.
  - rewrite (IH Hk). reflexivity.
Qed.

(** [Object.assign(o, {...o, k: v})] is [o] with [k] set to [v]. *)
Lemma Object_assign_set_self_gen k v (pre o : JsObj) :
  NoDup (obj_keys (pre ++ o)) -> k ∉ obj_keys pre ->
  Object_assign (pre ++ o) (obj_set k v o) = (pre ++ obj_set k v o)%list.
Proof.
  revert pre. induction o as [|[k0 v0] o IH]; intros pre Hwf Hk.
  - simpl. unfold Object_assign. simpl. apply obj_set_app_notin. exact Hk.
  - simpl. destruct (String.eqb k k0) eqn:E.
    + apply String.eqb_eq in E. subst k0.
      unfold Object_assign. simpl. rewrite (obj_set_app_notin _ _ _ _ Hk). simpl.
      rewrite String.eqb_refl.
      apply Object_assign_noop. intros k' v' Hin.
      apply obj_get_elem.
      * rewrite obj_keys_app in *. exact Hwf.
      * apply elem_of_app. right. right. exact Hin.
    + unfold Object_assign. simpl.
      rewrite (obj_set_same k0 v0 (pre ++ (k0, v0) :: o)).
      2:{ apply obj_get_elem; [exact Hwf|].
          apply elem_of_app. right. left. }
      replace (pre ++ (k0, v0) :: o)%list with ((pre ++ [(k0, v0)]) ++ o)%list
        by (rewrite <- app_assoc; reflexivity).
      replace (pre ++ (k0, v0) :: obj_set k v o)%list
        with ((pre ++ [(k0, v0)]) ++ obj_set k v o)%list
        by (rewrite <- app_assoc; reflexivity).
      apply IH.
      * rewrite <- app_assoc. exact Hwf.
      * rewrite obj_keys_app. intros Hin. apply elem_of_app in Hin as [Hin|Hin].
        -- contradiction.
        -- apply list_elem_of_singleton in Hin. apply String.eqb_neq in E.
           contradiction.
Qed.

Lemma Object_assign_set_self k v (o : JsObj) :
  NoDup (obj_keys o) -> Object_assign o (obj_set k v o) = obj_set k v o.
Proof.
  intros Hwf. apply (Object_assign_set_self_gen k v [] o Hwf).
  apply not_elem_of_nil.
Qed.

Lemma progress_recipe_sets progressData draft :
  NoDup (obj_keys draft) ->
  progress_recipe progressData draft =
  obj_set "sections" (prop progressData "sections") draft.
Proof. intros Hwf. unfold progress_recipe. simpl. apply Object_assign_set_self, Hwf. Qed.

Lemma flat_map_nil {A B : Type} (f : A -> list B) (l : list A) :
  (forall x, x ∈ l -> f x = []) -> flat_map f l = [].
Proof.
  induction l as [|x l IH]; simpl; intros H; [reflexivity|].
  rewrite (H x) by left. apply IH. intros y Hy. apply H. right. exact Hy.
Qed.

Lemma flat_map_single {A B : Type} (f : A -> list B) (k : A) (l : list A) :
  NoDup l -> k ∈ l -> (forall x, x ∈ l -> x <> k -> f x = []) ->
  flat_map f l = f k.
Proof.
  induction l as [|x l IH]; simpl; intros Hnd Hin H.
  - apply elem_of_nil in Hin. contradiction.
  - apply NoDup_cons in Hnd as [Hx Hnd].
    apply elem_of_cons in Hin as [->|Hin].
    + rewrite flat_map_nil; [apply app_nil_r|].
      intros y Hy. apply H; [right; exact Hy|]. intros ->. contradiction.
    + rewrite (H x); [|left|intros ->; contradiction]. simpl.
      apply IH; [exact Hnd|exact Hin|].
      intros y Hy. apply H. right. exact Hy.
Qed.

Lemma has_key_keys k o : has_key k o = true <-> k ∈ obj_keys o.
Proof.
  unfold has_key. pose proof (obj_get_None_keys k o) as H.
  destruct (obj_get k o); split; intros Hk; try reflexivity; try discriminate.
  - destruct (decide (k ∈ obj_keys o)) as [Hin|Hout]; [exact Hin|].
    apply H in Hout. discriminate.
  - exfalso. apply H; [reflexivity|exact Hk].
Qed.

(** Setting one property changes that property only. *)
Lemma diff_set k v base :
  NoDup (obj_keys base) ->
  diff base (obj_set k v base) = diff_key base (obj_set k v base) k.
Proof.
  intros Hwf. unfold diff.
  rewrite (flat_map_nil _ (filter _ _)).
  2:{ intros x Hx. apply list_elem_of_filter in Hx as [Hno Hx]. exfalso.
      apply has_key_keys in Hx. unfold has_key in *.
      rewrite obj_get_set in Hno.
      destruct (String.eqb x k); [exact Hno|].
      destruct (obj_get x base); [exact Hno|discriminate]. }
  rewrite app_nil_r. apply flat_map_single.
  - apply obj_set_wf, Hwf.
  - apply has_key_keys. unfold has_key. rewrite obj_get_set_eq. reflexivity.
  - intros x Hx Hne. apply has_key_keys in Hx. unfold has_key, diff_key in *.
    rewrite obj_get_set_ne in * by exact Hne.
    destruct (obj_get x base); [|discriminate].
    rewrite jsval_eqb_refl. reflexivity.
Qed.

Lemma obj_set_twice k v v' o : obj_set k v' (obj_set k v o) = obj_set k v' o.
Proof.
  induction o as [|[k0 v0] o IH]; simpl.
  - rewrite String.eqb_refl. reflexivity.
  - destruct (String.eqb k k0) eqn:E; simpl.
    + rewrite String.eqb_refl. reflexivity.
    + rewrite E, IH. reflexivity.
Qed.

Lemma obj_remove_set k v o : obj_get k o = None -> obj_remove k (obj_set k v o) = o.
Proof.
  induction o as [|[k0 v0] o IH]; simpl; intros H.
  - rewrite String.eqb_refl. reflexivity.
  - destruct (String.eqb k k0) eqn:E; [discriminate|]. simpl.
    rewrite E, (IH H). reflexivity.
Qed.

(** The journal of the recipe: applying it gives the record with the
    property set, and applying its inverse after that gives the record
    back. *)
Lemma diff_set_roundtrip k v base :
  NoDup (obj_keys base) ->
  let d := diff base (obj_set k v base) in
  apply_patches (map fst d) base = obj_set k v base
  /\ apply_patches (map snd d) (obj_set k v base) = base.
Proof.
  intros Hwf d. subst d. rewrite (diff_set k v base Hwf).
  unfold diff_key. rewrite obj_get_set_eq.
  destruct (obj_get k base) as [old|] eqn:Hold.
  - destruct (jsval_eqb old v) eqn:E; simpl.
    + apply jsval_eqb_eq in E. subst v.
      rewrite (obj_set_same _ _ _ Hold). split; reflexivity.
    + split; [reflexivity|].
      rewrite obj_set_twice. apply obj_set_same. exact Hold.
  - simpl. split; [reflexivity|]. apply obj_remove_set. exact Hold.
Qed.

(** C6: when the call is rejected after the optimistic patch, the undo
    leaves the query cache, hence the cached progress record, equal to what
    it was before the patch. *)
Theorem rejected_update_restores_cache (u : ProgressUpdate) (cache : Cache) :
  (forall record,
      cache !! (userId u, courseId u) = Some record -> NoDup (obj_keys record)) ->
  onQueryStarted u Rejected cache = cache.
Proof.
  intros Hwf. unfold onQueryStarted, optimistic_patch, updateQueryData.
  destruct (cache !! (userId u, courseId u)) as [base|] eqn:Hbase.
  - specialize (Hwf base eq_refl).
    rewrite (progress_recipe_sets _ _ Hwf).
    destruct (diff_set_roundtrip "sections"
                (prop (progressData u) "sections") base Hwf) as [Hdo Hundo].
    unfold undo, patchQueryData. simpl. rewrite Hbase.
    rewrite lookup_insert_eq, insert_insert_eq, Hdo, Hundo.
    apply insert_id. exact Hbase.
  - unfold undo, patchQueryData. simpl. rewrite Hbase. reflexivity.
Qed.

(** C7, as amended: before the call resolves, the cached progress record
    has its [sections] replaced by the submitted list as a whole; every
    other property of the record and every other cache entry is kept. *)
Theorem optimistic_patch_replaces_sections (u : ProgressUpdate) (cache : Cache)
    (record : JsObj) :
  cache !! (userId u, courseId u) = Some record ->
  NoDup (obj_keys record) ->
  exists record',
    (optimistic_patch u cache).2 !! (userId u, courseId u) = Some record'
    /\ prop record' "sections" = prop (progressData u) "sections"
    /\ (forall k, k <> "sections" -> obj_get k record' = obj_get k record)
    /\ (forall key, key <> (userId u, courseId u) ->
                    (optimistic_patch u cache).2 !! key = cache !! key).
Proof.
  intros Hrec Hwf. unfold optimistic_patch, updateQueryData. rewrite Hrec.
  rewrite (progress_recipe_sets _ _ Hwf).
  destruct (diff_set_roundtrip "sections"
              (prop (progressData u) "sections") record Hwf) as [Hdo _].
  unfold patchQueryData. simpl. rewrite Hrec, Hdo.
  eexists. split; [apply lookup_insert_eq|]. split; [|split].
  - unfold prop. rewrite obj_get_set_eq. reflexivity.
  - intros k Hk. apply obj_get_set_ne. exact Hk.
  - intros key Hkey. apply lookup_insert_ne. congruence.
Qed.

(** * The theorems at the sample data *)

Lemma sample_uuid_nonempty : forall n, sample_uuid n <> "".
Proof. intros n. unfold sample_uuid. simpl. discriminate. Qed.

Example parseInt_25 : parseInt (JStr "25") = inr (Some 25).
Proof. reflexivity. Qed.

Example parseInt_prefix : parseInt (JStr "  12.99 USD") = inr (Some 12).
Proof. reflexivity. Qed.

Example parseInt_hex : parseInt (JStr "0x1F") = inr (Some 31).
Proof. reflexivity. Qed.

Example parseInt_negative : parseInt (JStr "-5") = inr (Some (-5)).
Proof. reflexivity. Qed.

Example parseInt_letters : parseInt (JStr "abc") = inr None.
Proof. reflexivity. Qed.

Example parseInt_empty : parseInt (JStr "") = inr None.
Proof. reflexivity. Qed.

Example parseInt_array : parseInt (JArr [JNum 7; JNum 8]) = inr (Some 7).
Proof. vm_compute. reflexivity. Qed.

Example parseInt_number : parseInt (JNum 25) = inr (Some 25).
Proof. vm_compute. reflexivity. Qed.

Example parseInt_object : parseInt (JObj [("amount", JNum 5)]) = inr None.
Proof. vm_compute. reflexivity. Qed.

(** An object with a [toString] property of its own cannot be converted,
    alone or inside an array. *)
Example parseInt_unconvertible :
  parseInt (JObj [("toString", JNum 1)]) = inl TypeError
  /\ parseInt (JArr [JNum 7; JObj [("toString", JNum 1)]]) = inl TypeError.
Proof. split; vm_compute; reflexivity. Qed.

(** An owner's price that cannot be converted is answered from the catch
    branch, and nothing changes. *)
Example unconvertible_price_is_caught :
  updateCourse sample_uuid sample_parse typed_model
    (put_c1 "T1" [("price", JObj [("toString", JNum 1)])]) one_course
  = (reply_error 500 "Error updating course" (ErrCaught TypeError), one_course).
Proof. vm_compute. reflexivity. Qed.

(** The sample sections after an update: the entries without identifiers
    got [id-0] and [id-1], the others kept theirs. *)
Example draft_sections_normalized :
  call_map (JArr draft_sections) (normalize_section sample_uuid) one_course
  = (Return
       (JArr
          [ JObj [ ("sectionTitle", JStr "Intro");
                   ("chapters",
                    JArr [ JObj [("title", JStr "Welcome");
                                 ("chapterId", JStr "id-1")];
                           JObj [("chapterId", JStr "ch-9");
                                 ("title", JStr "Setup")] ]);
                   ("sectionId", JStr "id-0") ];
            JObj [ ("sectionId", JStr "sec-7"); ("chapters", JArr []) ] ]),
     with_drawn 2 one_course).
Proof. vm_compute. reflexivity. Qed.

(** The relation between submitted and stored entries tells the call of
    each: a chapter cannot carry the identifier drawn for its section. *)
Example chapter_identifier_is_its_own :
  ~ section_stored sample_uuid 0 2
      (JObj [("chapters", JArr [JObj [("title", JStr "Welcome")]])])
      (JObj [("chapters", JArr [JObj [("title", JStr "Welcome");
                                      ("chapterId", JStr "id-0")]]);
             ("sectionId", JStr "id-0")]).
Proof.
  intros (o & chs & chs' & mid & Heq & Hid & Hc & Hc' & Hall & _).
  injection Heq as <-. unfold id_assigned in Hid. simpl in Hid, Hc, Hc'.
  destruct Hid as (_ & -> & _).
  injection Hc as <-. injection Hc' as <-.
  inversion Hall as [|lo mid hi x y l l' (o' & Ho & Hid' & _) _]; subst.
  injection Ho as <-. unfold id_assigned in Hid'. simpl in Hid'.
  destruct Hid' as (E & _). discriminate E.
Qed.

(** A sections list sent as a JSON text is decoded before it is
    normalized. *)
Example sections_as_text :
  (updateCourse sample_uuid sample_parse typed_model
     (put_c1 "T1" [("sections", JStr "[]"); ("title", JStr "Basics")]) one_course).1
  = reply_data "Course updated successfully"
      (JObj (obj_set "title" (JStr "Basics") alice_course)).
Proof. vm_compute. reflexivity. Qed.

(** C2 at the sample: [T2] may neither update nor delete the course of
    [T1]. *)
Lemma update_delete_forbidden_witness :
  updateCourse sample_uuid sample_parse typed_model
    (put_c1 "T2" [("price", JStr "10")]) one_course
  = (reply 403 "Not authorized to update this course ", one_course)
  /\ deleteCourse (put_c1 "T2" [("price", JStr "10")]) one_course
     = (reply 403 "Not authorized to delete this course ", one_course).
Proof.
  apply (update_delete_forbidden sample_uuid sample_parse typed_model
           (put_c1 "T2" [("price", JStr "10")]) one_course alice_course).
  - vm_compute. reflexivity.
  - simpl. discriminate.
Defined.

(** C8 at the samples: nothing to delete in the empty table; [T1] deletes
    the course and it cannot be fetched any more. *)
Lemma delete_course_removes_witness :
  deleteCourse (put_c1 "T1" []) no_course = (reply 404 "Course not found", no_course)
  /\ exists w',
       deleteCourse (put_c1 "T1" []) one_course
       = (reply_data "Course deleted successfully" (JObj alice_course), w')
       /\ courses w' !! "c1" = None
       /\ getCourse (put_c1 "T9" []) w' = (reply 404 "Course not found", w').
Proof.
  split.
  - apply (proj1 (delete_course_removes (put_c1 "T1" []) no_course)).
    vm_compute. reflexivity.
  - destruct (proj2 (delete_course_removes (put_c1 "T1" []) one_course)
                alice_course) as (Hrun & Hgone & Hget).
    + vm_compute. reflexivity.
    + vm_compute. reflexivity.
    + eexists. split; [exact Hrun|]. split; [exact Hgone|].
      apply Hget. reflexivity.
Defined.

(** C3, the claim as stated fails: an empty price string is not a number,
    yet the update is not answered with 400; a table that accepts every
    record stores the empty string as the price, a typed table makes the
    save throw. *)
Lemma price_empty_string_not_rejected :
  parseInt (JStr "") = inr None
  /\ (let '(r, w') :=
        updateCourse sample_uuid sample_parse accept_all
          (put_c1 "T1" [("price", JStr "")]) one_course in
      status r = 200
      /\ exists c', courses w' !! "c1" = Some c' /\ prop c' "price" = JStr "")
  /\ status (updateCourse sample_uuid sample_parse typed_model
               (put_c1 "T1" [("price", JStr "")]) one_course).1 = 500.
Proof.
  split; [reflexivity|]. split.
  - vm_compute. split; [reflexivity|]. eexists. split; reflexivity.
  - vm_compute. reflexivity.
Qed.

(** C3 as amended, at the sample: ["abc"] is refused with 400 and nothing
    changes; ["25"] is stored as 2500. *)
Lemma update_price_string_witness :
  updateCourse sample_uuid sample_parse typed_model
    (put_c1 "T1" [("price", JStr "abc")]) one_course
  = (reply_error 400 "Invalid price format" (ErrText "Price must be a valid number"),
     one_course)
  /\ exists merged,
       updateCourse sample_uuid sample_parse typed_model
         (put_c1 "T1" [("price", JStr "25")]) one_course
       = (reply_data "Course updated successfully" (JObj merged),
          with_courses (<["c1" := merged]> (courses one_course)) one_course)
       /\ prop merged "price" = JNum 2500.
Proof.
  split.
  - apply (proj1 (update_price_string sample_uuid sample_parse typed_model
                    (put_c1 "T1" [("price", JStr "abc")]) one_course alice_course
                    "abc" ltac:(vm_compute; reflexivity) ltac:(vm_compute; reflexivity)
                    ltac:(compute_done) ltac:(reflexivity) ltac:(discriminate))).
    reflexivity.
  - eexists. split.
    + apply (proj2 (proj2 (update_price_string sample_uuid sample_parse typed_model
                      (put_c1 "T1" [("price", JStr "25")]) one_course alice_course
                      "25" ltac:(vm_compute; reflexivity) ltac:(vm_compute; reflexivity)
                      ltac:(compute_done) ltac:(reflexivity) ltac:(discriminate)))
               25 "c1").
      * reflexivity.
      * unfold safe_integer, MAX_SAFE_INTEGER. lia.
      * reflexivity.
      * vm_compute. reflexivity.
      * vm_compute. reflexivity.
    + vm_compute. reflexivity.
Defined.

(** C4, the claim as stated fails: the owner submits the price ["-5"], the
    update succeeds and the stored price is -500; the number -5 fares the
    same; and in a table that accepts every record a price of [null], which
    is falsy and so not looked at, is stored as it is. *)
Lemma negative_price_is_stored :
  (let '(r, w') :=
     updateCourse sample_uuid sample_parse typed_model
       (put_c1 "T1" [("price", JStr "-5")]) one_course in
   status r = 200
   /\ exists c', courses w' !! "c1" = Some c'
                 /\ prop c' "price" = JNum (-500) /\ -500 < 0)
  /\ (let '(r, w') :=
        updateCourse sample_uuid sample_parse typed_model
          (put_c1 "T1" [("price", JNum (-5))]) one_course in
      status r = 200
      /\ exists c', courses w' !! "c1" = Some c'
                    /\ prop c' "price" = JNum (-500))
  /\ (let '(r, w') :=
        updateCourse sample_uuid sample_parse accept_all
          (put_c1 "T1" [("price", JNull)]) one_course in
      status r = 200
      /\ exists c', courses w' !! "c1" = Some c' /\ prop c' "price" = JNull).
Proof.
  split; [|split]; vm_compute; (split; [reflexivity|]); eexists;
    repeat split; reflexivity.
Qed.

(** C4 as amended, at the samples: the course created for Alice has price
    0, and the prices ["25"] and 25 are both stored as the non-negative
    2500. *)
Lemma stored_price_nonnegative_witness :
  (exists c', prop c' "price" = JNum 0
     /\ stored_in
          (createCourse sample_uuid typed_model
             (mkRequest "" [("teacherId", JStr "T1"); ("teacherName", JStr "Alice")]
                (Some "T1")) no_course).2 c')
  /\ (exists c', prop c' "price" = JNum 2500 /\ 0 <= 2500
        /\ stored_in
             (updateCourse sample_uuid sample_parse typed_model
                (put_c1 "T1" [("price", JStr "25")]) one_course).2 c')
  /\ (exists c', prop c' "price" = JNum 2500 /\ 0 <= 2500
        /\ stored_in
             (updateCourse sample_uuid sample_parse typed_model
                (put_c1 "T1" [("price", JNum 25)]) one_course).2 c').
Proof.
  split; [|split].
  - pose (req := mkRequest "" [("teacherId", JStr "T1"); ("teacherName", JStr "Alice")]
                   (Some "T1")).
    pose (out := createCourse sample_uuid typed_model req no_course).
    destruct (proj1 (stored_price_nonnegative sample_uuid sample_parse typed_model
                       req no_course out.1 out.2))
      as (c' & _ & Hstored & Hprice).
    + vm_compute. reflexivity.
    + vm_compute. reflexivity.
    + exists c'. split; [exact Hprice|exact Hstored].
  - pose (req := put_c1 "T1" [("price", JStr "25")]).
    pose (out := updateCourse sample_uuid sample_parse typed_model req one_course).
    destruct (proj2 (stored_price_nonnegative sample_uuid sample_parse typed_model
                       req one_course out.1 out.2) alice_course)
      as (c' & _ & Hstored & _ & Hprice).
    + vm_compute. reflexivity.
    + vm_compute. reflexivity.
    + compute_done.
    + vm_compute. reflexivity.
    + vm_compute. reflexivity.
    + destruct (Hprice 25) as (Hp & Hpos).
      * vm_compute. reflexivity.
      * lia.
      * unfold safe_integer, MAX_SAFE_INTEGER. lia.
      * exists c'. split; [exact Hp|]. split; [exact Hpos|exact Hstored].
  - pose (req := put_c1 "T1" [("price", JNum 25)]).
    pose (out := updateCourse sample_uuid sample_parse typed_model req one_course).
    destruct (proj2 (stored_price_nonnegative sample_uuid sample_parse typed_model
                       req one_course out.1 out.2) alice_course)
      as (c' & _ & Hstored & _ & Hprice).
    + vm_compute. reflexivity.
    + vm_compute. reflexivity.
    + compute_done.
    + vm_compute. reflexivity.
    + vm_compute. reflexivity.
    + destruct (Hprice 25) as (Hp & Hpos).
      * vm_compute. reflexivity.
      * lia.
      * unfold safe_integer, MAX_SAFE_INTEGER. lia.
      * exists c'. split; [exact Hp|]. split; [exact Hpos|exact Hstored].
Defined.

(** C5, the claim as stated fails: the owner submits a patch that names
    [teacherId] and [teacherName]; the update succeeds and both stored
    fields are overwritten. *)
Lemma identity_fields_are_overwritten :
  let '(r, w') :=
    updateCourse sample_uuid sample_parse typed_model
      (put_c1 "T1" [("teacherId", JStr "T2"); ("teacherName", JStr "Bob")])
      one_course in
  status r = 200
  /\ prop alice_course "teacherId" = JStr "T1"
  /\ prop alice_course "teacherName" = JStr "Alice"
  /\ exists c', courses w' !! "c1" = Some c'
                /\ prop c' "teacherId" = JStr "T2"
                /\ prop c' "teacherName" = JStr "Bob".
Proof.
  vm_compute. repeat split. eexists. repeat split; reflexivity.
Qed.

(** C5 as amended, at the sample: a patch of the title leaves the three
    identity fields of the stored course as they were. *)
Lemma update_keeps_identity_witness :
  exists c',
    courses (updateCourse sample_uuid sample_parse typed_model
               (put_c1 "T1" [("title", JStr "Rocq for beginners")]) one_course).2
      !! "c1" = Some c'
    /\ prop c' "courseId" = JStr "c1"
    /\ prop c' "teacherId" = JStr "T1"
    /\ prop c' "teacherName" = JStr "Alice".
Proof.
  pose (req := put_c1 "T1" [("title", JStr "Rocq for beginners")]).
  pose (out := updateCourse sample_uuid sample_parse typed_model req one_course).
  destruct (update_keeps_identity sample_uuid sample_parse typed_model
              req one_course alice_course out.1 out.2)
    as (c' & _ & _ & H1 & H2 & H3 & Hkey);
    try (vm_compute; reflexivity).
  exists c'. split; [apply Hkey; reflexivity|]. repeat split; assumption.
Defined.

(** C1 at the sample: the two-section draft, submitted as a structured
    value. *)
Lemma update_sections_identifiers_witness :
  exists sections' n' merged,
    (drawn one_course <= n')%nat
    /\ stored_in_turn (section_stored sample_uuid) (drawn one_course) n'
         draft_sections sections'
    /\ prop merged "sections" = JArr sections'
    /\ updateCourse sample_uuid sample_parse accept_all
         (put_c1 "T1" [("sections", JArr draft_sections)]) one_course
       = (reply_data "Course updated successfully" (JObj merged),
          with_courses (<["c1" := merged]> (courses one_course))
            (with_drawn n' one_course))
    /\ (forall w2,
          call_map (JArr sections') (normalize_section sample_uuid) w2
          = (Return (JArr sections'), w2)).
Proof.
  destruct (update_sections_identifiers sample_uuid sample_parse accept_all
              (put_c1 "T1" [("sections", JArr draft_sections)])
              one_course alice_course draft_sections)
    as (sections' & n' & merged & Hle & Hall & Hsec & Hkeep & Hrun & Hfix).
  - exact sample_uuid_nonempty.
  - vm_compute. reflexivity.
  - vm_compute. reflexivity.
  - compute_done.
  - unfold price_accepted. simpl. discriminate.
  - left. reflexivity.
  - reflexivity.
  - exists sections', n', merged.
    split; [exact Hle|]. split; [exact Hall|]. split; [exact Hsec|].
    split; [|exact Hfix].
    apply Hrun; [|reflexivity].
    rewrite (Hkeep "courseId"); reflexivity.
Defined.

(** C10 at the sample: the second section has no [chapters]. *)
Lemma update_sections_without_chapters_witness :
  exists r w',
    updateCourse sample_uuid sample_parse typed_model
      (put_c1 "T1" [("sections", JArr broken_sections)]) one_course = (r, w')
    /\ r = reply_error 500 "Error updating course" (ErrCaught TypeError)
    /\ status r <> 400
    /\ courses w' = courses one_course.
Proof.
  apply (update_sections_without_chapters sample_uuid sample_parse typed_model
           (put_c1 "T1" [("sections", JArr broken_sections)])
           one_course alice_course broken_sections).
  - vm_compute. reflexivity.
  - vm_compute. reflexivity.
  - unfold price_accepted. simpl. discriminate.
  - left. reflexivity.
  - apply Exists_cons_tl, Exists_cons_hd. reflexivity.
Defined.

(** C9 at the sample: no file name gives 400; [intro.mp4] gets the key
    [videos/id-0/intro.mp4] and the delivery URL of that key. *)
Lemma upload_url_key_witness :
  getUploadVideoUrl sample_uuid (Some "lms-videos") (Some "https://cdn.example")
    sample_signer (mkRequest "c1" [("fileType", JStr "video/mp4")] (Some "T1"))
    one_course
  = (reply 400 "File name and type are required", one_course)
  /\ getUploadVideoUrl sample_uuid (Some "lms-videos") (Some "https://cdn.example")
       sample_signer upload_request one_course
     = (reply_data "Upload URL generated successfully"
          (JObj [("uploadUrl", JStr "https://bucket.example/videos/id-0/intro.mp4");
                 ("videoUrl", JStr "https://cdn.example/videos/id-0/intro.mp4")]),
        with_s3_call
          ("putObject",
           mkS3Params "lms-videos" "videos/id-0/intro.mp4" 60 (JStr "video/mp4"))
          (with_drawn 1 one_course)).
Proof.
  split.
  - apply (proj1 (upload_url_key sample_uuid (Some "lms-videos")
                    (Some "https://cdn.example") sample_signer
                    (mkRequest "c1" [("fileType", JStr "video/mp4")] (Some "T1"))
                    one_course)).
    left. reflexivity.
  - apply (proj2 (upload_url_key sample_uuid (Some "lms-videos")
                    (Some "https://cdn.example") sample_signer
                    upload_request one_course)
             "intro.mp4" "lms-videos" "https://cdn.example"
             "https://bucket.example/videos/id-0/intro.mp4");
      try reflexivity.
    discriminate.
Defined.

(** C6 at the sample: the rejected update of [u1]'s progress leaves the
    cache as it was. *)
Lemma rejected_update_restores_cache_witness :
  onQueryStarted sample_update Rejected sample_cache = sample_cache.
Proof.
  apply (rejected_update_restores_cache sample_update sample_cache).
  intros record Hrecord. vm_compute in Hrecord. injection Hrecord as <-.
  compute_done.
Defined.

(** C7, the claim as stated fails: the cache holds the progress of the
    sections [s1] and [s2], the update submits [s1] only, and after the
    optimistic patch the cached record holds the submitted list: the record
    of [s2], which the submitted data does not name, is gone. *)
Lemma unnamed_section_progress_is_dropped :
  prop cached_progress "sections"
  = JArr [section_progress "s1" false; section_progress "s2" true]
  /\ prop (progressData sample_update) "sections"
     = JArr [section_progress "s1" true]
  /\ exists record',
       (optimistic_patch sample_update sample_cache).2 !! ("u1", "c1") = Some record'
       /\ prop record' "sections" = JArr [section_progress "s1" true].
Proof.
  split; [reflexivity|]. split; [reflexivity|].
  eexists. split; vm_compute; reflexivity.
Qed.

(** C7 as amended, at the sample. *)
Lemma optimistic_patch_replaces_sections_witness :
  exists record',
    (optimistic_patch sample_update sample_cache).2 !! ("u1", "c1") = Some record'
    /\ prop record' "sections" = JArr [section_progress "s1" true]
    /\ prop record' "overallProgress" = JNum 0.
Proof.
  destruct (optimistic_patch_replaces_sections sample_update sample_cache
              cached_progress) as (record' & Hget & Hsec & Hother & _).
  - vm_compute. reflexivity.
  - compute_done.
  - exists record'. split; [exact Hget|]. split; [exact Hsec|].
    unfold prop. rewrite Hother by discriminate. reflexivity.
Defined.

(** * More of the course service *)

Section CourseServiceMore.

Variable uuidv4 : nat -> string.
Variable JSON_parse : string -> option JsVal.
Variable schema_ok : JsObj -> bool.

Local Abbreviation updateCourse' := (updateCourse uuidv4 JSON_parse schema_ok).
Local Abbreviation createCourse' := (createCourse uuidv4 schema_ok).
Local Abbreviation normalize_sections' := (normalize_sections uuidv4 JSON_parse).

Lemma updateCourse_run req w :
  UpdateRun schema_ok req w (updateCourse' req w).1 (updateCourse' req w).2.
Proof.
  destruct (courses w !! params_courseId req) as [c|] eqn:Hc.
  2:{ unfold updateCourse, try_catch, bind, Course_get. simpl. rewrite Hc.
      simpl. apply run_not_found. exact Hc. }
  destruct (strict_eq (prop c "teacherId") (userId_of req)) eqn:Hown.
  2:{ unfold updateCourse, try_catch, bind, Course_get. simpl. rewrite Hc, Hown.
      simpl. eapply run_forbidden; eassumption. }
  destruct (normalize_price (body req)) as [e|[res|ud]] eqn:Hprice.
  { rewrite (updateCourse_price_throws uuidv4 JSON_parse schema_ok req w c e
               Hc Hown Hprice).
    simpl. rewrite <- (with_drawn_same w) at 2.
    eapply run_thrown; [exact Hc|exact Hown|].
    intros Ht Hp. unfold normalize_price in Hprice. rewrite Ht, Hp in Hprice.
    discriminate. }
  { unfold updateCourse, try_catch, bind, Course_get. simpl.
    rewrite Hc, Hown, Hprice. simpl.
    unfold normalize_price in Hprice.
    destruct (truthy (prop (body req) "price")) eqn:Ht; [|discriminate].
    destruct (parseInt (prop (body req) "price")) as [e|[n|]] eqn:Hp;
      try discriminate.
    injection Hprice as <-. eapply run_invalid_price; eassumption. }
  assert (Hacc : truthy (prop (body req) "price") = true ->
                 parseInt (prop (body req) "price") <> inr None).
  { intros Ht Hp. unfold normalize_price in Hprice. rewrite Ht, Hp in Hprice.
    discriminate. }
  rewrite (updateCourse_owner uuidv4 JSON_parse schema_ok req w c ud Hc Hown Hprice).
  destruct (normalize_sections_frame uuidv4 JSON_parse ud w)
    as (out & n' & Hsec & Hframe).
  rewrite Hsec. destruct out as [ud'|e].
  2:{ simpl. eapply run_thrown; eassumption. }
  destruct (Hframe ud' eq_refl) as [Hother _].
  unfold Course_save.
  destruct (prop (Object_assign c ud') "courseId") as [| | | |k| |] eqn:Hk;
    try (simpl; eapply run_thrown; eassumption).
  destruct (schema_ok (Object_assign c ud')) eqn:Hok;
    [|simpl; eapply run_thrown; eassumption].
  simpl. eapply (run_saved _ _ _ c ud' n' k); try eassumption.
  intros f Hf Hne. rewrite (Hother f Hne).
  exact (normalize_price_absent _ _ _ Hprice Hf).
Qed.

(** X1: the status of an update tells what happened: 404 exactly when the
    course is not in the table, 403 exactly when it is there and its
    [teacherId] is not the caller, 400 exactly when the owner's patch has a
    truthy price that ToString converts and from which [parseInt] reads no
    number; every other update is answered with 200 or 500, and an owner's
    truthy price that ToString cannot convert is answered from the catch
    branch with 500 and the TypeError, before anything is drawn or
    written. *)
Theorem update_status_cases (req : Request) (w : World) :
  let r := (updateCourse' req w).1 in
  (status r = 404 <-> courses w !! params_courseId req = None)
  /\ (status r = 403 <->
      exists c, courses w !! params_courseId req = Some c
                /\ strict_eq (prop c "teacherId") (userId_of req) = false)
  /\ (status r = 400 <->
      exists c, courses w !! params_courseId req = Some c
                /\ strict_eq (prop c "teacherId") (userId_of req) = true
                /\ truthy (prop (body req) "price") = true
                /\ parseInt (prop (body req) "price") = inr None)
  /\ (status r = 200 \/ status r = 400 \/ status r = 403
      \/ status r = 404 \/ status r = 500)
  /\ (forall c e,
        courses w !! params_courseId req = Some c ->
        strict_eq (prop c "teacherId") (userId_of req) = true ->
        truthy (prop (body req) "price") = true ->
        parseInt (prop (body req) "price") = inl e ->
        updateCourse' req w
        = (reply_error 500 "Error updating course" (ErrCaught TypeError), w)).
Proof.
  intros r. subst r.
  assert (Hthrown : forall c e,
            courses w !! params_courseId req = Some c ->
            strict_eq (prop c "teacherId") (userId_of req) = true ->
            truthy (prop (body req) "price") = true ->
            parseInt (prop (body req) "price") = inl e ->
            updateCourse' req w
            = (reply_error 500 "Error updating course" (ErrCaught TypeError), w)).
  { intros c e Hc Hown Ht Hp.
    apply (updateCourse_price_throws uuidv4 JSON_parse schema_ok req w c TypeError
             Hc Hown).
    unfold normalize_price. rewrite Ht, Hp. f_equal.
    exact (parseInt_throws _ _ Hp). }
  match goal with
  | |- ?A /\ ?B /\ ?C /\ ?D /\ _ =>
      cut (A /\ B /\ C /\ D);
      [intros (H1 & H2 & H3 & H4);
       exact (conj H1 (conj H2 (conj H3 (conj H4 Hthrown))))|]
  end.
  clear Hthrown.
  destruct (updateCourse_run req w)
    as [Hc|c Hc Hown|c Hc Hown Ht Hp|c e n' Hc Hown Hacc
        |c ud n' k Hc Hown Hacc Hud Hk Hok];
    simpl; (split; [|split; [|split]]);
    try (split; [discriminate|intros (c' & Hc' & Hown' & Hrest); exfalso]);
    try (split; [discriminate|intros Hc'; exfalso]);
    try (split; [intros _|reflexivity]);
    try congruence; try tauto; eauto 6;
    try (destruct Hc' as (c' & Hc' & Hrest); congruence);
    exact (Hacc (proj1 Hrest) (proj2 Hrest)).
Qed.

Lemma updateCourse_early req w :
  match courses w !! params_courseId req with
  | None => updateCourse' req w = (reply 404 "Course not found", w)
  | Some c =>
      strict_eq (prop c "teacherId") (userId_of req) = false ->
      updateCourse' req w = (reply 403 "Not authorized to update this course ", w)
  end.
Proof.
  unfold updateCourse, try_catch, bind, Course_get. simpl.
  destruct (courses w !! params_courseId req) as [c|]; [|reflexivity].
  intros ->. reflexivity.
Qed.

Lemma createCourse_run req w :
  createCourse' req w =
  if negb (truthy (prop (body req) "teacherId"))
     || negb (truthy (prop (body req) "teacherName"))
  then (reply 400 "Teacher Id and name are required", w)
  else
    let c := new_course (JStr (uuidv4 (drawn w)))
               (prop (body req) "teacherId") (prop (body req) "teacherName") in
    if schema_ok c
    then (reply_data "Course created successfully" (JObj c),
          with_courses (<[uuidv4 (drawn w) := c]> (courses w))
            (with_drawn (S (drawn w)) w))
    else (reply_error 500 "Error creating course" (ErrCaught SaveError),
          with_drawn (S (drawn w)) w).
Proof.
  unfold createCourse, try_catch, bind.
  destruct (negb (truthy (prop (body req) "teacherId"))
            || negb (truthy (prop (body req) "teacherName"))); [reflexivity|].
  unfold uuid at 1. unfold Course_save, new_course. simpl.
  destruct (schema_ok _); reflexivity.
Qed.

Lemma deleteCourse_run req w :
  deleteCourse req w =
  match courses w !! params_courseId req with
  | None => (reply 404 "Course not found", w)
  | Some c =>
      if strict_eq (prop c "teacherId") (userId_of req)
      then (reply_data "Course deleted successfully" (JObj c),
            with_courses (delete (params_courseId req) (courses w)) w)
      else (reply 403 "Not authorized to delete this course ", w)
  end.
Proof.
  unfold deleteCourse, try_catch, bind, Course_get, Course_delete.
  destruct (courses w !! params_courseId req) as [c|]; [|reflexivity].
  destruct (strict_eq (prop c "teacherId") (userId_of req)); reflexivity.
Qed.

(** X2: a create, update or delete that is answered with anything but 200
    leaves the course table exactly as it was. *)
Theorem failed_call_keeps_table (req : Request) (w : World) :
  (status (createCourse' req w).1 <> 200 ->
   courses (createCourse' req w).2 = courses w)
  /\ (status (updateCourse' req w).1 <> 200 ->
      courses (updateCourse' req w).2 = courses w)
  /\ (status (deleteCourse req w).1 <> 200 ->
      courses (deleteCourse req w).2 = courses w).
Proof.
  split; [|split].
  - rewrite createCourse_run.
    destruct (negb _ || negb _); [reflexivity|].
    simpl. destruct (schema_ok _); [|reflexivity].
    simpl. intros Hne. destruct (Hne eq_refl).
  - destruct (updateCourse_run req w); simpl; try reflexivity.
    intros Hne. destruct (Hne eq_refl).
  - rewrite deleteCourse_run.
    destruct (courses w !! params_courseId req) as [c|]; [|reflexivity].
    destruct (strict_eq _ _); [|reflexivity].
    simpl. intros Hne. destruct (Hne eq_refl).
Qed.

(** X3: if every record of the table is stored under its own [courseId],
    this is still so after a create, an update or a delete, whatever the
    request. *)
Theorem handlers_keep_table_keyed (req : Request) (w : World) :
  table_wf w ->
  table_wf (createCourse' req w).2
  /\ table_wf (updateCourse' req w).2
  /\ table_wf (deleteCourse req w).2.
Proof.
  intros Hwf.
  assert (Hins : forall k c n, prop c "courseId" = JStr k ->
            table_wf (with_courses (<[k := c]> (courses w)) (with_drawn n w))).
  { intros k c n Hk k' c'. simpl. rewrite lookup_insert.
    case_decide as E; [|apply Hwf].
    subst k'. intros [= <-]. exact Hk. }
  split; [|split].
  - rewrite createCourse_run.
    destruct (negb _ || negb _); [exact Hwf|].
    simpl. destruct (schema_ok _); [|exact Hwf].
    apply Hins. reflexivity.
  - destruct (updateCourse_run req w); simpl; try exact Hwf.
    apply Hins. assumption.
  - rewrite deleteCourse_run.
    destruct (courses w !! params_courseId req) as [c|]; [|exact Hwf].
    destruct (strict_eq _ _); [|exact Hwf].
    intros k' c'. simpl. rewrite lookup_delete.
    case_decide; [discriminate|apply Hwf].
Qed.

(** A successful update of a well-keyed table whose patch does not name
    [courseId] writes the merged record under the key it was read from. *)
Lemma update_saved_at_key req w :
  table_wf w ->
  obj_get "courseId" (body req) = None ->
  status (updateCourse' req w).1 = 200 ->
  exists merged n',
    (updateCourse' req w).1 = reply_data "Course updated successfully" (JObj merged)
    /\ (updateCourse' req w).2 =
       with_courses (<[params_courseId req := merged]> (courses w)) (with_drawn n' w).
Proof.
  intros Hwf Hid Hst.
  destruct (updateCourse_run req w)
    as [Hc|c Hc Hown|c Hc Hown Ht Hp|c e n' Hc Hown Hacc
        |c ud n' k Hc Hown Hacc Hud Hk Hok]; try discriminate.
  exists (Object_assign c ud), n'. split; [reflexivity|].
  assert (Hkey : JStr k = JStr (params_courseId req)).
  { rewrite <- Hk, <- (Hwf _ _ Hc). unfold prop. f_equal.
    apply obj_get_assign_other. apply Hud; [exact Hid|discriminate]. }
  injection Hkey as ->. reflexivity.
Qed.

(** X4: after a successful update of a well-keyed table whose patch does
    not name [courseId], a get of the same id returns exactly the record
    the update answered with. *)
Theorem update_then_get (req : Request) (w : World) :
  table_wf w ->
  obj_get "courseId" (body req) = None ->
  status (updateCourse' req w).1 = 200 ->
  exists d,
    data (updateCourse' req w).1 = Some d
    /\ getCourse req (updateCourse' req w).2
       = (reply_data "Course retrieved successfully" d, (updateCourse' req w).2).
Proof.
  intros Hwf Hid Hst.
  destruct (update_saved_at_key req w Hwf Hid Hst) as (merged & n' & -> & ->).
  exists (JObj merged). split; [reflexivity|].
  unfold getCourse, try_catch, bind, Course_get. simpl.
  rewrite lookup_insert_eq. reflexivity.
Qed.


Lemma Object_assign_idem o src :
  NoDup (obj_keys src) ->
  Object_assign (Object_assign o src) src = Object_assign o src.
Proof.
  intros Hwf. apply Object_assign_noop. intros k v Hin.
  apply obj_get_assign; [exact Hwf|]. apply obj_get_elem; assumption.
Qed.

(** X6: repeating a successful update is harmless: for a well-keyed table
    and a patch that names neither [courseId] nor [teacherId] and carries
    no sections, the same request sent again gets the same answer and
    leaves the world as the first call left it. *)
Theorem update_twice (req : Request) (w : World) :
  table_wf w ->
  NoDup (obj_keys (body req)) ->
  obj_get "courseId" (body req) = None ->
  obj_get "teacherId" (body req) = None ->
  truthy (prop (body req) "sections") = false ->
  status (updateCourse' req w).1 = 200 ->
  updateCourse' req (updateCourse' req w).2 = updateCourse' req w.
Proof.
  intros Hwf Hnd Hid Htid Hsec Hst.
  destruct (updateCourse' req w) as [r w'] eqn:Hrun. simpl in Hst.
  destruct (courses w !! params_courseId req) as [c|] eqn:Hc.
  2:{ exfalso. revert Hrun. unfold updateCourse, try_catch, bind, Course_get.
      simpl. rewrite Hc. simpl. intros [= <- <-]. discriminate. }
  destruct (strict_eq (prop c "teacherId") (userId_of req)) eqn:Hown.
  2:{ exfalso. revert Hrun. unfold updateCourse, try_catch, bind, Course_get.
      simpl. rewrite Hc, Hown. simpl. intros [= <- <-]. discriminate. }
  destruct (updateCourse_success uuidv4 JSON_parse schema_ok req w c r w'
              Hc Hown Hrun Hst)
    as (ud & ud' & n' & k & Hprice & Hnorm & Hk & Hok & -> & ->).
  destruct (normalize_price_frame _ _ Hprice) as [Hother Hnd'].
  assert (Hfalsy : truthy (prop ud "sections") = false).
  { unfold prop. rewrite Hother by discriminate. exact Hsec. }
  assert (Hskip : forall w0, normalize_sections' ud w0 = (Return ud, w0)).
  { intros w0. unfold normalize_sections. rewrite Hfalsy. reflexivity. }
  rewrite Hskip in Hnorm. injection Hnorm as <- Hw.
  assert (Hn : n' = drawn w) by (rewrite Hw; reflexivity).
  subst n'. rewrite with_drawn_same in *.
  set (merged := Object_assign c ud) in *.
  assert (Hkey : k = params_courseId req).
  { assert (E : JStr k = JStr (params_courseId req)); [|congruence].
    rewrite <- Hk, <- (Hwf _ _ Hc). unfold merged, prop. f_equal.
    apply obj_get_assign_other.
    exact (normalize_price_absent _ _ _ Hprice Hid). }
  subst k.
  assert (Hown' : strict_eq (prop merged "teacherId") (userId_of req) = true).
  { replace (prop merged "teacherId") with (prop c "teacherId"); [exact Hown|].
    unfold merged, prop. f_equal. symmetry.
    apply obj_get_assign_other.
    exact (normalize_price_absent _ _ _ Hprice Htid). }
  rewrite (updateCourse_owner uuidv4 JSON_parse schema_ok req _ merged ud).
  - assert (Hidem : Object_assign merged ud = merged)
      by exact (Object_assign_idem c ud (Hnd' Hnd)).
    rewrite Hskip, Hidem.
    unfold Course_save. rewrite Hk, Hok. unfold with_courses. simpl.
    rewrite insert_insert_eq. reflexivity.
  - simpl. apply lookup_insert_eq.
  - exact Hown'.
  - exact Hprice.
Qed.

(** X7: a create is answered with 400 exactly when [teacherId] or
    [teacherName] is falsy, and then no identifier is drawn and nothing is
    written; with 200 exactly when both are truthy and the table accepts
    the new record; with 500 exactly when both are truthy and it does
    not. *)
Theorem create_status_cases (req : Request) (w : World) :
  let teacherId := prop (body req) "teacherId" in
  let teacherName := prop (body req) "teacherName" in
  let c := new_course (JStr (uuidv4 (drawn w))) teacherId teacherName in
  let r := (createCourse' req w).1 in
  (status r = 400 <-> truthy teacherId = false \/ truthy teacherName = false)
  /\ (status r = 400 -> (createCourse' req w).2 = w)
  /\ (status r = 200 <->
      truthy teacherId = true /\ truthy teacherName = true /\ schema_ok c = true)
  /\ (status r = 500 <->
      truthy teacherId = true /\ truthy teacherName = true /\ schema_ok c = false).
Proof.
  intros teacherId teacherName c r. subst r. rewrite createCourse_run.
  fold teacherId teacherName. fold c.
  destruct (truthy teacherId), (truthy teacherName); simpl;
    try (repeat split; try discriminate; try reflexivity; intuition discriminate).
  destruct (schema_ok c); simpl;
    repeat split; try discriminate; try reflexivity; intuition discriminate.
Qed.

(** X8: a successful create answers with the record of defaults (title
    "Untitled Course", category "Uncategorized", price 0, level "Beginner",
    status "Draft", no sections, no enrollments) under the identifier just
    drawn; a get of that identifier returns the same record, and every
    other key of the table is as before. *)
Theorem create_then_get (req : Request) (w : World) :
  status (createCourse' req w).1 = 200 ->
  let id := uuidv4 (drawn w) in
  let c := new_course (JStr id) (prop (body req) "teacherId")
             (prop (body req) "teacherName") in
  let w' := (createCourse' req w).2 in
  (createCourse' req w).1 = reply_data "Course created successfully" (JObj c)
  /\ (forall req', params_courseId req' = id ->
        getCourse req' w' = (reply_data "Course retrieved successfully" (JObj c), w'))
  /\ (forall k, k <> id -> courses w' !! k = courses w !! k).
Proof.
  intros Hst id c w'. subst w'. revert Hst. rewrite createCourse_run.
  fold id. fold c.
  destruct (negb _ || negb _); [discriminate|]. simpl.
  destruct (schema_ok c); [|discriminate]. simpl. intros _.
  split; [reflexivity|]. split.
  - intros req' Hid. unfold getCourse, try_catch, bind, Course_get. simpl.
    rewrite Hid, lookup_insert_eq. reflexivity.
  - intros k Hk. apply lookup_insert_ne. congruence.
Qed.

(** X9: after a successful create, the caller whose identity is the
    submitted [teacherId] passes the ownership check of an update of the
    new course, and every caller whose identity differs from it is
    answered with 403 by update and delete; in particular nobody can
    update or delete a course created with a [teacherId] that is not a
    string. *)
Theorem created_course_owner (req req2 : Request) (w : World) :
  status (createCourse' req w).1 = 200 ->
  params_courseId req2 = uuidv4 (drawn w) ->
  let w' := (createCourse' req w).2 in
  (userId_of req2 = prop (body req) "teacherId" ->
   status (updateCourse' req2 w').1 <> 403
   /\ status (updateCourse' req2 w').1 <> 404)
  /\ (prop (body req) "teacherId" <> userId_of req2 ->
      updateCourse' req2 w' = (reply 403 "Not authorized to update this course ", w')
      /\ deleteCourse req2 w' = (reply 403 "Not authorized to delete this course ", w'))
  /\ ((forall s, prop (body req) "teacherId" <> JStr s) ->
      status (updateCourse' req2 w').1 = 403
      /\ status (deleteCourse req2 w').1 = 403).
Proof.
  intros Hst Hid w'. subst w'. revert Hst. rewrite createCourse_run.
  destruct (negb (truthy (prop (body req) "teacherId")) || _) eqn:Hmissing;
    [discriminate|]. simpl.
  destruct (schema_ok _); [|discriminate]. simpl. intros _.
  set (c := new_course _ _ _).
  set (w' := with_courses _ _).
  assert (Hc : courses w' !! params_courseId req2 = Some c).
  { rewrite Hid. apply lookup_insert_eq. }
  assert (Htid : prop c "teacherId" = prop (body req) "teacherId") by reflexivity.
  assert (Hdiff : prop (body req) "teacherId" <> userId_of req2 ->
            updateCourse' req2 w' = (reply 403 "Not authorized to update this course ", w')
            /\ deleteCourse req2 w' = (reply 403 "Not authorized to delete this course ", w')).
  { intros Hne. rewrite <- Htid in Hne. apply strict_eq_differs in Hne.
    split.
    - pose proof (updateCourse_early req2 w') as Hrun.
      rewrite Hc in Hrun. exact (Hrun Hne).
    - rewrite deleteCourse_run, Hc, Hne. reflexivity. }
  split; [|split].
  - intros Hsame.
    assert (Hown : strict_eq (prop c "teacherId") (userId_of req2) = true).
    { rewrite Htid, <- Hsame. unfold userId_of.
      destruct (auth_userId req2); simpl; [apply String.eqb_refl|reflexivity]. }
    destruct (updateCourse_run req2 w')
      as [Hc0|c0 Hc0 Hown0|c0 Hc0 Hown0 Ht0 Hp0|c0 e0 n0 Hc0 Hown0 Hacc0
          |c0 ud0 n0 k0 Hc0 Hown0 Hacc0 Hud0 Hk0 Hok0];
      simpl; first [split; discriminate|congruence].
  - exact Hdiff.
  - intros Hns.
    destruct Hdiff as [-> ->]; [|split; reflexivity].
    unfold userId_of. destruct (auth_userId req2) as [u|].
    + apply Hns.
    + intros Hnull. apply orb_false_elim in Hmissing as [Ht _].
      rewrite Hnull in Ht. discriminate.
Qed.

(** X10: after a successful delete, every later update or delete of the
    same id is answered with 404, and every other key of the table is as
    before. *)
Theorem delete_then_gone (req : Request) (w : World) :
  status (deleteCourse req w).1 = 200 ->
  let w' := (deleteCourse req w).2 in
  (forall req2, params_courseId req2 = params_courseId req ->
     deleteCourse req2 w' = (reply 404 "Course not found", w')
     /\ updateCourse' req2 w' = (reply 404 "Course not found", w'))
  /\ (forall k, k <> params_courseId req -> courses w' !! k = courses w !! k).
Proof.
  intros Hst w'. subst w'. revert Hst. rewrite deleteCourse_run.
  destruct (courses w !! params_courseId req) as [c|]; [|discriminate].
  destruct (strict_eq _ _); [|discriminate]. simpl. intros _. split.
  - intros req2 Hid. split.
    + rewrite deleteCourse_run. simpl. rewrite Hid, lookup_delete_eq. reflexivity.
    + match goal with |- updateCourse' req2 ?w0 = _ =>
        pose proof (updateCourse_early req2 w0) as Hrun end.
      simpl in Hrun. rewrite Hid, lookup_delete_eq in Hrun. exact Hrun.
  - intros k Hk. apply lookup_delete_ne. congruence.
Qed.

End CourseServiceMore.

Lemma scanned_records (w : World) (c : JsObj) :
  In c (map snd (map_to_list (courses w))) <-> exists k, courses w !! k = Some c.
Proof.
  rewrite in_map_iff. split.
  - intros ([k c'] & Hc & Hin). simpl in Hc. subst c'. exists k.
    apply elem_of_map_to_list. apply list_elem_of_In. exact Hin.
  - intros (k & Hk). exists (k, c). split; [reflexivity|].
    apply list_elem_of_In. apply elem_of_map_to_list. exact Hk.
Qed.

(** X11: without a category, with the category ["all"] and with an empty
    category, the list is answered with 200 and holds every record of the
    table, each stored key once, and nothing else; the world is
    unchanged. *)
Theorem list_all_courses (q : option string) (w : World) :
  q = None \/ q = Some "all" \/ q = Some "" ->
  exists l,
    listCourses q w
    = (reply_data "Courses retrieved successfully" (JArr (map JObj l)), w)
    /\ (forall c, In c l <-> exists k, courses w !! k = Some c)
    /\ length l = size (courses w).
Proof.
  intros Hq. exists (map snd (map_to_list (courses w))). split; [|split].
  - destruct Hq as [-> | [-> | ->]]; reflexivity.
  - apply scanned_records.
  - rewrite length_map. apply length_map_to_list.
Qed.

(** X12: with any other category the list is answered with 200 and holds
    exactly the records of the table whose [category] is that string; the
    world is unchanged. *)
Theorem list_courses_of_category (s : string) (w : World) :
  s <> "" -> s <> "all" ->
  exists l,
    listCourses (Some s) w
    = (reply_data "Courses retrieved successfully" (JArr (map JObj l)), w)
    /\ forall c, In c l <->
                 (exists k, courses w !! k = Some c) /\ prop c "category" = JStr s.
Proof.
  intros Hne Hall.
  exists (List.filter (fun c => strict_eq (prop c "category") (JStr s))
            (map snd (map_to_list (courses w)))).
  split.
  - unfold listCourses, try_catch, bind, Course_scan. simpl.
    destruct (String.eqb s "") eqn:E1; [apply String.eqb_eq in E1; contradiction|].
    destruct (String.eqb s "all") eqn:E2; [apply String.eqb_eq in E2; contradiction|].
    reflexivity.
  - intros c. rewrite filter_In, scanned_records. split.
    + intros [Hin Heq]. split; [exact Hin|]. apply strict_eq_true. exact Heq.
    + intros [Hin Heq]. split; [exact Hin|]. rewrite Heq. simpl.
      apply String.eqb_refl.
Qed.

(** * More of the upload-URL service *)

Section UploadMore.

Variable uuidv4 : nat -> string.
Variable S3_BUCKET_NAME : option string.
Variable CLOUDFRONT_DOMAIN : option string.
Variable getSignedUrl : string -> S3Params -> Exn + string.

Local Abbreviation getUploadVideoUrl' :=
  (getUploadVideoUrl uuidv4 S3_BUCKET_NAME CLOUDFRONT_DOMAIN getSignedUrl).

(** X13: with a file name and a file type, three things can still go
    wrong, and each is answered with 500 and the message of the error,
    after one identifier has been drawn.  A file name that ToString cannot
    convert makes the key template throw, before the bucket is looked at
    and without a signing call.  With a file name converted to [name], a
    missing bucket makes the handler throw before it asks the signer, so
    no signing call is made; and when the signer throws, its message is
    passed on. *)
Theorem upload_failures (req : Request) (w : World) :
  truthy (prop (body req) "fileName") = true ->
  truthy (prop (body req) "fileType") = true ->
  (forall e,
     to_string (prop (body req) "fileName") = inl e ->
     getUploadVideoUrl' req w =
     (reply_error 500 "Error generating upload URL" (ErrText (exn_message e)),
      with_drawn (S (drawn w)) w))
  /\ (forall name,
        to_string (prop (body req) "fileName") = inr name ->
        env_set S3_BUCKET_NAME = false ->
        getUploadVideoUrl' req w =
        (reply_error 500 "Error generating upload URL"
           (ErrText "S3_BUCKET_NAME is not configured"),
         with_drawn (S (drawn w)) w))
  /\ (forall name e,
        to_string (prop (body req) "fileName") = inr name ->
        safe_numbers (prop (body req) "fileName") = true ->
        env_set S3_BUCKET_NAME = true ->
        let params :=
          mkS3Params (env_text S3_BUCKET_NAME)
            (String.append "videos/"
               (String.append (uuidv4 (drawn w)) (String.append "/" name)))
            60 (prop (body req) "fileType") in
        getSignedUrl "putObject" params = inl e ->
        getUploadVideoUrl' req w =
        (reply_error 500 "Error generating upload URL" (ErrText (exn_message e)),
         with_s3_call ("putObject", params) (with_drawn (S (drawn w)) w))).
Proof.
  intros Hname Htype. split; [|split].
  - intros e Htext.
    unfold getUploadVideoUrl, try_catch, bind, uuid, lift.
    rewrite Hname, Htype, Htext. reflexivity.
  - intros name Htext Hbucket.
    unfold getUploadVideoUrl, try_catch, bind, uuid, lift.
    rewrite Hname, Htype, Htext, Hbucket. reflexivity.
  - intros name e Htext _ Hbucket params Hsign.
    unfold getUploadVideoUrl, try_catch, bind, uuid, s3_sign, lift.
    rewrite Hname, Htype, Htext, Hbucket. simpl. fold params. rewrite Hsign.
    reflexivity.
Qed.

(** X14: whatever the request, the upload handler answers with 200, 400 or
    500, never writes the course table, and asks the signer at most
    once. *)
Theorem upload_leaves_table (req : Request) (w : World) :
  let r := (getUploadVideoUrl' req w).1 in
  let w' := (getUploadVideoUrl' req w).2 in
  (status r = 200 \/ status r = 400 \/ status r = 500)
  /\ courses w' = courses w
  /\ (s3_calls w' = s3_calls w
      \/ exists params, s3_calls w' = (s3_calls w ++ [("putObject", params)])%list).
Proof.
  unfold getUploadVideoUrl, try_catch, bind, uuid, s3_sign, lift.
  destruct (negb (truthy (prop (body req) "fileName"))
            || negb (truthy (prop (body req) "fileType"))).
  { simpl. repeat split; auto. }
  simpl.
  destruct (to_string (prop (body req) "fileName")) as [e|name].
  { simpl. repeat split; auto. }
  simpl.
  destruct (negb (env_set S3_BUCKET_NAME)).
  { simpl. repeat split; auto. }
  simpl.
  match goal with |- context [getSignedUrl "putObject" ?p] =>
    destruct (getSignedUrl "putObject" p) as [e|url] end;
    simpl; repeat split; eauto 6.
Qed.

End UploadMore.

(** * More of the client data layer *)

Lemma pretty_N_go_nonempty (x : N) (s : string) :
  s <> "" -> pretty_N_go x s <> "".
Proof.
  revert s. induction (N.lt_wf_0 x) as [x _ IH]. intros s Hs.
  assert (x = 0 \/ 0 < x)%N as [->|Hpos] by lia.
  - rewrite pretty_N_go_0. exact Hs.
  - rewrite pretty_N_go_step by exact Hpos. apply IH.
    + apply N.div_lt; [exact Hpos|reflexivity].
    + discriminate.
Qed.

(** The decimal text of a number is never empty. *)
Lemma pretty_Z_nonempty (n : Z) : pretty n <> "".
Proof.
  assert (Hpos : forall p : positive, pretty (Npos p) <> "").
  { intros p. unfold pretty, pretty_N.
    destruct (decide (N.pos p = 0%N)); [discriminate|].
    rewrite pretty_N_go_step by reflexivity.
    apply pretty_N_go_nonempty. discriminate. }
  destruct n as [|p|p]; unfold pretty, pretty_Z.
  - discriminate.
  - apply Hpos.
  - discriminate.
Qed.

Lemma truthy_status_text (st : Z + string) :
  (forall s, st = inr s -> s <> "") -> truthy (JStr (status_text st)) = true.
Proof.
  intros Hs. simpl.
  destruct (String.eqb (status_text st) "") eqn:E; [|reflexivity].
  apply String.eqb_eq in E. destruct st as [n|s]; simpl in E.
  - destruct (pretty_Z_nonempty n E).
  - destruct (Hs s eq_refl E).
Qed.

Section FetchedFacts.

Variable caught_json : Exn -> JsVal.

Local Abbreviation envelope' := (envelope caught_json).
Local Abbreviation fetched' := (fetched caught_json).

Lemma envelope_members (r : Response) :
  optional_member (envelope' r) "message" = JStr (message r)
  /\ optional_member (envelope' r) "data" = default JUndefined (data r)
  /\ truthy (envelope' r) = true.
Proof.
  unfold envelope. split; [reflexivity|]. split; [|reflexivity].
  destruct (data r), (error r) as [[]|]; reflexivity.
Qed.

(** The text of the error notification for an answer of the course
    service: its message, or its status when the message is empty. *)
Lemma error_toast_text_envelope (r : Response) :
  error_toast_text (mkQueryError (inl (status r)) (envelope' r) None)
  = inr (String.append "Error: "
           (if String.eqb (message r) "" then pretty (status r) else message r)).
Proof.
  pose proof (envelope_members r) as (Hmsg & _ & _).
  pose proof (truthy_status_text (inl (status r)) ltac:(discriminate)) as Hst.
  unfold error_toast_text. cbn [err_data err_status]. rewrite Hmsg.
  unfold or_value. cbn [truthy].
  destruct (String.eqb (message r) "") eqn:Em; cbn [negb].
  - rewrite Hst. reflexivity.
  - cbn [truthy]. rewrite Em. reflexivity.
Qed.

(** X15: what the course service answers is what the client shows for a
    mutation.  A 2xx answer is unwrapped to its [data], without an error,
    and its message, when it is not empty, is shown as the one success
    notification.  Any other answer is handed on as an error with its
    status and body, and the one notification shown is ["Error: "] followed
    by the message of the answer, or by the status when the message is
    empty. *)
Theorem server_reply_through_base_query (url method : string) (r : Response) :
  method <> "" -> method <> "GET" ->
  let out := customBaseQuery (ArgsFetch url (Some method)) (Resolved (fetched' r)) in
  (200 <= status r <= 299 ->
   res_data out.1 = default JUndefined (data r)
   /\ res_error out.1 = None
   /\ out.2 = if String.eqb (message r) "" then []
              else [ToastSuccess (JStr (message r))])
  /\ (~ 200 <= status r <= 299 ->
      out.1 = fetched' r
      /\ res_error out.1 = Some (mkQueryError (inl (status r)) (envelope' r) None)
      /\ out.2 = [ToastError
                    (String.append "Error: "
                       (if String.eqb (message r) "" then pretty (status r)
                        else message r))]).
Proof.
  intros Hm1 Hm2 out. subst out.
  assert (E1 : String.eqb method "" = false) by (apply String.eqb_neq; exact Hm1).
  assert (E2 : String.eqb method "GET" = false) by (apply String.eqb_neq; exact Hm2).
  pose proof (envelope_members r) as (Hmsg & Hdata & Htruthy).
  unfold fetched. split.
  - intros [Hlo Hhi].
    apply Z.leb_le in Hlo. apply Z.leb_le in Hhi. rewrite Hlo, Hhi.
    unfold customBaseQuery.
    cbn [res_error res_data res_meta_status andb]. rewrite E1, E2, Htruthy, Hmsg, Hdata.
    cbn [negb andb app fst snd truthy].
    destruct (String.eqb (message r) ""); repeat split; reflexivity.
  - intros Hout.
    destruct (Z.leb 200 (status r) && Z.leb (status r) 299) eqn:E.
    { exfalso. apply Hout. apply andb_prop in E as [Hlo Hhi].
      apply Z.leb_le in Hlo. apply Z.leb_le in Hhi. split; assumption. }
    assert (H204 : is_204
              (mkQueryResult JUndefined
                 (Some (mkQueryError (inl (status r)) (envelope' r) None))
                 (Some (status r))) = false).
    { unfold is_204. simpl. destruct (Z.eqb (status r) 204) eqn:E204; [|reflexivity].
      apply Z.eqb_eq in E204. rewrite E204 in E. discriminate. }
    unfold customBaseQuery.
    cbn [res_error res_data res_meta_status].
    rewrite error_toast_text_envelope, H204, E1, E2.
    cbn [negb andb app fst snd truthy optional_member prop obj_get default].
    repeat split; reflexivity.
Qed.

End FetchedFacts.


(** X17: once the call is fulfilled the cache keeps the optimistic patch:
    the cached record holds the submitted sections, and sending the same
    progress again changes nothing in the cache. *)
Theorem fulfilled_update_keeps_patch (u : ProgressUpdate) (result : JsVal)
    (cache : Cache) (record : JsObj) :
  cache !! (userId u, courseId u) = Some record ->
  NoDup (obj_keys record) ->
  let cache1 := onQueryStarted u (Fulfilled result) cache in
  cache1 !! (userId u, courseId u)
  = Some (obj_set "sections" (prop (progressData u) "sections") record)
  /\ onQueryStarted u (Fulfilled result) cache1 = cache1.
Proof.
  intros Hrec Hwf cache1.
  set (v := prop (progressData u) "sections").
  assert (Hstep : forall (c : Cache) rec,
            c !! (userId u, courseId u) = Some rec -> NoDup (obj_keys rec) ->
            onQueryStarted u (Fulfilled result) c
            = <[(userId u, courseId u) := obj_set "sections" v rec]> c).
  { intros c rec Hc Hnd.
    unfold onQueryStarted, optimistic_patch, updateQueryData. rewrite Hc.
    rewrite (progress_recipe_sets _ _ Hnd). fold v.
    destruct (diff_set_roundtrip "sections" v rec Hnd) as [Hdo _].
    unfold patchQueryData. simpl. rewrite Hc, Hdo. reflexivity. }
  subst cache1. rewrite (Hstep cache record Hrec Hwf). split.
  - apply lookup_insert_eq.
  - rewrite (Hstep _ (obj_set "sections" v record)).
    + rewrite obj_set_twice, insert_insert_eq. reflexivity.
    + apply lookup_insert_eq.
    + apply obj_set_wf, Hwf.
Qed.

(** X18: without a cached progress record for the user and the course
    there is nothing to patch: the journal is empty and the cache is the
    same after the mutation, fulfilled or rejected. *)
Theorem update_without_cached_record (u : ProgressUpdate) (outcome : QueryOutcome)
    (cache : Cache) :
  cache !! (userId u, courseId u) = None ->
  (optimistic_patch u cache).1 = mkPatchResult [] []
  /\ onQueryStarted u outcome cache = cache.
Proof.
  intros Hnone. unfold onQueryStarted, optimistic_patch, updateQueryData.
  rewrite Hnone. split; [reflexivity|].
  destruct outcome; [reflexivity|].
  unfold undo, patchQueryData. simpl. rewrite Hnone. reflexivity.
Qed.

(** * The checkout navigation hook *)

(** X19: [navigateToStep] pushes the checkout URL with the course id of
    the current URL and the session flag.  For an integer step the URL
    carries the step clamped between 1 and 3: the step itself when it is in
    that range, 1 below it and 3 above it.  For [NaN], which the hook's own
    [checkoutStep] can be, nothing is clamped and the URL carries
    [step=NaN]. *)
Theorem navigate_clamps_step (st : CheckoutState) (step : option Z) :
  exists shown,
    navigateToStep st step
    = String.append "/checkout?step="
        (String.append shown
           (String.append "&id="
              (String.append (checkout_courseId st)
                 (String.append "&showSignup="
                    (if signed_in st then "true" else "false")))))
    /\ (step = None -> shown = "NaN")
    /\ (forall n,
          step = Some n ->
          shown = pretty (clamp_step n)
          /\ 1 <= clamp_step n <= 3
          /\ (1 <= n <= 3 -> clamp_step n = n)
          /\ (n < 1 -> clamp_step n = 1)
          /\ (3 < n -> clamp_step n = 3)).
Proof.
  destruct step as [n|].
  - exists (pretty (clamp_step n)). split; [reflexivity|]. split; [discriminate|].
    intros m [= <-]. unfold clamp_step.
    split; [reflexivity|]. repeat split; lia.
  - exists "NaN". split; [reflexivity|]. split; [reflexivity|]. discriminate.
Qed.

(** X20: the effect of the hook redirects exactly the loaded, signed-out
    visitor whose step parameter reads as a number above 1, and then to
    step 1 of the same course with [showSignup=false]; nothing is pushed
    while the session loads, for a signed-in user, without a step
    parameter, for a step that is not a number, and for a step of at most
    1. *)
Theorem checkout_redirect (st : CheckoutState) :
  (isLoaded st = true ->
   isSignedIn st <> Some true ->
   (exists n, checkoutStep st = Some n /\ 1 < n) ->
   checkout_effect st
   = [String.append "/checkout?step=1&id="
        (String.append (checkout_courseId st) "&showSignup=false")])
  /\ (isLoaded st = false
      \/ isSignedIn st = Some true
      \/ searchParams_get (searchParams st) "step" = None
      \/ checkoutStep st = None
      \/ (exists n, checkoutStep st = Some n /\ n <= 1) ->
      checkout_effect st = []).
Proof.
  unfold checkout_effect, navigateToStep, signed_in. split.
  - intros -> Hout (n & -> & Hn).
    assert (E : match isSignedIn st with Some b => b | None => false end = false).
    { destruct (isSignedIn st) as [[]|]; [contradiction|reflexivity..]. }
    rewrite E. simpl. apply Z.ltb_lt in Hn. rewrite Hn. reflexivity.
  - intros [->|[->|[Hnone|[->|(n & -> & Hn)]]]].
    + reflexivity.
    + rewrite andb_false_r. reflexivity.
    + unfold checkoutStep. rewrite Hnone. simpl.
      rewrite andb_false_r. reflexivity.
    + rewrite andb_false_r. reflexivity.
    + apply Z.ltb_ge in Hn. rewrite Hn, andb_false_r. reflexivity.
Qed.

(** X21: the step that [navigateToStep] writes into the URL is read back
    by the hook as the clamped step, so after the redirect to step 1 the
    effect does not push again. *)
Theorem pushed_step_reads_back (st' : CheckoutState) (step : Z) :
  searchParams_get (searchParams st') "step" = Some (pretty (clamp_step step)) ->
  checkoutStep st' = Some (clamp_step step)
  /\ (clamp_step step = 1 -> checkout_effect st' = []).
Proof.
  intros Hstep.
  assert (Hread : checkoutStep st' = Some (clamp_step step)).
  { unfold checkoutStep. rewrite Hstep. simpl.
    assert (Hc : clamp_step step = 1 \/ clamp_step step = 2 \/ clamp_step step = 3)
      by (unfold clamp_step; lia).
    destruct Hc as [-> | [-> | ->]]; reflexivity. }
  split; [exact Hread|].
  intros H1. unfold checkout_effect. rewrite Hread, H1. simpl.
  rewrite andb_false_r. reflexivity.
Qed.

(** * The dashboard layout and the footer *)

Lemma append_empty_r (s : string) : s +:+ "" = s.
Proof.
  induction s as [|c s IH]; [reflexivity|].
  change (String c (s +:+ "") = String c s). rewrite IH. reflexivity.
Qed.

Lemma strip_prefix_app (p r : string) : strip_prefix p (p +:+ r) = Some r.
Proof.
  induction p as [|c p IH]; simpl; [reflexivity|].
  rewrite Ascii.eqb_refl. exact IH.
Qed.

Lemma strip_prefix_Some (p s r : string) : strip_prefix p s = Some r -> s = p +:+ r.
Proof.
  revert s. induction p as [|c p IH]; intros s; simpl.
  - intros [= ->]. reflexivity.
  - destruct s as [|d s]; [discriminate|].
    destruct (Ascii.eqb c d) eqn:E; [|discriminate].
    apply Ascii.eqb_eq in E. subst d. intros H. rewrite (IH _ H). reflexivity.
Qed.

Lemma take_segment_spec (s seg rest : string) :
  take_segment s = (seg, rest) ->
  s = seg +:+ rest /\ has_slash seg = false
  /\ (rest = "" \/ exists r, rest = String "/" r).
Proof.
  revert seg rest. induction s as [|c s IH]; intros seg rest; simpl.
  - intros [= <- <-]. repeat split. left. reflexivity.
  - destruct (Ascii.eqb c "/") eqn:E.
    + apply Ascii.eqb_eq in E. subst c. intros [= <- <-].
      repeat split. right. eexists. reflexivity.
    + destruct (take_segment s) as [seg' rest'].
      intros [= <- <-]. destruct (IH _ _ eq_refl) as (-> & Hno & Hrest).
      simpl. rewrite E. repeat split; assumption.
Qed.

Lemma take_segment_app (seg rest : string) :
  has_slash seg = false ->
  rest = "" \/ (exists r, rest = String "/" r) ->
  take_segment (seg +:+ rest) = (seg, rest).
Proof.
  intros Hno Hrest. induction seg as [|c seg IH]; simpl in *.
  - destruct Hrest as [->|(r & ->)]; reflexivity.
  - apply orb_false_elim in Hno as [E Hno]. rewrite E, (IH Hno). reflexivity.
Qed.

Lemma isCoursePage_sound (pathname : string) :
  isCoursePage pathname = true ->
  exists course,
    segment course
    /\ (pathname = "/user/courses/" +:+ course
        \/ exists chapter,
             segment chapter
             /\ pathname = "/user/courses/" +:+ course +:+ "/chapters/" +:+ chapter).
Proof.
  unfold isCoursePage.
  destruct (strip_prefix "/user/courses/" pathname) as [rest|] eqn:Hp; [|discriminate].
  apply strip_prefix_Some in Hp. subst pathname.
  destruct (take_segment rest) as [course rest1] eqn:Hseg.
  destruct (take_segment_spec _ _ _ Hseg) as (-> & Hno & _).
  intros H. apply andb_prop in H as [Hne H].
  assert (Hcourse : segment course).
  { split; [|exact Hno]. intros ->. discriminate. }
  exists course. split; [exact Hcourse|].
  destruct rest1 as [|c rest1].
  - left. rewrite append_empty_r. reflexivity.
  - right.
    destruct (strip_prefix "/chapters/" (String c rest1)) as [rest2|] eqn:Hp2;
      [|discriminate].
    apply strip_prefix_Some in Hp2. rewrite Hp2.
    destruct (take_segment rest2) as [chapter rest3] eqn:Hseg2.
    destruct (take_segment_spec _ _ _ Hseg2) as (-> & Hno2 & _).
    apply andb_prop in H as [Hne2 H3]. apply String.eqb_eq in H3. subst rest3.
    exists chapter. split.
    + split; [|exact Hno2]. intros ->. discriminate.
    + rewrite append_empty_r. reflexivity.
Qed.

Lemma nonempty_eqb (s : string) : s <> "" -> negb (String.eqb s "") = true.
Proof.
  intros H. destruct (String.eqb s "") eqn:E; [|reflexivity].
  apply String.eqb_eq in E. contradiction.
Qed.

Lemma isCoursePage_course (course : string) :
  segment course -> isCoursePage ("/user/courses/" +:+ course) = true.
Proof.
  intros [Hne Hno]. unfold isCoursePage. rewrite strip_prefix_app.
  rewrite <- (append_empty_r course) at 1.
  rewrite (take_segment_app course "" Hno) by (left; reflexivity).
  rewrite (nonempty_eqb _ Hne). reflexivity.
Qed.

Lemma isCoursePage_chapter (course chapter : string) :
  segment course -> segment chapter ->
  isCoursePage ("/user/courses/" +:+ course +:+ "/chapters/" +:+ chapter) = true.
Proof.
  intros [Hne Hno] [Hne2 Hno2]. unfold isCoursePage. rewrite strip_prefix_app.
  rewrite (take_segment_app course _ Hno) by (right; eexists; reflexivity).
  rewrite (nonempty_eqb _ Hne).
  change ("/chapters/" +:+ chapter) with (String "/" ("chapters/" +:+ chapter)) at 1.
  cbn [andb].
  rewrite strip_prefix_app.
  rewrite <- (append_empty_r chapter) at 1.
  rewrite (take_segment_app chapter "" Hno2) by (left; reflexivity).
  rewrite (nonempty_eqb _ Hne2). reflexivity.
Qed.

(** X22: the layout takes a path for a course page exactly when it is
    [/user/courses/{course}] or [/user/courses/{course}/chapters/{chapter}]
    with non-empty course and chapter segments that hold no slash; a
    trailing slash, an empty segment or anything after the chapter makes it
    another page. *)
Theorem course_page_paths (pathname : string) :
  isCoursePage pathname = true <->
  exists course,
    segment course
    /\ (pathname = "/user/courses/" +:+ course
        \/ exists chapter,
             segment chapter
             /\ pathname = "/user/courses/" +:+ course +:+ "/chapters/" +:+ chapter).
Proof.
  split; [apply isCoursePage_sound|].
  intros (course & Hc & [->|(chapter & Hch & ->)]).
  - apply isCoursePage_course, Hc.
  - apply isCoursePage_chapter; assumption.
Qed.

Lemma match_course_at_start (course rest : string) :
  segment course ->
  rest = "" \/ (exists r, rest = String "/" r) ->
  match_course ("/user/courses/" +:+ course +:+ rest) = Some course.
Proof.
  intros [Hne Hno] Hrest.
  change ("/user/courses/" +:+ course +:+ rest)
    with (String "/" ("user/courses/" +:+ course +:+ rest)).
  cbn [match_course].
  change (String "/" ("user/courses/" +:+ course +:+ rest))
    with ("/user/courses/" +:+ (course +:+ rest)).
  rewrite strip_prefix_app, (take_segment_app course rest Hno Hrest).
  destruct (String.eqb course "") eqn:E; [|reflexivity].
  apply String.eqb_eq in E. contradiction.
Qed.

(** X23: the course id the layout keeps is the course segment of the path
    on every course page, with or without a chapter, so the search of the
    effect never comes back empty there; on every other page it is
    [null]. *)
Theorem layout_course_id (pathname : string) :
  (isCoursePage pathname = false -> layout_courseId pathname = None)
  /\ (forall course,
        segment course ->
        (pathname = "/user/courses/" +:+ course
         \/ exists chapter,
              segment chapter
              /\ pathname = "/user/courses/" +:+ course +:+ "/chapters/" +:+ chapter) ->
        layout_courseId pathname = Some course).
Proof.
  unfold layout_courseId. split.
  - intros ->. reflexivity.
  - intros course Hc [->|(chapter & Hch & ->)].
    + rewrite (isCoursePage_course _ Hc).
      rewrite <- (append_empty_r course) at 1.
      apply match_course_at_start; [exact Hc|left; reflexivity].
    + rewrite (isCoursePage_chapter _ _ Hc Hch).
      apply match_course_at_start; [exact Hc|].
      right. eexists. reflexivity.
Qed.

Lemma lower_char_space (c : ascii) :
  Ascii.eqb (lower_char c) " " = Ascii.eqb c " ".
Proof. destruct c as [[] [] [] [] [] [] [] []]; reflexivity. Qed.

Lemma count_spaces_lower (s : string) : count_spaces (toLowerCase s) = count_spaces s.
Proof.
  induction s as [|c s IH]; simpl; [reflexivity|].
  rewrite lower_char_space, IH. reflexivity.
Qed.

Lemma count_spaces_replace (s : string) :
  count_spaces (replace_first_space s) = Nat.pred (count_spaces s).
Proof.
  induction s as [|c s IH]; simpl; [reflexivity|].
  destruct (Ascii.eqb c " ") eqn:E; simpl.
  - reflexivity.
  - rewrite E, IH. reflexivity.
Qed.

(** X24: the link of a footer item is a slash followed by the item in
    lower case with its first space, and only the first, turned into a
    dash: the link is one character longer than the item and has one space
    less than it, none when the item has at most one; the four items of the
    footer get [/about], [/privacy-policy], [/licensing] and [/contact]. *)
Theorem footer_links (item : string) :
  String.length (footer_href item) = S (String.length item)
  /\ count_spaces (footer_href item) = Nat.pred (count_spaces item)
  /\ ((count_spaces item <= 1)%nat -> count_spaces (footer_href item) = 0%nat)
  /\ map footer_href footer_items
     = ["/about"; "/privacy-policy"; "/licensing"; "/contact"].
Proof.
  assert (Hlen : forall s, String.length (replace_first_space (toLowerCase s))
                           = String.length s).
  { induction s as [|c s IH]; simpl; [reflexivity|].
    destruct (Ascii.eqb (lower_char c) " "); simpl; [|rewrite IH; reflexivity].
    f_equal. clear IH. induction s as [|d s IH]; simpl; [reflexivity|].
    rewrite IH. reflexivity. }
  assert (Hcount : count_spaces (footer_href item) = Nat.pred (count_spaces item)).
  { change (footer_href item)
      with (String "/" (replace_first_space (toLowerCase item))).
    cbn [count_spaces]. change (Ascii.eqb "/" " ") with false. cbn iota.
    rewrite count_spaces_replace, count_spaces_lower. reflexivity. }
  split; [|split; [exact Hcount|split]].
  - change (footer_href item)
      with (String "/" (replace_first_space (toLowerCase item))).
    cbn [String.length]. rewrite Hlen. reflexivity.
  - intros Hle. rewrite Hcount. lia.
  - reflexivity.
Qed.

(** * The further theorems at the sample data *)

Ltac one_course_keyed :=
  let k := fresh "k" in
  let c := fresh "c" in
  let H := fresh "H" in
  intros k c H; simpl in H;
  apply lookup_singleton_Some in H as [<- <-]; reflexivity.

(** X2 at the samples: a create without a teacher name, an update with an
    unreadable price and a delete by a stranger leave the table alone. *)
Lemma failed_call_keeps_table_witness :
  courses (createCourse sample_uuid typed_model
             (mkRequest "" [("teacherId", JStr "T1")] (Some "T1")) one_course).2
  = courses one_course
  /\ courses (updateCourse sample_uuid sample_parse typed_model
                (put_c1 "T1" [("price", JStr "abc")]) one_course).2
     = courses one_course
  /\ courses (deleteCourse (put_c1 "T2" []) one_course).2 = courses one_course.
Proof.
  split; [|split].
  - apply (proj1 (failed_call_keeps_table sample_uuid sample_parse typed_model
                    (mkRequest "" [("teacherId", JStr "T1")] (Some "T1")) one_course)).
    vm_compute. discriminate.
  - apply (proj1 (proj2 (failed_call_keeps_table sample_uuid sample_parse typed_model
                           (put_c1 "T1" [("price", JStr "abc")]) one_course))).
    vm_compute. discriminate.
  - apply (proj2 (proj2 (failed_call_keeps_table sample_uuid sample_parse typed_model
                           (put_c1 "T2" []) one_course))).
    vm_compute. discriminate.
Defined.

(** X3 at the sample: the one-course table stays well keyed. *)
Lemma handlers_keep_table_keyed_witness :
  table_wf (createCourse sample_uuid typed_model create_request one_course).2
  /\ table_wf (updateCourse sample_uuid sample_parse typed_model
                 (put_c1 "T1" [("price", JStr "25")]) one_course).2
  /\ table_wf (deleteCourse (put_c1 "T1" []) one_course).2.
Proof.
  split; [|split].
  - apply (proj1 (handlers_keep_table_keyed sample_uuid sample_parse typed_model
                    create_request one_course ltac:(one_course_keyed))).
  - apply (proj1 (proj2 (handlers_keep_table_keyed sample_uuid sample_parse typed_model
                    (put_c1 "T1" [("price", JStr "25")]) one_course
                    ltac:(one_course_keyed)))).
  - apply (proj2 (proj2 (handlers_keep_table_keyed sample_uuid sample_parse typed_model
                    (put_c1 "T1" []) one_course ltac:(one_course_keyed)))).
Defined.

(** X4 at the sample: the price update is what the next get returns. *)
Lemma update_then_get_witness :
  exists d,
    data (updateCourse sample_uuid sample_parse typed_model
            (put_c1 "T1" [("price", JStr "25")]) one_course).1 = Some d
    /\ getCourse (put_c1 "T1" [("price", JStr "25")])
         (updateCourse sample_uuid sample_parse typed_model
            (put_c1 "T1" [("price", JStr "25")]) one_course).2
       = (reply_data "Course retrieved successfully" d,
          (updateCourse sample_uuid sample_parse typed_model
             (put_c1 "T1" [("price", JStr "25")]) one_course).2).
Proof.
  apply (update_then_get sample_uuid sample_parse typed_model
           (put_c1 "T1" [("price", JStr "25")]) one_course).
  - one_course_keyed.
  - reflexivity.
  - vm_compute. reflexivity.
Defined.


(** X6 at the sample: the price update sent twice. *)
Lemma update_twice_witness :
  updateCourse sample_uuid sample_parse typed_model
    (put_c1 "T1" [("price", JStr "25")])
    (updateCourse sample_uuid sample_parse typed_model
       (put_c1 "T1" [("price", JStr "25")]) one_course).2
  = updateCourse sample_uuid sample_parse typed_model
      (put_c1 "T1" [("price", JStr "25")]) one_course.
Proof.
  apply (update_twice sample_uuid sample_parse typed_model
           (put_c1 "T1" [("price", JStr "25")]) one_course).
  - one_course_keyed.
  - compute_done.
  - reflexivity.
  - reflexivity.
  - reflexivity.
  - vm_compute. reflexivity.
Defined.

(** X8 at the sample: the course created for Alice can be fetched under
    [id-0]. *)
Lemma create_then_get_witness :
  (createCourse sample_uuid typed_model create_request no_course).1
  = reply_data "Course created successfully"
      (JObj (new_course (JStr "id-0") (JStr "T1") (JStr "Alice")))
  /\ getCourse (mkRequest "id-0" [] None)
       (createCourse sample_uuid typed_model create_request no_course).2
     = (reply_data "Course retrieved successfully"
          (JObj (new_course (JStr "id-0") (JStr "T1") (JStr "Alice"))),
        (createCourse sample_uuid typed_model create_request no_course).2).
Proof.
  destruct (create_then_get sample_uuid typed_model create_request no_course)
    as (Hrun & Hget & _).
  - vm_compute. reflexivity.
  - split; [exact Hrun|]. apply Hget. reflexivity.
Defined.

(** X9 at the sample: [T1] owns the course created for [T1], [T2] does
    not. *)
Lemma created_course_owner_witness :
  status (updateCourse sample_uuid sample_parse typed_model
            (mkRequest "id-0" [("title", JStr "Logic")] (Some "T1"))
            (createCourse sample_uuid typed_model create_request no_course).2).1
  <> 403
  /\ status (deleteCourse (mkRequest "id-0" [] (Some "T2"))
               (createCourse sample_uuid typed_model create_request no_course).2).1
     = 403.
Proof.
  split.
  - apply (proj1 (created_course_owner sample_uuid sample_parse typed_model
                    create_request
                    (mkRequest "id-0" [("title", JStr "Logic")] (Some "T1"))
                    no_course ltac:(vm_compute; reflexivity) ltac:(reflexivity))).
    reflexivity.
  - destruct (proj1 (proj2 (created_course_owner sample_uuid sample_parse typed_model
                    create_request (mkRequest "id-0" [] (Some "T2"))
                    no_course ltac:(vm_compute; reflexivity) ltac:(reflexivity))))
      as [_ Hdel].
    + simpl. discriminate.
    + rewrite Hdel. reflexivity.
Defined.

(** X10 at the sample: once [T1] has deleted [c1], it is gone for later
    calls. *)
Lemma delete_then_gone_witness :
  deleteCourse (put_c1 "T1" []) (deleteCourse (put_c1 "T1" []) one_course).2
  = (reply 404 "Course not found", (deleteCourse (put_c1 "T1" []) one_course).2).
Proof.
  destruct (delete_then_gone sample_uuid sample_parse typed_model
              (put_c1 "T1" []) one_course) as [Hgone _].
  - vm_compute. reflexivity.
  - apply (Hgone (put_c1 "T1" [])). reflexivity.
Defined.

(** X11 at the sample: the category ["all"] lists both courses. *)
Lemma list_all_courses_witness :
  exists l,
    listCourses (Some "all") two_courses
    = (reply_data "Courses retrieved successfully" (JArr (map JObj l)), two_courses)
    /\ (forall c, In c l <-> exists k, courses two_courses !! k = Some c)
    /\ length l = size (courses two_courses).
Proof.
  apply (list_all_courses (Some "all") two_courses).
  right. left. reflexivity.
Defined.

(** X12 at the sample: the category ["Science"] lists Bob's course only. *)
Lemma list_courses_of_category_witness :
  exists l,
    listCourses (Some "Science") two_courses
    = (reply_data "Courses retrieved successfully" (JArr (map JObj l)), two_courses)
    /\ forall c, In c l <->
                 (exists k, courses two_courses !! k = Some c)
                 /\ prop c "category" = JStr "Science".
Proof.
  apply (list_courses_of_category "Science" two_courses); discriminate.
Defined.

Example list_science :
  (listCourses (Some "Science") two_courses).1
  = reply_data "Courses retrieved successfully" (JArr [JObj bob_course]).
Proof. vm_compute. reflexivity. Qed.

(** X13 at the samples: a file name that cannot be converted, no bucket,
    and a signer without credentials. *)
Lemma upload_failures_witness :
  getUploadVideoUrl sample_uuid (Some "lms-videos") (Some "https://cdn.example")
    sample_signer unconvertible_upload one_course
  = (reply_error 500 "Error generating upload URL"
       (ErrText "Cannot convert object to primitive value"),
     with_drawn 1 one_course)
  /\ getUploadVideoUrl sample_uuid None (Some "https://cdn.example") sample_signer
       upload_request one_course
     = (reply_error 500 "Error generating upload URL"
          (ErrText "S3_BUCKET_NAME is not configured"),
        with_drawn 1 one_course)
  /\ getUploadVideoUrl sample_uuid (Some "lms-videos") (Some "https://cdn.example")
       failing_signer upload_request one_course
     = (reply_error 500 "Error generating upload URL"
          (ErrText "Missing credentials in config"),
        with_s3_call
          ("putObject",
           mkS3Params "lms-videos" "videos/id-0/intro.mp4" 60 (JStr "video/mp4"))
          (with_drawn 1 one_course)).
Proof.
  split; [|split].
  - apply (proj1 (upload_failures sample_uuid (Some "lms-videos")
                    (Some "https://cdn.example") sample_signer
                    unconvertible_upload one_course
                    ltac:(reflexivity) ltac:(reflexivity)) TypeError).
    reflexivity.
  - apply (proj1 (proj2 (upload_failures sample_uuid None
                           (Some "https://cdn.example")
                           sample_signer upload_request one_course
                           ltac:(reflexivity) ltac:(reflexivity))) "intro.mp4");
      reflexivity.
  - apply (proj2 (proj2 (upload_failures sample_uuid (Some "lms-videos")
                           (Some "https://cdn.example") failing_signer
                           upload_request one_course
                           ltac:(reflexivity) ltac:(reflexivity)))
             "intro.mp4" (Error "Missing credentials in config")); reflexivity.
Defined.

(** X15 at the sample: the 403 of the course service as the client shows
    it. *)
Lemma server_reply_through_base_query_witness :
  (customBaseQuery (ArgsFetch "courses/c1" (Some "PUT"))
     (Resolved (fetched (fun _ => JObj [])
                  (updateCourse sample_uuid sample_parse typed_model
                     (put_c1 "T2" [("price", JStr "10")]) one_course).1))).2
  = [ToastError "Error: Not authorized to update this course "].
Proof.
  destruct (server_reply_through_base_query (fun _ => JObj []) "courses/c1" "PUT"
              (updateCourse sample_uuid sample_parse typed_model
                 (put_c1 "T2" [("price", JStr "10")]) one_course).1)
    as [_ Herr]; [discriminate|discriminate|].
  destruct Herr as (_ & _ & ->).
  - intros [_ Hhi]. vm_compute in Hhi. destruct (Hhi eq_refl).
  - vm_compute. reflexivity.
Defined.

(** X17 at the sample: the fulfilled update leaves the submitted sections
    in the cache. *)
Lemma fulfilled_update_keeps_patch_witness :
  onQueryStarted sample_update (Fulfilled JNull) sample_cache !! ("u1", "c1")
  = Some (obj_set "sections" (JArr [section_progress "s1" true]) cached_progress)
  /\ onQueryStarted sample_update (Fulfilled JNull)
       (onQueryStarted sample_update (Fulfilled JNull) sample_cache)
     = onQueryStarted sample_update (Fulfilled JNull) sample_cache.
Proof.
  apply (fulfilled_update_keeps_patch sample_update JNull sample_cache cached_progress).
  - vm_compute. reflexivity.
  - compute_done.
Defined.

(** X18 at the sample: nothing is cached for the user [u2]. *)
Lemma update_without_cached_record_witness :
  onQueryStarted (mkProgressUpdate "u2" "c1" (progressData sample_update))
    Rejected sample_cache
  = sample_cache.
Proof.
  apply (update_without_cached_record
           (mkProgressUpdate "u2" "c1" (progressData sample_update))
           Rejected sample_cache).
  vm_compute. reflexivity.
Defined.

(** X20 at the sample: the signed-out visitor on step 3 is sent to step
    1. *)
Lemma checkout_redirect_witness :
  checkout_effect signed_out_step3 = ["/checkout?step=1&id=c1&showSignup=false"]
  /\ checkout_effect after_redirect = [].
Proof.
  split.
  - apply (proj1 (checkout_redirect signed_out_step3)).
    + reflexivity.
    + discriminate.
    + exists 3. split; [reflexivity|lia].
  - apply (proj2 (checkout_redirect after_redirect)).
    right. right. right. right. exists 1. split; [reflexivity|lia].
Defined.

(** X21 at the sample: the URL pushed for step 7 reads back as step 3. *)
Lemma pushed_step_reads_back_witness :
  checkoutStep (mkCheckoutState [("step", "3"); ("id", "c1")] true (Some true))
  = Some 3.
Proof.
  apply (pushed_step_reads_back
           (mkCheckoutState [("step", "3"); ("id", "c1")] true (Some true)) 7).
  reflexivity.
Defined.

(** X23 at the sample: the chapter page of the course [abc]. *)
Lemma layout_course_id_witness :
  layout_courseId "/user/courses/abc/chapters/intro" = Some "abc"
  /\ layout_courseId "/user/courses/abc/" = None.
Proof.
  split.
  - apply (proj2 (layout_course_id "/user/courses/abc/chapters/intro") "abc").
    + split; [discriminate|reflexivity].
    + right. exists "intro". split; [|reflexivity].
      split; [discriminate|reflexivity].
  - apply (proj1 (layout_course_id "/user/courses/abc/")). reflexivity.
Defined.

(** * Identifiers drawn and the list after writes *)

Section CoverageOfIdentifiers.

Variable uuidv4 : nat -> string.
Variable JSON_parse : string -> option JsVal.
Variable schema_ok : JsObj -> bool.

Lemma with_drawn_add (n m : nat) (w : World) :
  with_drawn (drawn (with_drawn n w) + m) (with_drawn n w) = with_drawn (n + m) w.
Proof. reflexivity. Qed.

Lemma or_uuid_count (v : JsVal) (w : World) :
  exists id,
    or_uuid uuidv4 v w
    = (Return id, with_drawn (drawn w + (if truthy v then 0 else 1)) w).
Proof.
  unfold or_uuid. destruct (truthy v).
  - exists v. rewrite Nat.add_0_r, with_drawn_same. reflexivity.
  - eexists. unfold uuid. rewrite Nat.add_1_r. reflexivity.
Qed.

Lemma mapM_count {A B : Type} (f : A -> M B) (count : A -> nat) (ok : A -> bool) :
  (forall x w, ok x = true ->
     exists y, f x w = (Return y, with_drawn (drawn w + count x) w)) ->
  forall l w, forallb ok l = true ->
    exists ys, mapM f l w
               = (Return ys, with_drawn (drawn w + list_sum (map count l)) w).
Proof.
  intros Hf. induction l as [|x l IH]; intros w Hok.
  - exists []. simpl. rewrite Nat.add_0_r, with_drawn_same. reflexivity.
  - simpl in Hok. apply andb_prop in Hok as [Hx Hl].
    destruct (Hf x w Hx) as (y & Hy).
    destruct (IH (with_drawn (drawn w + count x) w) Hl) as (ys & Hys).
    exists (y :: ys). simpl. unfold bind. rewrite Hy, Hys. simpl.
    rewrite Nat.add_assoc. reflexivity.
Qed.

Lemma normalize_chapter_count (chapter : JsVal) (w : World) :
  chapter_ok chapter = true ->
  exists stored,
    normalize_chapter uuidv4 chapter w
    = (Return stored, with_drawn (drawn w + missing_id chapter "chapterId") w).
Proof.
  intros Hok. unfold normalize_chapter, bind, missing_id.
  rewrite (member_ok _ _ Hok). unfold ret at 1.
  destruct (or_uuid_count (field chapter "chapterId") w) as (id & ->).
  eexists. reflexivity.
Qed.

Lemma normalize_section_count (section : JsVal) (w : World) :
  section_ok section = true ->
  exists stored,
    normalize_section uuidv4 section w
    = (Return stored, with_drawn (drawn w + section_missing_ids section) w).
Proof.
  intros Hok. destruct section as [| | | | | |o]; try discriminate.
  simpl in Hok. unfold section_missing_ids, missing_id. simpl.
  destruct (prop o "chapters") as [| | | | |chapters|] eqn:Hch; try discriminate.
  unfold normalize_section, bind. simpl. unfold ret at 1.
  destruct (or_uuid_count (prop o "sectionId") w) as (id & ->).
  rewrite Hch. unfold call_map, bind.
  set (n1 := (drawn w + (if truthy (prop o "sectionId") then 0 else 1))%nat).
  destruct (mapM_count (normalize_chapter uuidv4)
              (fun chapter => missing_id chapter "chapterId") chapter_ok
              normalize_chapter_count chapters (with_drawn n1 w) Hok)
    as (chapters' & ->).
  eexists. simpl. subst n1. rewrite Nat.add_assoc. reflexivity.
Qed.

(** X25: an update that gets through draws exactly one identifier for
    every section without a truthy [sectionId] and one for every chapter
    without a truthy [chapterId], and none for a list in which every entry
    has its identifier. *)
Theorem update_draws_missing_ids (req : Request) (w : World) (c : JsObj)
    (sections : list JsVal) :
  courses w !! params_courseId req = Some c ->
  strict_eq (prop c "teacherId") (userId_of req) = true ->
  price_accepted (body req) ->
  submitted_sections JSON_parse (body req) sections ->
  forallb section_ok sections = true ->
  drawn (updateCourse uuidv4 JSON_parse schema_ok req w).2
  = (drawn w + sections_missing_ids sections)%nat.
Proof.
  intros Hc Hown Hacc Hsub Hok.
  destruct (normalize_price_accepted _ Hacc) as (ud & Hprice).
  pose proof (submitted_sections_price JSON_parse _ _ _ Hprice Hsub) as Hsub1.
  destruct (mapM_count (normalize_section uuidv4) section_missing_ids section_ok
              normalize_section_count sections w Hok) as (sections' & Hrun).
  rewrite (updateCourse_owner uuidv4 JSON_parse schema_ok req w c ud Hc Hown Hprice).
  rewrite (normalize_sections_submitted uuidv4 JSON_parse ud sections w Hsub1), Hrun.
  unfold Course_save.
  destruct (prop _ "courseId"); try reflexivity.
  destruct (schema_ok _); reflexivity.
Qed.

(** X26: the list follows the writes: after a successful create the new
    record is in the list of all courses, and after a successful delete of
    a well-keyed table the deleted record is in it no more. *)
Theorem list_follows_writes (req : Request) (w : World) :
  (status (createCourse uuidv4 schema_ok req w).1 = 200 ->
   exists c l,
     data (createCourse uuidv4 schema_ok req w).1 = Some (JObj c)
     /\ data (listCourses None (createCourse uuidv4 schema_ok req w).2).1
        = Some (JArr (map JObj l))
     /\ In c l)
  /\ (table_wf w ->
      status (deleteCourse req w).1 = 200 ->
      exists c l,
        data (deleteCourse req w).1 = Some (JObj c)
        /\ data (listCourses None (deleteCourse req w).2).1
           = Some (JArr (map JObj l))
        /\ ~ In c l).
Proof.
  split.
  - rewrite (createCourse_run uuidv4 schema_ok req w).
    destruct (negb _ || negb _); [discriminate|].
    cbv zeta. destruct (schema_ok _); [|discriminate]. intros _.
    eexists _, (map snd (map_to_list _)).
    split; [reflexivity|]. split; [reflexivity|].
    apply (proj2 (scanned_records _ _)). exists (uuidv4 (drawn w)).
    apply lookup_insert_eq.
  - intros Hwf. rewrite (deleteCourse_run req w).
    destruct (courses w !! params_courseId req) as [c|] eqn:Hc; [|discriminate].
    destruct (strict_eq _ _); [|discriminate]. intros _.
    eexists c, (map snd (map_to_list _)).
    split; [reflexivity|]. split; [reflexivity|].
    intros Hin. apply (proj1 (scanned_records _ _)) in Hin as (k & Hk).
    cbn [courses with_courses snd] in Hk.
    apply lookup_delete_Some in Hk as [Hne Hk].
    apply Hne. pose proof (Hwf _ _ Hc) as H1. pose proof (Hwf _ _ Hk) as H2.
    congruence.
Qed.

End CoverageOfIdentifiers.

(** X25 at the sample: the draft needs two identifiers. *)
Lemma update_draws_missing_ids_witness :
  drawn (updateCourse sample_uuid sample_parse typed_model
           (put_c1 "T1" [("sections", JArr draft_sections)]) one_course).2
  = 2%nat.
Proof.
  apply (update_draws_missing_ids sample_uuid sample_parse typed_model
           (put_c1 "T1" [("sections", JArr draft_sections)])
           one_course alice_course draft_sections).
  - vm_compute. reflexivity.
  - vm_compute. reflexivity.
  - unfold price_accepted. simpl. discriminate.
  - left. reflexivity.
  - reflexivity.
Defined.

(** X26 at the samples: Alice's new course is listed, her deleted course
    is not. *)
Lemma list_follows_writes_witness :
  (exists c l,
     data (createCourse sample_uuid typed_model create_request one_course).1
     = Some (JObj c)
     /\ data (listCourses None
                (createCourse sample_uuid typed_model create_request one_course).2).1
        = Some (JArr (map JObj l))
     /\ In c l)
  /\ (exists c l,
        data (deleteCourse (put_c1 "T1" []) two_courses).1 = Some (JObj c)
        /\ data (listCourses None (deleteCourse (put_c1 "T1" []) two_courses).2).1
           = Some (JArr (map JObj l))
        /\ ~ In c l).
Proof.
  split.
  - apply (proj1 (list_follows_writes sample_uuid typed_model create_request one_course)).
    vm_compute. reflexivity.
  - apply (proj2 (list_follows_writes sample_uuid typed_model (put_c1 "T1" []) two_courses)).
    + intros k c H. simpl in H.
      apply lookup_insert_Some in H as [[<- <-]|[_ H]]; [reflexivity|].
      apply lookup_singleton_Some in H as [<- <-]. reflexivity.
    + vm_compute. reflexivity.
Defined.
